(** * Subscription lifecycle of the PNP Television bot

    A shallow embedding of the record store ([hybrid_database.py]), the
    subscription and onboarding handlers ([hybrid_handlers.py]) and the
    handler registration ([hybrid_main.py]), with the properties of the
    subscription ledger, the access grant and the onboarding gate.

    SQLite tables are lists of rows in rowid order.  Timestamps are
    integers (microseconds since [datetime.min]); NULL columns are
    [None].  The two clocks the code reads, SQLite's [CURRENT_TIMESTAMP]
    and Python's [datetime.now()], are separate fields of the world.
    A storage failure is an entry of a fault schedule consumed by each
    connection that is opened. *)

From Stdlib Require Import ZArith NArith List String Ascii Bool Lia Permutation DecimalString Sorted.
Import ListNotations.
Open Scope string_scope.
Open Scope Z_scope.

(** ** Exceptions and the state-and-exception monad *)

Inductive exn : Type :=
| IntegrityError
| OperationalError
| ValueError
| TypeError
| AttributeError
| IndexError
| OverflowError.

Inductive result (A : Type) : Type :=
| Ok (a : A)
| Raise (e : exn).
Arguments Ok {A} a.
Arguments Raise {A} e.

(** ** Rows of the schema created by [create_tables] *)

Record UserRow : Type := mkUserRow {
  u_id : Z;
  u_telegram_id : Z;
  u_username : option string;
  u_first_name : option string;
  u_last_name : option string;
  u_language_code : option string;
  u_phone_number : option string;
  u_is_admin : bool;
  u_is_banned : bool;
  u_created_at : option Z;
  u_updated_at : option Z;
  u_last_activity : option Z;
  u_referral_code : option string;
  u_referred_by : option Z;
  u_notes : option string
}.

Record Subscription : Type := mkSubscription {
  s_id : Z;
  s_user_id : Z;
  s_plan_type : string;
  s_status : option string;
  s_start_date : option Z;
  s_end_date : option Z;
  s_payment_amount : option Z;
  s_payment_method : option string;
  s_payment_reference : option string;
  s_created_at : option Z;
  s_updated_at : option Z;
  s_notes : option string
}.

Record AuditRow : Type := mkAuditRow {
  a_user_id : option Z;
  a_admin_id : option Z;
  a_action : string;
  a_details : option string;
  a_created_at : option Z
}.

(** The payload of an analytics event is kept as the dictionary that
    [json.dumps] serializes into the [event_data] column. *)
Inductive JsonValue : Type :=
| JStr (s : string)
| JBool (b : bool).

Definition EventData : Type := list (string * JsonValue).

Record AnalyticsRow : Type := mkAnalyticsRow {
  e_user_id : option Z;
  e_event_type : string;
  e_event_data : option EventData;
  e_created_at : option Z
}.

(** ** The world: tables, clocks, pending storage faults, error log *)

Record World : Type := mkWorld {
  users : list UserRow;
  subscriptions : list Subscription;
  sub_seq : N;
  audit_log : list AuditRow;
  analytics_events : list AnalyticsRow;
  current_timestamp : Z;
  datetime_now : Z;
  faults : list bool;
  error_log : list string
}.

Definition set_users (us : list UserRow) (w : World) : World :=
  mkWorld us (subscriptions w) (sub_seq w) (audit_log w) (analytics_events w)
          (current_timestamp w) (datetime_now w) (faults w) (error_log w).

Definition set_subscriptions (ss : list Subscription) (w : World) : World :=
  mkWorld (users w) ss (sub_seq w) (audit_log w) (analytics_events w)
          (current_timestamp w) (datetime_now w) (faults w) (error_log w).

Definition set_sub_seq (n : N) (w : World) : World :=
  mkWorld (users w) (subscriptions w) n (audit_log w) (analytics_events w)
          (current_timestamp w) (datetime_now w) (faults w) (error_log w).

Definition set_audit_log (l : list AuditRow) (w : World) : World :=
  mkWorld (users w) (subscriptions w) (sub_seq w) l (analytics_events w)
          (current_timestamp w) (datetime_now w) (faults w) (error_log w).

Definition set_analytics_events (l : list AnalyticsRow) (w : World) : World :=
  mkWorld (users w) (subscriptions w) (sub_seq w) (audit_log w) l
          (current_timestamp w) (datetime_now w) (faults w) (error_log w).

Definition set_faults (fs : list bool) (w : World) : World :=
  mkWorld (users w) (subscriptions w) (sub_seq w) (audit_log w) (analytics_events w)
          (current_timestamp w) (datetime_now w) fs (error_log w).

Definition set_error_log (l : list string) (w : World) : World :=
  mkWorld (users w) (subscriptions w) (sub_seq w) (audit_log w) (analytics_events w)
          (current_timestamp w) (datetime_now w) (faults w) l.

Definition M (A : Type) : Type := World -> result A * World.

Definition ret {A} (a : A) : M A := fun w => (Ok a, w).

Definition raise {A} (e : exn) : M A := fun w => (Raise e, w).

Definition bind {A B} (m : M A) (k : A -> M B) : M B :=
  fun w => match m w with
           | (Ok a, w') => k a w'
           | (Raise e, w') => (Raise e, w')
           end.

(** Python's [try: m except Exception as e: h e]. *)
Definition try_except {A} (m : M A) (h : exn -> M A) : M A :=
  fun w => match m w with
           | (Ok a, w') => (Ok a, w')
           | (Raise e, w') => h e w'
           end.

Notation "x <- m ;; k" := (bind m (fun x => k))
  (at level 61, m at next level, right associativity).
Notation "m ;;; k" := (bind m (fun _ => k))
  (at level 61, right associativity).

Definition get_world : M World := fun w => (Ok w, w).

(** [logger.error(...)]: the message is kept by its call site. *)
Definition logger_error (site : string) : M unit :=
  fun w => (Ok tt, set_error_log (error_log w ++ [site]) w).

(** ** Connections ([DatabaseManager]) *)

(** A SQL statement acts on the tables; it either completes or raises and
    is rolled back. *)
Definition statement (A : Type) : Type := World -> result A * World.

(** [get_connection]: opening the connection or running the statement
    raises when a storage fault is due; the tables are then as they were. *)
Definition get_connection {A} (stmt : statement A) : M A :=
  fun w => match faults w with
           | true :: fs => (Raise OperationalError, set_faults fs w)
           | false :: fs => stmt (set_faults fs w)
           | [] => stmt w
           end.

(** [execute_query] runs one statement on a fresh connection and re-raises
    whatever it raised. *)
Definition execute_query {A} (stmt : statement A) : M A := get_connection stmt.

(** ** SQL comparison of nullable timestamps *)

(** [a > b] in a WHERE clause: NULL never satisfies it. *)
Definition sql_gt (a : option Z) (b : Z) : bool :=
  match a with Some x => b <? x | None => false end.

(** [a <= b] in a WHERE clause. *)
Definition sql_le (a : option Z) (b : Z) : bool :=
  match a with Some x => x <=? b | None => false end.

(** [col = 'text'] in a WHERE clause. *)
Definition sql_eq_text (a : option string) (s : string) : bool :=
  match a with Some x => String.eqb x s | None => false end.

(** Ordering used by ORDER BY: NULL sorts below every value. *)
Definition order_leb (a b : option Z) : bool :=
  match a, b with
  | None, _ => true
  | Some _, None => false
  | Some x, Some y => x <=? y
  end.

(** ** Subscriptions *)

Definition user_exists (uid : Z) (w : World) : bool :=
  existsb (fun u => u_telegram_id u =? uid) (users w).

(** The rowid of an AUTOINCREMENT table: one more than the largest rowid
    the table holds or has ever held ([sub_seq], the table's entry in
    [sqlite_sequence]). *)
Definition next_subscription_rowid (w : World) : Z :=
  Z.max (Z.of_N (sub_seq w))
        (fold_right (fun s m => Z.max (s_id s) m) 0 (subscriptions w)) + 1.

(** INSERT INTO subscriptions (user_id, plan_type, status, start_date,
    end_date, payment_amount) VALUES (?, ?, 'active', ?, ?, ?), under
    [PRAGMA foreign_keys = ON]; yields [cursor.lastrowid]. *)
Definition insert_subscription (user_id : Z) (plan_type : string)
    (start_date end_date : Z) (payment_amount : option Z) : statement Z :=
  fun w =>
    if user_exists user_id w then
      let rowid := next_subscription_rowid w in
      let row := mkSubscription rowid user_id plan_type (Some "active")
                   (Some start_date) (Some end_date) payment_amount None None
                   (Some (current_timestamp w)) (Some (current_timestamp w)) None in
      (Ok rowid,
       set_sub_seq (Z.to_N rowid)
         (set_subscriptions (subscriptions w ++ [row]) w))
    else (Raise IntegrityError, w).

Definition create_subscription (user_id : Z) (plan_type : string)
    (start_date end_date : Z) (payment_amount : option Z) : M (option Z) :=
  try_except
    (subscription_id <- get_connection
        (insert_subscription user_id plan_type start_date end_date payment_amount) ;;
     ret (Some subscription_id))
    (fun _ => logger_error "create_subscription" ;;; ret None).

(** ORDER BY end_date DESC: insertion into a list sorted by decreasing
    [end_date].  SQLite leaves the order of rows with equal keys open;
    here they keep their rowid order. *)
Fixpoint insert_desc (r : Subscription) (l : list Subscription) : list Subscription :=
  match l with
  | [] => [r]
  | x :: l' =>
      if order_leb (s_end_date x) (s_end_date r)
      then r :: l
      else x :: insert_desc r l'
  end.

Fixpoint order_by_end_date_desc (l : list Subscription) : list Subscription :=
  match l with
  | [] => []
  | r :: l' => insert_desc r (order_by_end_date_desc l')
  end.

(** WHERE user_id = ? AND status = 'active' AND end_date > CURRENT_TIMESTAMP *)
Definition active_where (user_id now : Z) (s : Subscription) : bool :=
  (s_user_id s =? user_id) && sql_eq_text (s_status s) "active"
  && sql_gt (s_end_date s) now.

(** SELECT * FROM subscriptions WHERE ... ORDER BY end_date DESC LIMIT 1 *)
Definition select_active_subscription (user_id : Z) : statement (list Subscription) :=
  fun w =>
    (Ok (firstn 1 (order_by_end_date_desc
                     (filter (active_where user_id (current_timestamp w))
                             (subscriptions w)))), w).

Definition get_active_subscription (user_id : Z) : M (option Subscription) :=
  try_except
    (result <- execute_query (select_active_subscription user_id) ;;
     ret (match result with r :: _ => Some r | [] => None end))
    (fun _ => logger_error "get_active_subscription" ;;; ret None).

(** [datetime.fromisoformat(subscription['end_date'])]: a NULL column is
    [None] in Python and raises [TypeError]. *)
Definition fromisoformat (t : option Z) : M Z :=
  match t with Some x => ret x | None => raise TypeError end.

Definition is_user_subscribed (user_id : Z) : M (bool * option Subscription) :=
  try_except
    (subscription <- get_active_subscription user_id ;;
     match subscription with
     | Some s =>
         end_date <- fromisoformat (s_end_date s) ;;
         w <- get_world ;;
         let is_active := datetime_now w <? end_date in
         ret (is_active, Some s)
     | None => ret (false, None)
     end)
    (fun _ => logger_error "is_user_subscribed" ;;; ret (false, None)).

(** UPDATE subscriptions SET status = 'expired', updated_at = CURRENT_TIMESTAMP
    WHERE status = 'active' AND end_date <= CURRENT_TIMESTAMP *)
Definition expire_where (now : Z) (s : Subscription) : bool :=
  sql_eq_text (s_status s) "active" && sql_le (s_end_date s) now.

Definition set_expired (now : Z) (s : Subscription) : Subscription :=
  mkSubscription (s_id s) (s_user_id s) (s_plan_type s) (Some "expired")
    (s_start_date s) (s_end_date s) (s_payment_amount s) (s_payment_method s)
    (s_payment_reference s) (s_created_at s) (Some now) (s_notes s).

Definition update_expired : statement Z :=
  fun w =>
    let now := current_timestamp w in
    (Ok (Z.of_nat (List.length (filter (expire_where now) (subscriptions w)))),
     set_subscriptions
       (map (fun s => if expire_where now s then set_expired now s else s)
            (subscriptions w)) w).

Definition expire_subscriptions : M Z :=
  try_except
    (rows_affected <- execute_query update_expired ;;
     ret rows_affected)
    (fun _ => logger_error "expire_subscriptions" ;;; ret 0).

(** ** Users *)

(** The [User] dataclass; its three timestamp fields are never written by
    [create_user] and are left out. *)
Record User : Type := mkUser {
  telegram_id : Z;
  username : option string;
  first_name : option string;
  last_name : option string;
  language_code : option string;
  phone_number : option string;
  is_admin : bool;
  is_banned : bool
}.

(** Python's [x or 'es'] on an optional string: [None] and the empty
    string are falsy. *)
Definition or_es (x : option string) : string :=
  match x with
  | Some EmptyString => "es"
  | Some s => s
  | None => "es"
  end.

(** The rowid SQLite gives a row inserted without one: one more than the
    largest in the table. *)
Definition next_user_rowid (us : list UserRow) : Z :=
  fold_right (fun u m => Z.max (u_id u) m) 0 us + 1.

(** INSERT OR REPLACE INTO users (telegram_id, username, first_name,
    last_name, language_code, phone_number, is_admin, is_banned, updated_at,
    last_activity) VALUES (?, ..., CURRENT_TIMESTAMP, CURRENT_TIMESTAMP):
    a row with the same [telegram_id] (UNIQUE) is deleted, and the new row
    takes the column defaults for every column not listed. *)
Definition insert_or_replace_user (user_data : User) : statement Z :=
  fun w =>
    let now := current_timestamp w in
    let row := mkUserRow (next_user_rowid (users w)) (telegram_id user_data)
                 (username user_data) (first_name user_data) (last_name user_data)
                 (Some (or_es (language_code user_data)))
                 (phone_number user_data) (is_admin user_data) (is_banned user_data)
                 (Some now) (Some now) (Some now) None None None in
    (Ok 1,
     set_users
       (filter (fun u => negb (u_telegram_id u =? telegram_id user_data)) (users w)
        ++ [row]) w).

Definition create_user (user_data : User) : M bool :=
  try_except
    (rows_affected <- execute_query (insert_or_replace_user user_data) ;;
     if rows_affected >? 0 then ret true else ret false)
    (fun _ => logger_error "create_user" ;;; ret false).

(** SELECT * FROM users WHERE telegram_id = ? *)
Definition select_user (tid : Z) : statement (list UserRow) :=
  fun w => (Ok (filter (fun u => u_telegram_id u =? tid) (users w)), w).

Definition get_user (tid : Z) : M (option UserRow) :=
  try_except
    (result <- execute_query (select_user tid) ;;
     ret (match result with r :: _ => Some r | [] => None end))
    (fun _ => logger_error "get_user" ;;; ret None).

Definition touch_user (now : Z) (u : UserRow) : UserRow :=
  mkUserRow (u_id u) (u_telegram_id u) (u_username u) (u_first_name u)
    (u_last_name u) (u_language_code u) (u_phone_number u) (u_is_admin u)
    (u_is_banned u) (u_created_at u) (u_updated_at u) (Some now)
    (u_referral_code u) (u_referred_by u) (u_notes u).

(** UPDATE users SET last_activity = CURRENT_TIMESTAMP WHERE telegram_id = ? *)
Definition update_last_activity (tid : Z) : statement Z :=
  fun w =>
    let now := current_timestamp w in
    (Ok (Z.of_nat (List.length (filter (fun u => u_telegram_id u =? tid) (users w)))),
     set_users
       (map (fun u => if u_telegram_id u =? tid then touch_user now u else u)
            (users w)) w).

Definition update_user_activity (tid : Z) : M bool :=
  try_except
    (rows_affected <- execute_query (update_last_activity tid) ;;
     ret (rows_affected >? 0))
    (fun _ => logger_error "update_user_activity" ;;; ret false).

(** ** Analytics and audit *)

(** A nullable foreign key to [users (telegram_id)]. *)
Definition fk_user_ok (uid : option Z) (w : World) : bool :=
  match uid with Some x => user_exists x w | None => true end.

(** INSERT INTO analytics_events (user_id, event_type, event_data) VALUES (?, ?, ?) *)
Definition insert_analytics_event (user_id : Z) (event_type : string)
    (event_data : option EventData) : statement Z :=
  fun w =>
    if fk_user_ok (Some user_id) w then
      (Ok 1,
       set_analytics_events
         (analytics_events w ++
          [mkAnalyticsRow (Some user_id) event_type event_data
                          (Some (current_timestamp w))]) w)
    else (Raise IntegrityError, w).

(** INSERT INTO audit_log (user_id, admin_id, action, details) VALUES (?, ?, ?, ?) *)
Definition insert_audit_event (user_id admin_id : Z) (action : string)
    (details : option string) : statement Z :=
  fun w =>
    if fk_user_ok (Some user_id) w && fk_user_ok (Some admin_id) w then
      (Ok 1,
       set_audit_log
         (audit_log w ++
          [mkAuditRow (Some user_id) (Some admin_id) action details
                      (Some (current_timestamp w))]) w)
    else (Raise IntegrityError, w).

Definition log_audit_event (user_id admin_id : Z) (action : string)
    (details : option string) : M bool :=
  try_except
    (rows_affected <- execute_query (insert_audit_event user_id admin_id action details) ;;
     ret (rows_affected >? 0))
    (fun _ => logger_error "log_audit_event" ;;; ret false).

(** ** Configuration ([app_config]) *)

Record AppConfig : Type := mkAppConfig {
  admin_user_id : option Z;
  enable_analytics : bool
}.

(** [json.dumps(event_data) if event_data else None]: an empty
    dictionary is falsy. *)
Definition event_data_json (event_data : option EventData) : option EventData :=
  match event_data with
  | Some ((_ :: _) as d) => Some d
  | _ => None
  end.

Definition log_analytics_event (cfg : AppConfig) (user_id : Z) (event_type : string)
    (event_data : option EventData) : M bool :=
  if negb (enable_analytics cfg) then ret true
  else
    try_except
      (rows_affected <- execute_query
          (insert_analytics_event user_id event_type (event_data_json event_data)) ;;
       ret (rows_affected >? 0))
      (fun _ => logger_error "log_analytics_event" ;;; ret false).

(** ** Plans ([PLANS]) *)

Record Plan : Type := mkPlan {
  plan_name : string;
  plan_price : string;
  plan_days : Z
}.

Definition PLANS : list (string * Plan) :=
  [ ("week",     mkPlan "WEEK PASS"     "$14.99"  7);
    ("month",    mkPlan "MONTH PASS"    "$24.99"  30);
    ("3month",   mkPlan "3 MONTH PASS"  "$49.99"  90);
    ("halfyear", mkPlan "1/2 YEAR PASS" "$79.99"  180);
    ("year",     mkPlan "1 YEAR PASS"   "$99.99"  365);
    ("lifetime", mkPlan "LIFETIME PASS" "$149.99" 9999) ].

(** [PLANS.get(plan_id)] *)
Fixpoint dict_get {V} (d : list (string * V)) (k : string) : option V :=
  match d with
  | [] => None
  | (k', v) :: d' => if String.eqb k' k then Some v else dict_get d' k
  end.

(** [PLANS.get(plan_type, {}).get('days', 30)] *)
Definition plan_days_or_30 (plan_type : string) : Z :=
  match dict_get PLANS plan_type with
  | Some p => plan_days p
  | None => 30
  end.

(** ** Dates *)

Definition US_PER_DAY : Z := 86400000000.

(** [datetime.max] is 9999-12-31 23:59:59.999999, day 3652059 of the calendar. *)
Definition DATETIME_MAX : Z := 3652059 * US_PER_DAY - 1.

(** [timedelta(days=d)] raises [OverflowError] beyond 999999999 days. *)
Definition timedelta_days (d : Z) : M Z :=
  if Z.abs d <=? 999999999 then ret (d * US_PER_DAY) else raise OverflowError.

(** [datetime + timedelta] raises [OverflowError] outside the calendar. *)
Definition datetime_add (t delta : Z) : M Z :=
  let r := t + delta in
  if (0 <=? r) && (r <=? DATETIME_MAX) then ret r else raise OverflowError.

(** ** Updates and replies *)

Record TelegramUser : Type := mkTelegramUser {
  tg_id : Z;
  tg_username : option string;
  tg_first_name : option string;
  tg_last_name : option string;
  tg_language_code : option string
}.

(** An inbound event: a command message with its arguments
    ([context.args]), or a pressed button with its callback data. *)
Inductive Update : Type :=
| CommandUpdate (sender : option TelegramUser) (command : string) (args : list string)
| CallbackUpdate (sender : TelegramUser) (data : string).

Definition effective_user (upd : Update) : option TelegramUser :=
  match upd with
  | CommandUpdate sender _ _ => sender
  | CallbackUpdate sender _ => Some sender
  end.

(** What a handler sends back; the localized text itself is looked up
    outside this development. *)
Inductive Screen : Type :=
| InternalErrorRetry
| SupportError
| LanguageSelection
| AgeVerification (lang : option string)
| AgeRestricted (lang : option string)
| TermsAcceptance (lang : option string)
| OnboardingComplete (lang : option string)
| MainMenu (lang : option string) (status_active access_button admin_button : bool)
| PlansList (lang : option string)
| SubscriptionStatus (lang : option string) (active : bool)
| SettingsMenu (lang : option string)
| HelpMenu (lang : option string)
| EditError
| NotRecognized
| GrantUsage
| GrantDone (user_id : Z) (plan_type : string) (days end_date : Z)
| GrantFailed
| GrantException (e : exn).

(** [str(n)] for an integer. *)
Definition str_of_int (n : Z) : string :=
  DecimalString.NilZero.string_of_int (Z.to_int n).

(** Truth value of an optional row id ([if subscription_id:]). *)
Definition truthy_id (x : option Z) : bool :=
  match x with Some n => negb (n =? 0) | None => false end.

(** [s.split('_')[-1]] *)
Fixpoint last_segment (s acc : string) : string :=
  match s with
  | EmptyString => acc
  | String c s' =>
      if Ascii.eqb c "_"%char then last_segment s' EmptyString
      else last_segment s' (acc ++ String c EmptyString)
  end.

(** [s.split('_')]. *)
Fixpoint split_underscore (s acc : string) : list string :=
  match s with
  | EmptyString => [acc]
  | String c s' =>
      if Ascii.eqb c "_"%char then acc :: split_underscore s' EmptyString
      else split_underscore s' (acc ++ String c EmptyString)
  end.

(** ** Handlers ([hybrid_handlers.py]) *)

Section Handlers.

(** Python's built-in [int(str)]: [None] stands for [ValueError]. *)
Variable py_int : string -> option Z.

(** [app.translations.set_user_language], which persists the chosen
    locale; its module is outside the files studied here. *)
Variable set_user_language : Z -> string -> M unit.

Variable cfg : AppConfig.

Definition int (s : string) : M Z :=
  match py_int s with Some n => ret n | None => raise ValueError end.

Definition safe_user_update (telegram_user : TelegramUser) : M (option UserRow) :=
  try_except
    (let user_data :=
       mkUser (tg_id telegram_user) (tg_username telegram_user)
              (tg_first_name telegram_user) (tg_last_name telegram_user)
              (Some (or_es (tg_language_code telegram_user))) None false false in
     success <- create_user user_data ;;
     if negb success then
       logger_error "safe_user_update: create" ;;; ret None
     else
       update_user_activity (tg_id telegram_user) ;;;
       get_user (tg_id telegram_user))
    (fun _ => logger_error "safe_user_update" ;;; ret None).

(** [user_data.get('language_code', 'es') if user_data else 'es'] *)
Definition get_user_language (user_id : Z) : M (option string) :=
  try_except
    (user_data <- get_user user_id ;;
     ret (match user_data with
          | Some u => u_language_code u
          | None => Some "es"
          end))
    (fun _ => ret (Some "es")).

(** [not lc or lc == 'unknown'] *)
Definition needs_language_gate (lc : option string) : bool :=
  match lc with
  | None => true
  | Some EmptyString => true
  | Some s => String.eqb s "unknown"
  end.

Definition show_language_selection : M (list Screen) :=
  ret [LanguageSelection].

Definition is_admin_user (user_id : Z) : bool :=
  match admin_user_id cfg with
  | Some a => user_id =? a
  | None => false
  end.

Definition start (upd : Update) : M (list Screen) :=
  try_except
    (match effective_user upd with
     | None => ret []
     | Some user =>
         log_analytics_event cfg (tg_id user) "start_command" None ;;;
         user_data <- safe_user_update user ;;
         match user_data with
         | None => ret [InternalErrorRetry]
         | Some ud =>
             user_lang <- get_user_language (tg_id user) ;;
             if needs_language_gate (u_language_code ud) then
               show_language_selection
             else
               sub <- is_user_subscribed (tg_id user) ;;
               let '(is_subscribed, subscription) := sub in
               let status_active :=
                 is_subscribed &&
                 match subscription with
                 | Some s => match s_end_date s with Some _ => true | None => false end
                 | None => false
                 end in
               ret [MainMenu user_lang status_active is_subscribed
                             (is_admin_user (tg_id user))]
         end
     end)
    (fun _ => logger_error "start" ;;; ret [SupportError]).

Definition show_age_verification (upd : Update) : M (list Screen) :=
  try_except
    (match effective_user upd with
     | None => raise AttributeError
     | Some user =>
         user_lang <- get_user_language (tg_id user) ;;
         ret [AgeVerification user_lang]
     end)
    (fun _ => logger_error "show_age_verification" ;;; ret []).

Definition handle_language_selection (upd : Update) : M (list Screen) :=
  try_except
    (match upd with
     | CommandUpdate _ _ _ => ret []
     | CallbackUpdate user data =>
         let language := last_segment data EmptyString in
         user_data <- get_user (tg_id user) ;;
         match user_data with
         | Some _ =>
             set_user_language (tg_id user) language ;;;
             log_analytics_event cfg (tg_id user) "language_selected"
               (Some [("language", JStr language)]) ;;;
             show_age_verification upd
         | None => ret [EditError]
         end
     end)
    (fun _ => logger_error "handle_language_selection" ;;; ret []).

Definition show_terms_acceptance (upd : Update) : M (list Screen) :=
  try_except
    (match effective_user upd with
     | None => raise AttributeError
     | Some user =>
         user_lang <- get_user_language (tg_id user) ;;
         ret [TermsAcceptance user_lang]
     end)
    (fun _ => logger_error "show_terms_acceptance" ;;; ret []).

Definition handle_age_verification (upd : Update) : M (list Screen) :=
  try_except
    (match upd with
     | CommandUpdate _ _ _ => ret []
     | CallbackUpdate user data =>
         user_lang <- get_user_language (tg_id user) ;;
         let verification := last_segment data EmptyString in
         log_analytics_event cfg (tg_id user) "age_verification"
           (Some [("verified", JBool (String.eqb verification "yes"))]) ;;;
         if String.eqb verification "yes" then show_terms_acceptance upd
         else ret [AgeRestricted user_lang]
     end)
    (fun _ => logger_error "handle_age_verification" ;;; ret []).

Definition handle_terms_acceptance (upd : Update) : M (list Screen) :=
  try_except
    (match upd with
     | CommandUpdate _ _ _ => ret []
     | CallbackUpdate user data =>
         user_lang <- get_user_language (tg_id user) ;;
         log_analytics_event cfg (tg_id user) "terms_accepted" None ;;;
         menu <- start upd ;;
         ret (OnboardingComplete user_lang :: menu)
     end)
    (fun _ => logger_error "handle_terms_acceptance" ;;; ret []).

Definition show_subscription_status (user : TelegramUser) : M (list Screen) :=
  try_except
    (user_lang <- get_user_language (tg_id user) ;;
     sub <- is_user_subscribed (tg_id user) ;;
     let '(is_subscribed, subscription) := sub in
     ret [SubscriptionStatus user_lang
            (is_subscribed &&
             match subscription with Some _ => true | None => false end)])
    (fun _ => logger_error "show_subscription_status" ;;; ret []).

Definition show_simple (screen : option string -> Screen) (site : string)
    (user : TelegramUser) : M (list Screen) :=
  try_except
    (user_lang <- get_user_language (tg_id user) ;;
     ret [screen user_lang])
    (fun _ => logger_error site ;;; ret []).

Definition handle_home_menu_buttons (upd : Update) : M (list Screen) :=
  try_except
    (match upd with
     | CommandUpdate _ _ _ => ret []
     | CallbackUpdate user data =>
         match nth_error (split_underscore data EmptyString) 1 with
         | None => raise IndexError
         | Some action =>
             log_analytics_event cfg (tg_id user) "menu_action"
               (Some [("action", JStr action)]) ;;;
             if String.eqb action "plans" then
               show_simple PlansList "show_subscription_plans" user
             else if String.eqb action "status" then
               show_subscription_status user
             else if String.eqb action "settings" then
               show_simple SettingsMenu "show_user_settings" user
             else if String.eqb action "help" then
               show_simple HelpMenu "show_help_menu" user
             else ret [NotRecognized]
         end
     end)
    (fun _ => logger_error "handle_home_menu_buttons" ;;; ret []).

(** [update.effective_user.id] *)
Definition effective_user_id (sender : option TelegramUser) : M Z :=
  match sender with
  | Some u => ret (tg_id u)
  | None => raise AttributeError
  end.

Definition grant_access (sender : option TelegramUser) (args : list string)
    : M (list Screen) :=
  try_except
    (match args with
     | [] | [_] => ret [GrantUsage]
     | a0 :: a1 :: rest =>
         user_id <- int a0 ;;
         let plan_type := a1 in
         days <- match rest with
                 | a2 :: _ => int a2
                 | [] => ret (plan_days_or_30 plan_type)
                 end ;;
         w <- get_world ;;
         let start_date := datetime_now w in
         delta <- timedelta_days days ;;
         end_date <- datetime_add start_date delta ;;
         subscription_id <- create_subscription user_id plan_type
                              start_date end_date (Some 0) ;;
         if truthy_id subscription_id then
           admin_id <- effective_user_id sender ;;
           log_audit_event user_id admin_id "grant_access"
             (Some ("Plan: " ++ plan_type ++ ", Days: " ++ str_of_int days)) ;;;
           ret [GrantDone user_id plan_type days end_date]
         else ret [GrantFailed]
     end)
    (fun e => logger_error "grant_access" ;;; ret [GrantException e]).

(** ** Registration and dispatch ([hybrid_main.py]) *)

(** A registered handler: the test that decides whether it takes an
    update, and its callback. *)
Record Handler : Type := mkHandler {
  check_update : Update -> bool;
  callback : Update -> M (list Screen)
}.

(** [Filters.user(user_id=uid)]: the message has a sender and it is [uid]. *)
Definition Filters_user (uid : Z) (upd : Update) : bool :=
  match upd with
  | CommandUpdate (Some u) _ _ => tg_id u =? uid
  | _ => false
  end.

(** [CommandHandler(command, callback, filters=...)] *)
Definition CommandHandler (command : string) (cb : Update -> M (list Screen))
    (filters : Update -> bool) : Handler :=
  mkHandler
    (fun upd => match upd with
                | CommandUpdate _ c _ => String.eqb c command && filters upd
                | CallbackUpdate _ _ => false
                end)
    cb.

(** [CallbackQueryHandler(callback, pattern=...)], the pattern given as
    its test on the callback data. *)
Definition CallbackQueryHandler (cb : Update -> M (list Screen))
    (pattern : string -> bool) : Handler :=
  mkHandler
    (fun upd => match upd with
                | CallbackUpdate _ data => pattern data
                | CommandUpdate _ _ _ => false
                end)
    cb.

Definition newline : string := String (Ascii.ascii_of_nat 10) EmptyString.

(** ['^terms_accept$']: [$] also matches before a final newline. *)
Definition terms_accept_pattern (data : string) : bool :=
  String.eqb data "terms_accept" || String.eqb data ("terms_accept" ++ newline).

(** The callback of the [/grant] command handler. *)
Definition grant_callback (upd : Update) : M (list Screen) :=
  match upd with
  | CommandUpdate sender _ args => grant_access sender args
  | CallbackUpdate _ _ => raise AttributeError
  end.

(** [app.bot.admin_handlers.get_admin_conversation_handler()], from a
    module outside the files studied here. *)
Variable get_admin_conversation_handler : option Handler.

(** Truth value of [config.admin_user_id]. *)
Definition admin_configured : option Z :=
  match admin_user_id cfg with
  | Some a => if a =? 0 then None else Some a
  | None => None
  end.

(** The handlers in the dispatcher after [register_handlers_safely]. *)
Definition register_handlers_safely : list Handler :=
  (match get_admin_conversation_handler with
   | Some h => [h]
   | None => []
   end)
  ++ [CommandHandler "start" start (fun _ => true)]
  ++ (match admin_configured with
      | Some a => [CommandHandler "grant" grant_callback (Filters_user a)]
      | None => []
      end)
  ++ [ CallbackQueryHandler handle_language_selection (String.prefix "set_lang_");
       CallbackQueryHandler handle_age_verification (String.prefix "age_verify_");
       CallbackQueryHandler handle_terms_acceptance terms_accept_pattern;
       CallbackQueryHandler handle_home_menu_buttons (String.prefix "home_") ].

(** [Dispatcher.process_update]: the first handler whose check accepts the
    update runs; no handler, no effect. *)
Definition process_update (handlers : list Handler) (upd : Update) : M (list Screen) :=
  match find (fun h => check_update h upd) handlers with
  | Some h => callback h upd
  | None => ret []
  end.

End Handlers.

(** A reading of [int(str)] on the words of a command, which hold no
    white space: an optional sign, then ASCII digits, single underscores
    allowed between two digits.  For concrete runs. *)
Definition is_digit (c : ascii) : bool :=
  (48 <=? Z.of_nat (nat_of_ascii c)) && (Z.of_nat (nat_of_ascii c) <=? 57).

Fixpoint digits_value (s : string) (acc : Z) : option Z :=
  match s with
  | EmptyString => Some acc
  | String c s' =>
      if is_digit c
      then digits_value s' (10 * acc + (Z.of_nat (nat_of_ascii c) - 48))
      else if Ascii.eqb c "_"%char then
        match s' with
        | String d _ => if is_digit d then digits_value s' acc else None
        | EmptyString => None
        end
      else None
  end.

Definition unsigned_int (s : string) : option Z :=
  match s with
  | String c _ => if is_digit c then digits_value s 0 else None
  | EmptyString => None
  end.

Definition decimal_int (s : string) : option Z :=
  match s with
  | EmptyString => None
  | String c s' =>
      if Ascii.eqb c "-"%char then option_map Z.opp (unsigned_int s')
      else if Ascii.eqb c "+"%char then unsigned_int s'
      else unsigned_int s
  end.

(** Modelled from the spec: [set_user_language] of [app.translations],
    which is not among the files studied; the onboarding table gives the
    language choice the side effect of persisting the locale, here by
    rewriting the [language_code] column.  Used for concrete runs only. *)
Definition set_language_row (lang : string) (u : UserRow) : UserRow :=
  mkUserRow (u_id u) (u_telegram_id u) (u_username u) (u_first_name u)
    (u_last_name u) (Some lang) (u_phone_number u) (u_is_admin u)
    (u_is_banned u) (u_created_at u) (u_updated_at u) (u_last_activity u)
    (u_referral_code u) (u_referred_by u) (u_notes u).

Definition store_language (uid : Z) (lang : string) : M unit :=
  fun w =>
    (Ok tt,
     set_users (map (fun u => if u_telegram_id u =? uid
                              then set_language_row lang u else u) (users w)) w).

(** * The rest of the record store and of the handlers *)

(** ** Subscriptions about to expire *)

(** A row of the join in [get_expiring_subscriptions]: the subscription
    with its owner's [telegram_id], [username] and [first_name]. *)
Record ExpiringRow : Type := mkExpiringRow {
  x_subscription : Subscription;
  x_telegram_id : Z;
  x_username : option string;
  x_first_name : option string
}.

(** WHERE s.status = 'active' AND s.end_date <= ? AND s.end_date > CURRENT_TIMESTAMP *)
Definition expiring_where (future_date now : Z) (s : Subscription) : bool :=
  sql_eq_text (s_status s) "active" && sql_le (s_end_date s) future_date
  && sql_gt (s_end_date s) now.

(** SELECT s.*, u.telegram_id, u.username, u.first_name FROM subscriptions s
    JOIN users u ON s.user_id = u.telegram_id WHERE ... *)
Definition select_expiring (future_date : Z) : statement (list ExpiringRow) :=
  fun w =>
    (Ok (flat_map
           (fun s =>
              map (fun u => mkExpiringRow s (u_telegram_id u) (u_username u)
                                          (u_first_name u))
                  (filter (fun u => u_telegram_id u =? s_user_id s) (users w)))
           (filter (expiring_where future_date (current_timestamp w))
                   (subscriptions w))), w).

Definition get_expiring_subscriptions (days_ahead : Z) : M (list ExpiringRow) :=
  try_except
    (w <- get_world ;;
     delta <- timedelta_days days_ahead ;;
     future_date <- datetime_add (datetime_now w) delta ;;
     results <- execute_query (select_expiring future_date) ;;
     ret results)
    (fun _ => logger_error "get_expiring_subscriptions" ;;; ret []).

(** ** Pages of users *)

(** ORDER BY created_at DESC on users; rows with equal keys keep their
    rowid order. *)
Fixpoint insert_user_desc (r : UserRow) (l : list UserRow) : list UserRow :=
  match l with
  | [] => [r]
  | x :: l' =>
      if order_leb (u_created_at x) (u_created_at r)
      then r :: l
      else x :: insert_user_desc r l'
  end.

Fixpoint order_by_created_at_desc (l : list UserRow) : list UserRow :=
  match l with
  | [] => []
  | r :: l' => insert_user_desc r (order_by_created_at_desc l')
  end.

(** LIMIT ? OFFSET ?: a negative limit is no limit, a negative offset is
    no offset. *)
Definition limit_offset {A} (limit offset : Z) (l : list A) : list A :=
  let rest := skipn (Z.to_nat offset) l in
  if limit <? 0 then rest else firstn (Z.to_nat limit) rest.

(** SELECT * FROM users ORDER BY created_at DESC LIMIT ? OFFSET ? *)
Definition select_users_page (limit offset : Z) : statement (list UserRow) :=
  fun w => (Ok (limit_offset limit offset (order_by_created_at_desc (users w))), w).

Definition get_all_users (limit offset : Z) : M (list UserRow) :=
  try_except
    (results <- execute_query (select_users_page limit offset) ;;
     ret results)
    (fun _ => logger_error "get_all_users" ;;; ret []).

(** ** Bot settings *)

Record SettingRow : Type := mkSettingRow {
  st_id : Z;
  st_key : string;
  st_value : option string;
  st_description : option string;
  st_created_at : option Z;
  st_updated_at : option Z
}.

(** The [bot_settings] table with its [sqlite_sequence] entry; the
    settings functions take it and hand it back explicitly. *)
Record BotSettings : Type := mkBotSettings {
  bs_rows : list SettingRow;
  bs_seq : N
}.

(** One statement on the settings table, on a connection of its own. *)
Definition execute_query_on {T A} (stmt : Z -> T -> result A * T) (tbl : T)
    : M (A * T) :=
  execute_query
    (fun w => match stmt (current_timestamp w) tbl with
              | (Ok a, tbl') => (Ok (a, tbl'), w)
              | (Raise e, _) => (Raise e, w)
              end).

Definition next_setting_rowid (tbl : BotSettings) : Z :=
  Z.max (Z.of_N (bs_seq tbl))
        (fold_right (fun r m => Z.max (st_id r) m) 0 (bs_rows tbl)) + 1.

(** INSERT OR REPLACE INTO bot_settings (setting_key, setting_value,
    description, updated_at) VALUES (?, ?, ?, CURRENT_TIMESTAMP): a row
    with the same [setting_key] (UNIQUE) is deleted first. *)
Definition insert_or_replace_setting (key : string) (value description : option string)
    (now : Z) (tbl : BotSettings) : result Z * BotSettings :=
  let rowid := next_setting_rowid tbl in
  (Ok 1,
   mkBotSettings
     (filter (fun r => negb (String.eqb (st_key r) key)) (bs_rows tbl)
      ++ [mkSettingRow rowid key value description (Some now) (Some now)])
     (Z.to_N rowid)).

Definition set_setting (key : string) (value description : option string)
    (tbl : BotSettings) : M (bool * BotSettings) :=
  try_except
    (r <- execute_query_on (insert_or_replace_setting key value description) tbl ;;
     let '(rows_affected, tbl') := r in
     ret (rows_affected >? 0, tbl'))
    (fun _ => logger_error "set_setting" ;;; ret (false, tbl)).

(** SELECT setting_value FROM bot_settings WHERE setting_key = ? *)
Definition select_setting_value (key : string) (now : Z) (tbl : BotSettings)
    : result (list (option string)) * BotSettings :=
  (Ok (map st_value (filter (fun r => String.eqb (st_key r) key) (bs_rows tbl))), tbl).

(** [result[0][0] if result else default_value] *)
Definition get_setting (key : string) (default_value : option string)
    (tbl : BotSettings) : M (option string) :=
  try_except
    (r <- execute_query_on (select_setting_value key) tbl ;;
     ret (match fst r with
          | v :: _ => v
          | [] => default_value
          end))
    (fun _ => logger_error "get_setting" ;;; ret default_value).

(** ** Maintenance *)









(** ** The connection test and the environment check *)

(** The rows of SELECT 1 as test. *)
Definition select_one : statement (list (list Z)) :=
  fun w => (Ok [[1]], w).

(** [result[0] != 1]: [result[0]] is a [sqlite3.Row] (the connection's
    [row_factory]); a row compares equal to another row only, so against
    the integer the inequality holds whatever the row contains. *)
Definition row_ne_int (row : list Z) (n : Z) : bool := true.

(** SELECT name FROM sqlite_master WHERE type='table'
    AND name IN ('users', 'subscriptions', 'payments') *)
Definition expected_tables : list string := ["users"; "subscriptions"; "payments"].

Definition select_table_names (sqlite_master : list string) : statement (list string) :=
  fun w =>
    (Ok (filter (fun name => existsb (String.eqb name) expected_tables)
                sqlite_master), w).

(** [sqlite_master] is the list of the tables that exist. *)
Definition test_database_connection (sqlite_master : list string) : M bool :=
  try_except
    (result <- execute_query select_one ;;
     if match result with
        | [] => true
        | r :: _ => row_ne_int r 1
        end
     then ret false
     else
       tables <- execute_query (select_table_names sqlite_master) ;;
       if forallb (fun name => existsb (String.eqb name) tables) expected_tables
       then ret true
       else ret false)
    (fun _ => logger_error "test_database_connection" ;;; ret false).

(** [BotConfig] of [hybrid_main.py], as far as [validate] reads it. *)
Record BotConfig : Type := mkBotConfig {
  telegram_token : string
}.

Definition BotConfig_validate (config : BotConfig) : bool :=
  if String.eqb (telegram_token config) EmptyString then false
  else if Nat.ltb (String.length (telegram_token config)) 40 then false
  else true.

Definition validate_environment (config : BotConfig) (sqlite_master : list string)
    : M bool :=
  if negb (BotConfig_validate config) then ret false
  else
    try_except
      (ok <- test_database_connection sqlite_master ;;
       if negb ok then ret false else ret true)
      (fun _ => logger_error "validate_environment" ;;; ret false).

(** ** Payment links ([PaymentConfig]) *)

Record PaymentConfig : Type := mkPaymentConfig {
  week_link : string;
  month_link : string;
  three_month_link : string;
  half_year_link : string;
  year_link : string;
  lifetime_link : string
}.

Definition get_links_dict (p : PaymentConfig) : list (string * string) :=
  [ ("week", week_link p);
    ("month", month_link p);
    ("3month", three_month_link p);
    ("halfyear", half_year_link p);
    ("year", year_link p);
    ("lifetime", lifetime_link p) ].

(** Truth value of a string: the empty string is falsy. *)
Definition truthy_str (s : string) : bool :=
  match s with EmptyString => false | _ => true end.

(** [[plan for plan, link in links.items() if not link]] *)
Definition PaymentConfig_validate (p : PaymentConfig) : list string :=
  map fst (filter (fun kv => negb (truthy_str (snd kv))) (get_links_dict p)).

(** ** Plan selection and the callback router *)

(** What [select_plan] sends back. *)
Inductive PlanScreen : Type :=
| InvalidPlanScreen (lang : option string)
| PaymentLinkUnavailable (lang : option string)
| PaymentInstructions (lang : option string) (name price link : string).

(** The buttons that [show_subscription_plans] lays out, one per plan:
    label and callback data. *)
Definition plans_keyboard : list (string * string) :=
  map (fun kv => (plan_name (snd kv) ++ " - " ++ plan_price (snd kv),
                  "select_plan_" ++ fst kv))
      PLANS.

Section MoreHandlers.

Variable py_int : string -> option Z.
Variable set_user_language : Z -> string -> M unit.
Variable cfg : AppConfig.

(** [PAYMENT_LINKS = app_config.payments.get_links_dict()] *)
Variable payments : PaymentConfig.

Definition PAYMENT_LINKS : list (string * string) := get_links_dict payments.

Definition select_plan (upd : Update) : M (list PlanScreen) :=
  try_except
    (match upd with
     | CommandUpdate _ _ _ => ret []
     | CallbackUpdate user data =>
         user_lang <- get_user_language (tg_id user) ;;
         let plan_id := last_segment data EmptyString in
         match dict_get PLANS plan_id with
         | None => ret [InvalidPlanScreen user_lang]
         | Some plan_info =>
             let payment_link :=
               match dict_get PAYMENT_LINKS plan_id with
               | Some l => l
               | None => EmptyString
               end in
             if negb (truthy_str payment_link) then
               ret [PaymentLinkUnavailable user_lang]
             else
               log_analytics_event cfg (tg_id user) "plan_selected"
                 (Some [("plan", JStr plan_id)]) ;;;
               ret [PaymentInstructions user_lang (plan_name plan_info)
                      (plan_price plan_info) payment_link]
         end
     end)
    (fun _ => logger_error "select_plan" ;;; ret []).

(** Replies of the router: those of the menu handlers and those of
    [select_plan]. *)
Definition lift_screens (m : M (list Screen)) : M (list (Screen + PlanScreen)) :=
  l <- m ;; ret (map inl l).

Definition lift_plan_screens (m : M (list PlanScreen)) : M (list (Screen + PlanScreen)) :=
  l <- m ;; ret (map inr l).

Definition handle_callback_query (upd : Update) : M (list (Screen + PlanScreen)) :=
  try_except
    (match upd with
     | CommandUpdate _ _ _ => ret []
     | CallbackUpdate _ data =>
         if String.prefix "set_lang_" data then
           lift_screens (handle_language_selection set_user_language cfg upd)
         else if String.prefix "age_verify_" data then
           lift_screens (handle_age_verification cfg upd)
         else if String.eqb data "terms_accept" then
           lift_screens (handle_terms_acceptance cfg upd)
         else if String.prefix "home_" data then
           lift_screens (handle_home_menu_buttons cfg upd)
         else if String.prefix "select_plan_" data then
           lift_plan_screens (select_plan upd)
         else if String.eqb data "back_to_start" then
           lift_screens (start cfg upd)
         else ret [inl NotRecognized]
     end)
    (fun _ => logger_error "handle_callback_query" ;;; ret []).

End MoreHandlers.

(** * Vocabulary of the statements and sample worlds *)

(** The next connection will fail. *)
Definition fault_due (w : World) : bool :=
  match faults w with
  | true :: _ => true
  | _ => false
  end.

(** The world once the next entry of the fault schedule is consumed. *)
Definition pop_fault (w : World) : World := set_faults (tl (faults w)) w.

(** The first row of the sorted list dominates every row of it. *)
Definition head_dominates (l : list Subscription) : Prop :=
  match l with
  | [] => True
  | h :: _ => forall x, In x l -> order_leb (s_end_date x) (s_end_date h) = true
  end.

(** The rows that the lookup of [get_active_subscription] ranks. *)
Definition active_rows (user_id : Z) (w : World) : list Subscription :=
  order_by_end_date_desc
    (filter (active_where user_id (current_timestamp w)) (subscriptions w)).

(** The five tables of [w'] are those of [w]. *)
Definition tables_unchanged (w w' : World) : Prop :=
  users w' = users w /\ subscriptions w' = subscriptions w /\
  sub_seq w' = sub_seq w /\ audit_log w' = audit_log w /\
  analytics_events w' = analytics_events w.

(** A stored row still marked active whose end date (500) has passed on
    the handler's clock (1000) while SQLite's clock (100) lags behind. *)
Definition lapsed_row : Subscription :=
  mkSubscription 1 42 "month" (Some "active") (Some 0) (Some 500) (Some 0)
                 None None (Some 0) (Some 0) None.

Definition lapsed_world : World :=
  mkWorld [] [lapsed_row] 1 [] [] 100 1000 [] [].

(** An active row of user 42 that ends at [e]. *)
Definition row_ending (id e : Z) : Subscription :=
  mkSubscription id 42 "month" (Some "active") (Some 0) (Some e) (Some 0)
                 None None (Some 0) (Some 0) None.

(** The rows of a table as they were inserted: of user 42 a lapsed row,
    a row ending at 2000, a row marked expired that ends at 8000, the
    running row that ends last (3000), a row without end date and a row
    ending at 2500; between them a running row of user 7 that ends at
    9000.  Both clocks read 1000. *)
Definition mixed_rows_world : World :=
  mkWorld []
    [ row_ending 1 500; row_ending 2 2000;
      mkSubscription 3 7 "year" (Some "active") (Some 0) (Some 9000) (Some 0)
                     None None (Some 0) (Some 0) None;
      mkSubscription 4 42 "week" (Some "expired") (Some 0) (Some 8000) (Some 0)
                     None None (Some 0) (Some 150) None;
      row_ending 5 3000;
      mkSubscription 6 42 "month" (Some "active") (Some 0) None (Some 0)
                     None None (Some 0) (Some 0) None;
      row_ending 7 2500 ]
    7 [] [] 1000 1000 [] [].

(** The rows after the UPDATE of [expire_subscriptions]. *)
Definition expire_rows (now : Z) (l : list Subscription) : list Subscription :=
  map (fun s => if expire_where now s then set_expired now s else s) l.

(** One row due, one row still running, one row already expired. *)
Definition sweep_world : World :=
  mkWorld []
    [ row_ending 1 500; row_ending 2 2000;
      mkSubscription 3 42 "week" (Some "expired") (Some 0) (Some 100) (Some 0)
                     None None (Some 0) (Some 150) None ]
    3 [] [] 1000 1000 [] [].

(** The row that the INSERT OR REPLACE of [create_user] writes. *)
Definition replaced_user_row (user_data : User) (w : World) : UserRow :=
  mkUserRow (next_user_rowid (users w)) (telegram_id user_data)
    (username user_data) (first_name user_data) (last_name user_data)
    (Some (or_es (language_code user_data)))
    (phone_number user_data) (is_admin user_data) (is_banned user_data)
    (Some (current_timestamp w)) (Some (current_timestamp w))
    (Some (current_timestamp w)) None None None.

(** A stored user whose row carries a creation date, a referral code and
    notes, and the profile of the same user on a later contact. *)
Definition stored_user : UserRow :=
  mkUserRow 1 42 (Some "old_name") None None (Some "en") None false false
            (Some 5) (Some 5) (Some 5) (Some "REF42") None (Some "vip").

Definition stored_world : World :=
  mkWorld [stored_user] [] 0 [] [] 1000 1000 [] [].

Definition recontact_profile : User :=
  mkUser 42 (Some "new_name") None None (Some "en") None false false.

(** The row that the INSERT of [create_subscription] writes. *)
Definition new_subscription_row (user_id : Z) (plan_type : string)
    (start_date end_date : Z) (payment_amount : option Z) (w : World) : Subscription :=
  mkSubscription (next_subscription_rowid w) user_id plan_type (Some "active")
    (Some start_date) (Some end_date) payment_amount None None
    (Some (current_timestamp w)) (Some (current_timestamp w)) None.

(** The duration a grant uses: the third argument when there is one, else
    the plan's days, else 30. *)
Definition grant_days (py_int : string -> option Z) (plan_type : string)
    (rest : list string) : option Z :=
  match rest with
  | a2 :: _ => py_int a2
  | [] => Some (plan_days_or_30 plan_type)
  end.

(** The administrator 7 and the user 42 are both stored. *)
Definition admin7 : TelegramUser := mkTelegramUser 7 (Some "admin") None None None.

Definition plain_user_row (id tid : Z) : UserRow :=
  mkUserRow id tid None None None (Some "es") None false false
            (Some 0) (Some 0) (Some 0) None None None.

Definition grant_world : World :=
  mkWorld [plain_user_row 1 42; plain_user_row 2 7] [] 0 [] [] 1000 1000 [] [].

(** Time passes: both clocks are read anew. *)
Definition set_clocks (ct dn : Z) (w : World) : World :=
  mkWorld (users w) (subscriptions w) (sub_seq w) (audit_log w) (analytics_events w)
          ct dn (faults w) (error_log w).

(** The sender is not the configured administrator. *)
Definition not_administrator (cfg : AppConfig) (sender : option TelegramUser) : Prop :=
  match sender with
  | Some u => admin_user_id cfg <> Some (tg_id u)
  | None => True
  end.

(** The admin conversation handler, if there is one, leaves the update
    to the handlers registered after it. *)
Definition conversation_declines (h : option Handler) (upd : Update) : Prop :=
  match h with
  | Some h' => check_update h' upd = false
  | None => True
  end.

(** User 7 is the configured administrator; user 9 is somebody else. *)
Definition config7 : AppConfig := mkAppConfig (Some 7) true.

Definition user9 : TelegramUser := mkTelegramUser 9 (Some "guest") None None None.

(** The rows that [get_expiring_subscriptions] reports when it reaches the
    store with the cut-off [future_date]. *)
Definition expiring_rows (future_date : Z) (w : World) : list ExpiringRow :=
  flat_map
    (fun s =>
       map (fun u => mkExpiringRow s (u_telegram_id u) (u_username u) (u_first_name u))
           (filter (fun u => u_telegram_id u =? s_user_id s) (users w)))
    (filter (expiring_where future_date (current_timestamp w)) (subscriptions w)).

(** User 42 with one subscription that ends in two days and one that
    ends in ten; both clocks read day 100. *)
Definition expiring_world : World :=
  mkWorld [plain_user_row 1 42]
    [ row_ending 1 (102 * US_PER_DAY); row_ending 2 (110 * US_PER_DAY) ] 2
    [] [] (100 * US_PER_DAY) (100 * US_PER_DAY) [] [].

(** The rows a list-valued call hands back. *)
Definition returned_rows {A} (r : result (list A) * World) : list A :=
  match fst r with
  | Ok rows => rows
  | Raise _ => []
  end.

(** A banned user 42 who chose English, as stored. *)
Definition banned_user : UserRow :=
  mkUserRow 1 42 (Some "old_name") None None (Some "en") None false true
            (Some 5) (Some 5) (Some 5) None None None.

Definition banned_world : World :=
  mkWorld [banned_user] [] 0 [] [] 1000 1000 [] [].

(** The same user as Telegram presents him: no language reported. *)
Definition telegram42 : TelegramUser :=
  mkTelegramUser 42 (Some "new_name") (Some "Ana") None None.

(** The row that [log_analytics_event] writes. *)
Definition analytics_row (user_id : Z) (event_type : string)
    (event_data : option EventData) (w : World) : AnalyticsRow :=
  mkAnalyticsRow (Some user_id) event_type (event_data_json event_data)
                 (Some (current_timestamp w)).

(** The stored user 42 as a sender. *)
Definition user42 : TelegramUser := mkTelegramUser 42 (Some "ana") None None None.

(** The reply is not the report of a grant that was carried out. *)
Definition not_granted (screens : list Screen) : Prop :=
  match screens with
  | [GrantDone _ _ _ _] => False
  | _ => True
  end.

(** The audit row that [grant_access] writes. *)
Definition grant_audit_row (user_id admin_id : Z) (plan_type : string)
    (days : Z) (w : World) : AuditRow :=
  mkAuditRow (Some user_id) (Some admin_id) "grant_access"
    (Some ("Plan: " ++ plan_type ++ ", Days: " ++ str_of_int days))
    (Some (current_timestamp w)).

(** User 42 is stored, the administrator 7 never contacted the bot. *)
Definition no_admin_row_world : World :=
  mkWorld [plain_user_row 1 42] [] 0 [] [] 1000 1000 [] [].

(** The settings rows stored under [key]. *)
Definition setting_rows (key : string) (tbl : BotSettings) : list SettingRow :=
  filter (fun r => String.eqb (st_key r) key) (bs_rows tbl).

(** A settings table that already holds a welcome text. *)
Definition settings_sample : BotSettings :=
  mkBotSettings
    [mkSettingRow 1 "welcome" (Some "hola") None (Some 0) (Some 0)] 1.


(** The link configured for a plan, empty when there is none. *)
Definition configured_link (payments : PaymentConfig) (plan_id : string) : string :=
  match dict_get (get_links_dict payments) plan_id with
  | Some l => l
  | None => EmptyString
  end.

(** What [select_plan] answers for a plan identifier. *)
Definition plan_answer (payments : PaymentConfig) (lang : option string)
    (plan_id : string) : PlanScreen :=
  match dict_get PLANS plan_id with
  | None => InvalidPlanScreen lang
  | Some p =>
      if existsb (String.eqb plan_id) (PaymentConfig_validate payments)
      then PaymentLinkUnavailable lang
      else PaymentInstructions lang (plan_name p) (plan_price p)
                               (configured_link payments plan_id)
  end.

(** Only the month link is configured. *)
Definition month_only : PaymentConfig :=
  mkPaymentConfig "" "https://pay.example/month" "" "" "" "".

(** Callback data of buttons that the menus show and that
    [register_handlers_safely] registers no handler for. *)
Definition unregistered_button (data : string) : Prop :=
  String.prefix "select_plan_" data = true \/ data = "back_to_start" \/
  data = "terms_decline" \/ String.prefix "settings_" data = true \/
  data = "admin_panel".

(** Callback data that one of the four registered patterns accepts, the
    newline variant of the terms pattern apart. *)
Definition registered_button (data : string) : Prop :=
  (String.prefix "set_lang_" data = true \/
   String.prefix "age_verify_" data = true \/
   data = "terms_accept" \/
   String.prefix "home_" data = true) /\
  data <> "terms_accept" ++ newline.

(** Newest first: the order of [get_all_users]. *)
Definition newest_first (a b : UserRow) : Prop :=
  order_leb (u_created_at b) (u_created_at a) = true.

(** The first [k] pages of [n] users each, one after the other. *)
Definition user_pages (k : nat) (n : Z) (w : World) : list UserRow :=
  flat_map (fun i => returned_rows (get_all_users n (Z.of_nat i * n) w)) (seq 0 k).

(** Three users created at times 30, 10 and 20. *)
Definition three_users_world : World :=
  mkWorld
    [ mkUserRow 1 1 None None None (Some "es") None false false
                (Some 30) (Some 30) (Some 30) None None None;
      mkUserRow 2 2 None None None (Some "es") None false false
                (Some 10) (Some 10) (Some 10) None None None;
      mkUserRow 3 3 None None None (Some "es") None false false
                (Some 20) (Some 20) (Some 20) None None None ]
    [] 0 [] [] 1000 1000 [] [].

(** * Properties *)

(** ** Running a statement on a connection *)

Lemma get_connection_run {A} (stmt : statement A) (w : World) :
  get_connection stmt w =
  if fault_due w then (Raise OperationalError, pop_fault w) else stmt (pop_fault w).
Proof.
  unfold get_connection, fault_due, pop_fault.
  destruct w as [us ss n al ae ct dn fs el]; simpl.
  destruct fs as [|[|] fs]; reflexivity.
Qed.

Lemma pop_fault_no_faults (w : World) : faults w = [] -> pop_fault w = w.
Proof.
  unfold pop_fault. destruct w as [us ss n al ae ct dn fs el]; simpl.
  intros ->. reflexivity.
Qed.

Lemma fault_due_no_faults (w : World) : faults w = [] -> fault_due w = false.
Proof. unfold fault_due. intros ->. reflexivity. Qed.

(** ** ORDER BY end_date DESC LIMIT 1 *)

Lemma insert_desc_In (r x : Subscription) (l : list Subscription) :
  In x (insert_desc r l) <-> x = r \/ In x l.
Proof.
  induction l as [|y l IH]; simpl.
  - intuition.
  - destruct (order_leb (s_end_date y) (s_end_date r)); simpl.
    + intuition.
    + rewrite IH. intuition.
Qed.

Lemma order_by_end_date_desc_In (x : Subscription) (l : list Subscription) :
  In x (order_by_end_date_desc l) <-> In x l.
Proof.
  induction l as [|y l IH]; simpl.
  - tauto.
  - rewrite insert_desc_In, IH. intuition.
Qed.

Lemma insert_desc_perm (r : Subscription) (l : list Subscription) :
  Permutation (r :: l) (insert_desc r l).
Proof.
  induction l as [|y l IH]; simpl.
  - apply Permutation_refl.
  - destruct (order_leb (s_end_date y) (s_end_date r)).
    + apply Permutation_refl.
    + eapply perm_trans; [apply perm_swap|]. apply perm_skip, IH.
Qed.

Lemma order_by_end_date_desc_perm (l : list Subscription) :
  Permutation l (order_by_end_date_desc l).
Proof.
  induction l as [|y l IH]; simpl.
  - apply perm_nil.
  - eapply perm_trans; [apply perm_skip, IH|]. apply insert_desc_perm.
Qed.

Lemma order_leb_refl (a : option Z) : order_leb a a = true.
Proof. destruct a; simpl; [apply Z.leb_refl | reflexivity]. Qed.

Lemma order_leb_trans (a b c : option Z) :
  order_leb a b = true -> order_leb b c = true -> order_leb a c = true.
Proof.
  destruct a, b, c; simpl; try congruence.
  rewrite !Z.leb_le. lia.
Qed.

Lemma order_leb_total (a b : option Z) :
  order_leb a b = false -> order_leb b a = true.
Proof.
  destruct a, b; simpl; try congruence.
  rewrite Z.leb_gt, Z.leb_le. lia.
Qed.

Lemma insert_desc_head (r : Subscription) (l : list Subscription) :
  head_dominates l -> head_dominates (insert_desc r l).
Proof.
  destruct l as [|h l]; simpl.
  - intros _ x [<-|[]]. apply order_leb_refl.
  - intros Hh. destruct (order_leb (s_end_date h) (s_end_date r)) eqn:E; simpl.
    + intros x [<-|Hx]; [apply order_leb_refl|].
      eapply order_leb_trans; [apply Hh, Hx | exact E].
    + intros x [<-|Hx]; [apply order_leb_refl|].
      apply insert_desc_In in Hx. destruct Hx as [->|Hx].
      * apply order_leb_total, E.
      * apply Hh. right. exact Hx.
Qed.

Lemma order_by_end_date_desc_head (l : list Subscription) :
  head_dominates (order_by_end_date_desc l).
Proof.
  induction l as [|y l IH]; simpl; [exact I|].
  apply insert_desc_head, IH.
Qed.

Lemma active_rows_In (user_id : Z) (w : World) (s : Subscription) :
  In s (active_rows user_id w) <->
  In s (subscriptions w) /\ active_where user_id (current_timestamp w) s = true.
Proof.
  unfold active_rows. rewrite order_by_end_date_desc_In, filter_In. tauto.
Qed.

Lemma active_where_spec (user_id now : Z) (s : Subscription) :
  active_where user_id now s = true <->
  s_user_id s = user_id /\ s_status s = Some "active" /\
  exists e, s_end_date s = Some e /\ now < e.
Proof.
  unfold active_where, sql_eq_text, sql_gt.
  rewrite !andb_true_iff, Z.eqb_eq.
  destruct (s_status s) as [st|], (s_end_date s) as [e|]; split.
  - intros [[Hu Hs] He]. apply String.eqb_eq in Hs. apply Z.ltb_lt in He.
    subst. repeat split; eauto.
  - intros (Hu & Hs & e' & He & Hlt). inversion Hs; inversion He; subst.
    repeat split; try reflexivity. apply Z.ltb_lt. assumption.
  - intros [[_ _] He]. discriminate.
  - intros (_ & _ & e' & He & _). discriminate.
  - intros [[_ Hs] _]. discriminate.
  - intros (_ & Hs & _). discriminate.
  - intros [[_ Hs] _]. discriminate.
  - intros (_ & Hs & _). discriminate.
Qed.

Lemma hd_error_firstn_1 {A} (l : list A) :
  match firstn 1 l with r :: _ => Some r | [] => None end = hd_error l.
Proof. destruct l; reflexivity. Qed.

Lemma get_active_subscription_run (user_id : Z) (w : World) :
  get_active_subscription user_id w =
  if fault_due w
  then (Ok None,
        set_error_log (error_log w ++ ["get_active_subscription"]) (pop_fault w))
  else (Ok (hd_error (active_rows user_id w)), pop_fault w).
Proof.
  unfold get_active_subscription, try_except, bind, execute_query.
  rewrite get_connection_run.
  destruct (fault_due w); cbv [select_active_subscription ret logger_error bind].
  - reflexivity.
  - rewrite hd_error_firstn_1. reflexivity.
Qed.

Lemma is_user_subscribed_run (user_id : Z) (w : World) :
  is_user_subscribed user_id w =
  if fault_due w
  then (Ok (false, None),
        set_error_log (error_log w ++ ["get_active_subscription"]) (pop_fault w))
  else match hd_error (active_rows user_id w) with
       | Some s =>
           match s_end_date s with
           | Some e => (Ok (datetime_now w <? e, Some s), pop_fault w)
           | None => (Ok (false, None),
                      set_error_log (error_log w ++ ["is_user_subscribed"]) (pop_fault w))
           end
       | None => (Ok (false, None), pop_fault w)
       end.
Proof.
  unfold is_user_subscribed, try_except, bind.
  rewrite get_active_subscription_run.
  destruct (fault_due w); [reflexivity|].
  destruct (hd_error (active_rows user_id w)) as [s|]; [|reflexivity].
  destruct (s_end_date s) as [e|]; reflexivity.
Qed.

Lemma hd_error_In {A} (l : list A) (x : A) : hd_error l = Some x -> In x l.
Proof. destruct l; simpl; [discriminate|]. intros [= ->]. left. reflexivity. Qed.

(** Whenever the check answers [true], the row it returns belongs to the
    user, is marked active and ends after both clock readings. *)
Lemma is_user_subscribed_true_inv (user_id : Z) (w w' : World)
    (sub : option Subscription) :
  is_user_subscribed user_id w = (Ok (true, sub), w') ->
  exists s e, sub = Some s /\ In s (subscriptions w) /\ s_user_id s = user_id /\
              s_status s = Some "active" /\ s_end_date s = Some e /\
              datetime_now w < e /\ current_timestamp w < e.
Proof.
  rewrite is_user_subscribed_run.
  destruct (fault_due w); [intros [=]|].
  destruct (hd_error (active_rows user_id w)) as [s|] eqn:Hhd; [|intros [=]].
  apply hd_error_In, active_rows_In in Hhd. destruct Hhd as [Hin Hact].
  apply active_where_spec in Hact. destruct Hact as (Hu & Hs & e & He & Hlt).
  rewrite He. intros [= Hb <- _]. apply Z.ltb_lt in Hb.
  exists s, e. repeat split; assumption.
Qed.

(** ** C1: the subscription check is time-based *)

(** C1. For every user, once the end date of each of the user's stored
    subscriptions has passed on the clock the handler reads, the
    subscription check answers false, whatever the status column says and
    whether or not the sweeper has run. *)
Theorem is_user_subscribed_false_after_end (user_id : Z) (w : World) :
  (forall s e, In s (subscriptions w) -> s_user_id s = user_id ->
               s_end_date s = Some e -> e <= datetime_now w) ->
  exists sub w', is_user_subscribed user_id w = (Ok (false, sub), w').
Proof.
  intros Hlapsed. rewrite is_user_subscribed_run.
  destruct (fault_due w); [eauto|].
  destruct (hd_error (active_rows user_id w)) as [s|] eqn:Hhd; [|eauto].
  destruct (s_end_date s) as [e|] eqn:He; [|eauto].
  apply hd_error_In, active_rows_In in Hhd. destruct Hhd as [Hin Hact].
  apply active_where_spec in Hact. destruct Hact as (Hu & _).
  specialize (Hlapsed s e Hin Hu He).
  replace (datetime_now w <? e) with false by (symmetry; apply Z.ltb_ge; lia).
  eauto.
Qed.

Lemma is_user_subscribed_false_after_end_witness :
  is_user_subscribed 42 lapsed_world = (Ok (false, Some lapsed_row), lapsed_world) /\
  exists sub w', is_user_subscribed 42 lapsed_world = (Ok (false, sub), w').
Proof.
  split; [reflexivity|].
  apply (is_user_subscribed_false_after_end 42 lapsed_world).
  simpl. intros s e [<-|[]] _ [= <-]. lia.
Defined.

(** The check returns on every world. *)
Lemma is_user_subscribed_total (user_id : Z) (w : World) :
  exists r w', is_user_subscribed user_id w = (Ok r, w').
Proof.
  rewrite is_user_subscribed_run.
  destruct (fault_due w); [eauto|].
  destruct (hd_error (active_rows user_id w)) as [s|]; [|eauto].
  destruct (s_end_date s); eauto.
Qed.

(** ** The head of the ranked rows *)

Lemma active_rows_head_none (user_id : Z) (w : World) :
  hd_error (active_rows user_id w) = None ->
  forall s, In s (subscriptions w) ->
            active_where user_id (current_timestamp w) s = false.
Proof.
  intros Hhd s Hin.
  destruct (active_where user_id (current_timestamp w) s) eqn:E; [|reflexivity].
  assert (Hs : In s (active_rows user_id w)) by (apply active_rows_In; tauto).
  destruct (active_rows user_id w); [destruct Hs | discriminate].
Qed.

Lemma active_rows_head_some (user_id : Z) (w : World) (h : Subscription) :
  hd_error (active_rows user_id w) = Some h ->
  In h (subscriptions w) /\
  active_where user_id (current_timestamp w) h = true /\
  forall s', In s' (subscriptions w) ->
             active_where user_id (current_timestamp w) s' = true ->
             order_leb (s_end_date s') (s_end_date h) = true.
Proof.
  intros Hhd.
  assert (Hh := hd_error_In _ _ Hhd). apply active_rows_In in Hh.
  destruct Hh as [Hin Hact]. repeat split; try assumption.
  intros s' Hin' E'.
  assert (Hdom := order_by_end_date_desc_head
            (filter (active_where user_id (current_timestamp w)) (subscriptions w))).
  fold (active_rows user_id w) in Hdom.
  assert (Hs : In s' (active_rows user_id w)) by (apply active_rows_In; tauto).
  destruct (active_rows user_id w) as [|x l]; [destruct Hs|].
  simpl in Hhd. injection Hhd as ->. apply Hdom, Hs.
Qed.

(** A qualifying row that no other qualifying row equals or exceeds in
    end date is the head, wherever it sits in the table. *)
Lemma active_rows_head_unique (user_id : Z) (w : World) (s : Subscription) :
  In s (subscriptions w) ->
  active_where user_id (current_timestamp w) s = true ->
  (forall s', In s' (subscriptions w) ->
              active_where user_id (current_timestamp w) s' = true ->
              order_leb (s_end_date s) (s_end_date s') = true ->
              s' = s) ->
  hd_error (active_rows user_id w) = Some s.
Proof.
  intros Hin E Huniq.
  destruct (hd_error (active_rows user_id w)) as [h|] eqn:Hhd.
  - destruct (active_rows_head_some _ _ _ Hhd) as (Hhin & Hhact & Hmax).
    f_equal. apply (Huniq h Hhin Hhact). apply Hmax; assumption.
  - rewrite (active_rows_head_none _ _ Hhd s Hin) in E. discriminate.
Qed.

(** ** C6: the lookup returns the active row with the latest end date *)

Lemma active_where_intro (user_id now e : Z) (s : Subscription) :
  s_user_id s = user_id -> s_status s = Some "active" ->
  s_end_date s = Some e -> now < e ->
  active_where user_id now s = true.
Proof.
  intros Hu Hs He Hlt. apply active_where_spec.
  split; [exact Hu|]. split; [exact Hs|]. exists e. split; assumption.
Qed.

(** The three facts about the head of the ranked rows, column by column. *)
Lemma active_rows_head_none_fields (user_id : Z) (w : World) :
  hd_error (active_rows user_id w) = None ->
  forall s e, In s (subscriptions w) -> s_user_id s = user_id ->
              s_status s = Some "active" -> s_end_date s = Some e ->
              e <= current_timestamp w.
Proof.
  intros Hhd s e Hin Hu Hs He.
  destruct (Z_lt_le_dec (current_timestamp w) e) as [Hlt|Hle]; [|exact Hle].
  assert (E := active_where_intro _ _ _ _ Hu Hs He Hlt).
  rewrite (active_rows_head_none _ _ Hhd s Hin) in E. discriminate.
Qed.

Lemma active_rows_head_some_fields (user_id : Z) (w : World) (h : Subscription) :
  hd_error (active_rows user_id w) = Some h ->
  In h (subscriptions w) /\ s_user_id h = user_id /\
  s_status h = Some "active" /\
  exists e, s_end_date h = Some e /\ current_timestamp w < e /\
    forall s' e', In s' (subscriptions w) -> s_user_id s' = user_id ->
                  s_status s' = Some "active" -> s_end_date s' = Some e' ->
                  current_timestamp w < e' -> e' <= e.
Proof.
  intros Hhd. destruct (active_rows_head_some _ _ _ Hhd) as (Hin & Hact & Hmax).
  apply active_where_spec in Hact. destruct Hact as (Hu & Hs & e & He & Hlt).
  split; [exact Hin|]. split; [exact Hu|]. split; [exact Hs|].
  exists e. split; [exact He|]. split; [exact Hlt|].
  intros s' e' Hin' Hu' Hs' He' Hlt'.
  assert (Hle := Hmax s' Hin' (active_where_intro _ _ _ _ Hu' Hs' He' Hlt')).
  rewrite He, He' in Hle. simpl in Hle. apply Z.leb_le in Hle. exact Hle.
Qed.

Lemma active_rows_head_unique_fields (user_id e : Z) (w : World) (s : Subscription) :
  In s (subscriptions w) -> s_user_id s = user_id ->
  s_status s = Some "active" -> s_end_date s = Some e ->
  current_timestamp w < e ->
  (forall s' e', In s' (subscriptions w) -> s_user_id s' = user_id ->
                 s_status s' = Some "active" -> s_end_date s' = Some e' ->
                 e <= e' -> s' = s) ->
  hd_error (active_rows user_id w) = Some s.
Proof.
  intros Hin Hu Hs He Hlt Huniq.
  apply active_rows_head_unique;
    [exact Hin | exact (active_where_intro _ _ _ _ Hu Hs He Hlt) |].
  intros s' Hin' Hact' Hle.
  apply active_where_spec in Hact'. destruct Hact' as (Hu' & Hs' & e' & He' & _).
  rewrite He, He' in Hle. simpl in Hle. apply Z.leb_le in Hle.
  exact (Huniq s' e' Hin' Hu' Hs' He' Hle).
Qed.

(** C6. When the store answers the query, [get_active_subscription]
    leaves the tables as they were and returns none exactly when no row of
    the user has status 'active' and an end date after the current
    timestamp.  Otherwise it returns a stored row of the user with status
    'active' and an end date after the current timestamp that is at least
    the end date of every other such row of the user; and a row of that
    kind which no other such row equals or exceeds in end date is the one
    returned, wherever it sits in the table. *)
Theorem get_active_subscription_latest (user_id : Z) (w : World) :
  fault_due w = false ->
  exists r w',
    get_active_subscription user_id w = (Ok r, w') /\
    tables_unchanged w w' /\
    match r with
    | None =>
        forall s e, In s (subscriptions w) -> s_user_id s = user_id ->
                    s_status s = Some "active" -> s_end_date s = Some e ->
                    e <= current_timestamp w
    | Some s =>
        In s (subscriptions w) /\ s_user_id s = user_id /\
        s_status s = Some "active" /\
        exists e, s_end_date s = Some e /\ current_timestamp w < e /\
          forall s' e', In s' (subscriptions w) -> s_user_id s' = user_id ->
                        s_status s' = Some "active" -> s_end_date s' = Some e' ->
                        current_timestamp w < e' -> e' <= e
    end /\
    forall s e, In s (subscriptions w) -> s_user_id s = user_id ->
                s_status s = Some "active" -> s_end_date s = Some e ->
                current_timestamp w < e ->
                (forall s' e', In s' (subscriptions w) -> s_user_id s' = user_id ->
                               s_status s' = Some "active" ->
                               s_end_date s' = Some e' -> e <= e' -> s' = s) ->
                r = Some s.
Proof.
  intros Hup. rewrite get_active_subscription_run, Hup.
  exists (hd_error (active_rows user_id w)), (pop_fault w).
  split; [reflexivity|]. split; [repeat split|]. split.
  - destruct (hd_error (active_rows user_id w)) as [h|] eqn:Hhd.
    + apply active_rows_head_some_fields, Hhd.
    + apply active_rows_head_none_fields, Hhd.
  - intros s e. apply active_rows_head_unique_fields.
Qed.

Lemma get_active_subscription_latest_witness :
  fault_due mixed_rows_world = false /\
  get_active_subscription 42 mixed_rows_world
    = (Ok (Some (row_ending 5 3000)), mixed_rows_world) /\
  exists s w' e,
    get_active_subscription 42 mixed_rows_world = (Ok (Some s), w') /\
    tables_unchanged mixed_rows_world w' /\
    s_user_id s = 42 /\ s_status s = Some "active" /\
    s_end_date s = Some e /\ 2500 <= e.
Proof.
  split; [reflexivity|]. split; [reflexivity|].
  destruct (get_active_subscription_latest 42 mixed_rows_world eq_refl)
    as (r & w' & Hrun & Htab & Hr & _).
  assert (Hin : In (row_ending 7 2500) (subscriptions mixed_rows_world))
    by (simpl; tauto).
  destruct r as [s|].
  - destruct Hr as (_ & Hu & Hs & e & He & _ & Hmax).
    exists s, w', e.
    split; [exact Hrun|]. split; [exact Htab|]. split; [exact Hu|].
    split; [exact Hs|]. split; [exact He|].
    exact (Hmax (row_ending 7 2500) 2500 Hin eq_refl eq_refl eq_refl eq_refl).
  - exfalso.
    assert (Hle := Hr (row_ending 7 2500) 2500 Hin eq_refl eq_refl eq_refl).
    simpl in Hle. lia.
Defined.

(** ** C10: the subscription check fails closed *)

(** C10. The subscription check never raises; when the storage layer
    fails during the lookup it answers (false, none), the answer it also
    gives for a user without any subscription row and, more generally,
    for a user none of whose rows has status 'active' and an end date
    after the current timestamp. *)
Theorem is_user_subscribed_fails_closed (user_id : Z) (w : World) :
  (exists r w', is_user_subscribed user_id w = (Ok r, w')) /\
  (forall fs, fst (is_user_subscribed user_id (set_faults (true :: fs) w))
              = Ok (false, None)) /\
  (forall fs, fst (is_user_subscribed user_id
                     (set_faults fs (set_subscriptions [] w)))
              = Ok (false, None)) /\
  (forall fs,
     (forall s e, In s (subscriptions w) -> s_user_id s = user_id ->
                  s_status s = Some "active" -> s_end_date s = Some e ->
                  e <= current_timestamp w) ->
     fst (is_user_subscribed user_id (set_faults fs w)) = Ok (false, None)).
Proof.
  split; [|split; [|split]].
  - apply is_user_subscribed_total.
  - intros fs. rewrite is_user_subscribed_run. reflexivity.
  - intros fs. rewrite is_user_subscribed_run.
    destruct (fault_due _); reflexivity.
  - intros fs Hnone. rewrite is_user_subscribed_run.
    destruct (fault_due _); [reflexivity|].
    change (active_rows user_id (set_faults fs w)) with (active_rows user_id w).
    destruct (hd_error (active_rows user_id w)) as [h|] eqn:Hhd; [|reflexivity].
    destruct (active_rows_head_some_fields _ _ _ Hhd)
      as (Hin & Hu & Hs & e & He & Hlt & _).
    specialize (Hnone h e Hin Hu Hs He). lia.
Qed.

Lemma is_user_subscribed_fails_closed_witness :
  is_user_subscribed 42 sweep_world
    = (Ok (true, Some (row_ending 2 2000)), sweep_world) /\
  fst (is_user_subscribed 42 (set_clocks 3000 3000 sweep_world)) = Ok (false, None).
Proof.
  split; [reflexivity|].
  destruct (is_user_subscribed_fails_closed 42 (set_clocks 3000 3000 sweep_world))
    as (_ & _ & _ & Hnone).
  apply (Hnone []). simpl.
  intros s e [<-|[<-|[<-|[]]]] _ Hs He; simpl in Hs, He;
    try discriminate Hs; injection He as <-; lia.
Defined.

(** The end date of the row returned does not depend on the order in
    which the rows were inserted. *)
Lemma get_active_subscription_order_independent (user_id : Z) (w1 w2 : World) :
  Permutation (subscriptions w1) (subscriptions w2) ->
  current_timestamp w1 = current_timestamp w2 ->
  option_map s_end_date (hd_error (active_rows user_id w1))
  = option_map s_end_date (hd_error (active_rows user_id w2)).
Proof.
  intros Hperm Hnow.
  assert (Hin : forall s, In s (subscriptions w1) <-> In s (subscriptions w2)).
  { intros s. split; apply Permutation_in;
      [exact Hperm | apply Permutation_sym, Hperm]. }
  destruct (hd_error (active_rows user_id w1)) as [h1|] eqn:H1,
           (hd_error (active_rows user_id w2)) as [h2|] eqn:H2; simpl.
  - destruct (active_rows_head_some _ _ _ H1) as (Hi1 & Ha1 & Hm1).
    destruct (active_rows_head_some _ _ _ H2) as (Hi2 & Ha2 & Hm2).
    assert (L12 : order_leb (s_end_date h1) (s_end_date h2) = true).
    { apply Hm2; [apply Hin, Hi1 | rewrite <- Hnow; exact Ha1]. }
    assert (L21 : order_leb (s_end_date h2) (s_end_date h1) = true).
    { apply Hm1; [apply Hin, Hi2 | rewrite Hnow; exact Ha2]. }
    f_equal. destruct (s_end_date h1), (s_end_date h2); simpl in *;
      try discriminate; [|reflexivity].
    apply Z.leb_le in L12, L21. f_equal. lia.
  - destruct (active_rows_head_some _ _ _ H1) as (Hi1 & Ha1 & _).
    rewrite Hnow in Ha1.
    rewrite (active_rows_head_none _ _ H2 h1 (proj1 (Hin h1) Hi1)) in Ha1.
    discriminate.
  - destruct (active_rows_head_some _ _ _ H2) as (Hi2 & Ha2 & _).
    rewrite <- Hnow in Ha2.
    rewrite (active_rows_head_none _ _ H1 h2 (proj2 (Hin h2) Hi2)) in Ha2.
    discriminate.
  - reflexivity.
Qed.

(** ** C7: the expiration sweep is idempotent *)

Lemma expire_subscriptions_run (w : World) :
  expire_subscriptions w =
  if fault_due w
  then (Ok 0, set_error_log (error_log w ++ ["expire_subscriptions"]) (pop_fault w))
  else (Ok (Z.of_nat (List.length (filter (expire_where (current_timestamp w))
                                          (subscriptions w)))),
        set_subscriptions (expire_rows (current_timestamp w) (subscriptions w))
                          (pop_fault w)).
Proof.
  unfold expire_subscriptions, try_except, bind, execute_query.
  rewrite get_connection_run.
  destruct (fault_due w); reflexivity.
Qed.

Lemma expire_where_set_expired (now now' : Z) (s : Subscription) :
  expire_where now (set_expired now' s) = false.
Proof. reflexivity. Qed.

Lemma expire_rows_not_due (now : Z) (l : list Subscription) :
  Forall (fun s => expire_where now s = false) (expire_rows now l).
Proof.
  induction l as [|s l IH]; simpl; constructor; [|exact IH].
  destruct (expire_where now s) eqn:E; [apply expire_where_set_expired | exact E].
Qed.

Lemma filter_none {A} (f : A -> bool) (l : list A) :
  Forall (fun x => f x = false) l -> filter f l = [].
Proof.
  induction 1 as [|x l Hx _ IH]; simpl; [reflexivity|].
  rewrite Hx. exact IH.
Qed.

Lemma expire_rows_fixed (now : Z) (l : list Subscription) :
  Forall (fun s => expire_where now s = false) l -> expire_rows now l = l.
Proof.
  induction 1 as [|x l Hx _ IH]; simpl; [reflexivity|].
  rewrite Hx. f_equal. exact IH.
Qed.

Lemma expire_where_spec (now : Z) (s : Subscription) :
  expire_where now s = true <->
  s_status s = Some "active" /\ exists e, s_end_date s = Some e /\ e <= now.
Proof.
  unfold expire_where, sql_eq_text, sql_le. rewrite andb_true_iff.
  destruct (s_status s) as [st|], (s_end_date s) as [e|]; split.
  - intros [Hs He]. apply String.eqb_eq in Hs. apply Z.leb_le in He.
    subst. split; [reflexivity|]. exists e. split; [reflexivity | exact He].
  - intros (Hs & e' & He & Hle). inversion Hs; inversion He; subst.
    split; [apply String.eqb_refl | apply Z.leb_le; exact Hle].
  - intros [_ He]. discriminate.
  - intros (_ & e' & He & _). discriminate.
  - intros [Hs _]. discriminate.
  - intros (Hs & _). discriminate.
  - intros [Hs _]. discriminate.
  - intros (Hs & _). discriminate.
Qed.

(** The WHERE clause of the sweep, read off the two columns. *)
Lemma expire_where_columns (now : Z) (s : Subscription) :
  expire_where now s
  = match s_status s, s_end_date s with
    | Some st, Some e => String.eqb st "active" && (e <=? now)
    | _, _ => false
    end.
Proof.
  unfold expire_where, sql_eq_text, sql_le.
  destruct (s_status s) as [st|], (s_end_date s) as [e|]; try reflexivity.
  apply andb_false_r.
Qed.

(** Row by row: a due row comes out with status 'expired' and
    [updated_at] set, its other columns untouched; every other row comes
    out as it went in. *)
Lemma expire_rows_rowwise (now : Z) (l : list Subscription) :
  Forall2
    (fun s s' =>
       (forall e, s_status s = Some "active" -> s_end_date s = Some e ->
                  e <= now ->
                  s' = mkSubscription (s_id s) (s_user_id s) (s_plan_type s)
                         (Some "expired") (s_start_date s) (s_end_date s)
                         (s_payment_amount s) (s_payment_method s)
                         (s_payment_reference s) (s_created_at s) (Some now)
                         (s_notes s)) /\
       (~ (s_status s = Some "active" /\
           exists e, s_end_date s = Some e /\ e <= now) -> s' = s))
    l (expire_rows now l).
Proof.
  induction l as [|s l IH]; simpl; constructor; [|exact IH].
  destruct (expire_where now s) eqn:E.
  - split; [reflexivity|].
    intros Hnot. exfalso. apply Hnot, expire_where_spec, E.
  - split; [|reflexivity].
    intros e Hs He Hle.
    assert (E' : expire_where now s = true)
      by (apply expire_where_spec; split; [exact Hs|]; exists e; split; assumption).
    rewrite E in E'. discriminate.
Qed.

Lemma expire_rows_none_due (now : Z) (l : list Subscription) :
  Forall (fun s' => s_status s' = Some "active" ->
                    forall e, s_end_date s' = Some e -> now < e)
         (expire_rows now l).
Proof.
  assert (H := expire_rows_not_due now l).
  induction H as [|s' l' Hs' _ IH]; constructor; [|exact IH].
  intros Hs e He.
  destruct (Z_lt_le_dec now e) as [Hlt|Hle]; [exact Hlt|].
  assert (E : expire_where now s' = true)
    by (apply expire_where_spec; split; [exact Hs|]; exists e; split; assumption).
  rewrite Hs' in E. discriminate.
Qed.

(** C7. A sweep that reaches the store returns the number of rows with
    status 'active' and an end date not after the current timestamp.  Each
    of those rows is rewritten with status 'expired' and [updated_at] set
    to the current timestamp, its other columns kept; every other row, the
    other tables and the clock are left as they are, so that afterwards no
    row with status 'active' ends at or before the current timestamp.  A
    second sweep at that same timestamp returns zero and leaves the
    subscriptions as the first sweep left them. *)
Theorem expire_subscriptions_idempotent (w : World) :
  fault_due w = false ->
  exists n w1 w2,
    expire_subscriptions w = (Ok n, w1) /\
    n = Z.of_nat (List.length
          (filter (fun s => match s_status s, s_end_date s with
                            | Some st, Some e =>
                                String.eqb st "active" && (e <=? current_timestamp w)
                            | _, _ => false
                            end)
                  (subscriptions w))) /\
    Forall2
      (fun s s' =>
         (forall e, s_status s = Some "active" -> s_end_date s = Some e ->
                    e <= current_timestamp w ->
                    s' = mkSubscription (s_id s) (s_user_id s) (s_plan_type s)
                           (Some "expired") (s_start_date s) (s_end_date s)
                           (s_payment_amount s) (s_payment_method s)
                           (s_payment_reference s) (s_created_at s)
                           (Some (current_timestamp w)) (s_notes s)) /\
         (~ (s_status s = Some "active" /\
             exists e, s_end_date s = Some e /\ e <= current_timestamp w) ->
          s' = s))
      (subscriptions w) (subscriptions w1) /\
    Forall (fun s' => s_status s' = Some "active" ->
                      forall e, s_end_date s' = Some e -> current_timestamp w < e)
           (subscriptions w1) /\
    users w1 = users w /\ sub_seq w1 = sub_seq w /\ audit_log w1 = audit_log w /\
    analytics_events w1 = analytics_events w /\
    current_timestamp w1 = current_timestamp w /\
    expire_subscriptions w1 = (Ok 0, w2) /\
    subscriptions w2 = subscriptions w1.
Proof.
  intros Hup. rewrite expire_subscriptions_run, Hup.
  set (now := current_timestamp w).
  set (w1 := set_subscriptions (expire_rows now (subscriptions w)) (pop_fault w)).
  assert (Hnot : Forall (fun s => expire_where now s = false) (subscriptions w1))
    by apply expire_rows_not_due.
  exists (Z.of_nat (List.length (filter (expire_where now) (subscriptions w)))), w1.
  assert (Hsecond : exists w2, expire_subscriptions w1 = (Ok 0, w2) /\
                               subscriptions w2 = subscriptions w1).
  { rewrite expire_subscriptions_run.
    change (current_timestamp w1) with now.
    destruct (fault_due w1).
    - eexists. split; reflexivity.
    - rewrite (filter_none _ _ Hnot). eexists. split; [reflexivity|].
      apply expire_rows_fixed. exact Hnot. }
  destruct Hsecond as (w2 & Hrun2 & Hsame). exists w2.
  split; [reflexivity|].
  split; [do 2 f_equal; apply filter_ext; intros s; apply expire_where_columns|].
  split; [apply expire_rows_rowwise|].
  split; [apply expire_rows_none_due|].
  do 5 (split; [reflexivity|]).
  split; assumption.
Qed.

Lemma expire_subscriptions_idempotent_witness :
  fault_due sweep_world = false /\
  exists w1 w2,
    expire_subscriptions sweep_world = (Ok 1, w1) /\
    subscriptions w1
    = [ mkSubscription 1 42 "month" (Some "expired") (Some 0) (Some 500) (Some 0)
                       None None (Some 0) (Some 1000) None;
        row_ending 2 2000;
        mkSubscription 3 42 "week" (Some "expired") (Some 0) (Some 100) (Some 0)
                       None None (Some 0) (Some 150) None ] /\
    expire_subscriptions w1 = (Ok 0, w2) /\
    subscriptions w2 = subscriptions w1.
Proof.
  split; [reflexivity|].
  destruct (expire_subscriptions_idempotent sweep_world eq_refl)
    as (n & w1 & w2 & H1 & Hn & Hrows & _ & _ & _ & _ & _ & _ & H2 & Hsame).
  simpl in Hn. subst n.
  exists w1, w2. split; [exact H1|].
  split; [|split; assumption].
  simpl in Hrows. remember (subscriptions w1) as rows eqn:Hl. clear Hl.
  inversion Hrows as [|s1 s1' l1 l1' [Hdue1 _] Hrest1]; subst.
  inversion Hrest1 as [|s2 s2' l2 l2' [_ Hkeep2] Hrest2]; subst.
  inversion Hrest2 as [|s3 s3' l3 l3' [_ Hkeep3] Hrest3]; subst.
  inversion Hrest3; subst.
  rewrite (Hdue1 500 eq_refl eq_refl ltac:(lia)).
  rewrite Hkeep2 by (intros (_ & e & [= <-] & Hle); lia).
  rewrite Hkeep3 by (intros (Hs & _); discriminate Hs).
  reflexivity.
Defined.

(** ** C4: failures of audit and analytics writes *)

Lemma log_audit_event_run (user_id admin_id : Z) (action : string)
    (details : option string) (w : World) :
  log_audit_event user_id admin_id action details w =
  if fault_due w
  then (Ok false, set_error_log (error_log w ++ ["log_audit_event"]) (pop_fault w))
  else if fk_user_ok (Some user_id) w && fk_user_ok (Some admin_id) w
  then (Ok true,
        set_audit_log
          (audit_log w ++
           [mkAuditRow (Some user_id) (Some admin_id) action details
                       (Some (current_timestamp w))]) (pop_fault w))
  else (Ok false, set_error_log (error_log w ++ ["log_audit_event"]) (pop_fault w)).
Proof.
  unfold log_audit_event, try_except, bind, execute_query.
  rewrite get_connection_run.
  destruct (fault_due w); [reflexivity|].
  unfold insert_audit_event.
  change (fk_user_ok (Some user_id) (pop_fault w)) with (fk_user_ok (Some user_id) w).
  change (fk_user_ok (Some admin_id) (pop_fault w)) with (fk_user_ok (Some admin_id) w).
  destruct (fk_user_ok (Some user_id) w && fk_user_ok (Some admin_id) w); reflexivity.
Qed.

Lemma log_analytics_event_run (cfg : AppConfig) (user_id : Z) (event_type : string)
    (event_data : option EventData) (w : World) :
  log_analytics_event cfg user_id event_type event_data w =
  if negb (enable_analytics cfg) then (Ok true, w)
  else if fault_due w
  then (Ok false, set_error_log (error_log w ++ ["log_analytics_event"]) (pop_fault w))
  else if fk_user_ok (Some user_id) w
  then (Ok true,
        set_analytics_events
          (analytics_events w ++
           [mkAnalyticsRow (Some user_id) event_type (event_data_json event_data)
                           (Some (current_timestamp w))]) (pop_fault w))
  else (Ok false, set_error_log (error_log w ++ ["log_analytics_event"]) (pop_fault w)).
Proof.
  unfold log_analytics_event.
  destruct (negb (enable_analytics cfg)); [reflexivity|].
  unfold try_except, bind, execute_query.
  rewrite get_connection_run.
  destruct (fault_due w); [reflexivity|].
  unfold insert_analytics_event.
  change (fk_user_ok (Some user_id) (pop_fault w)) with (fk_user_ok (Some user_id) w).
  destruct (fk_user_ok (Some user_id) w); reflexivity.
Qed.

(** The claim fails: with a storage fault due, [log_audit_event] hands
    [False] back to its caller and raises nothing. *)
Lemma log_audit_event_swallows_failure :
  let w := mkWorld [] [] 0 [] [] 1000 1000 [true] [] in
  log_audit_event 42 7 "grant_access" None w
  = (Ok false, mkWorld [] [] 0 [] [] 1000 1000 [] ["log_audit_event"]) /\
  ~ exists e w', log_audit_event 42 7 "grant_access" None w = (Raise e, w').
Proof.
  split; [reflexivity|].
  intros (e & w' & H). discriminate H.
Qed.

(** C4 (amended). A failure while writing an audit event is caught inside
    [log_audit_event], which logs it and returns false without raising,
    exactly as [log_analytics_event] does for an analytics event; neither
    function ever raises to its caller. *)
Theorem audit_and_analytics_failures_swallowed (cfg : AppConfig)
    (user_id admin_id : Z) (action : string) (details : option string)
    (event_type : string) (event_data : option EventData) (w : World) :
  (forall fs,
     log_audit_event user_id admin_id action details (set_faults (true :: fs) w)
     = (Ok false, set_error_log (error_log w ++ ["log_audit_event"]) (set_faults fs w))) /\
  (forall fs,
     log_analytics_event cfg user_id event_type event_data (set_faults (true :: fs) w)
     = if enable_analytics cfg
       then (Ok false,
             set_error_log (error_log w ++ ["log_analytics_event"]) (set_faults fs w))
       else (Ok true, set_faults (true :: fs) w)) /\
  (exists b w', log_audit_event user_id admin_id action details w = (Ok b, w')) /\
  (exists b w', log_analytics_event cfg user_id event_type event_data w = (Ok b, w')).
Proof.
  split; [|split; [|split]].
  - intros fs. rewrite log_audit_event_run. reflexivity.
  - intros fs. rewrite log_analytics_event_run.
    destruct (enable_analytics cfg); reflexivity.
  - rewrite log_audit_event_run.
    destruct (fault_due w); [eauto|].
    destruct (fk_user_ok (Some user_id) w && fk_user_ok (Some admin_id) w); eauto.
  - rewrite log_analytics_event_run.
    destruct (negb (enable_analytics cfg)); [eauto|].
    destruct (fault_due w); [eauto|].
    destruct (fk_user_ok (Some user_id) w); eauto.
Qed.

(** ** C3: [create_user] on a user that is already stored *)

Lemma create_user_run (user_data : User) (w : World) :
  create_user user_data w =
  if fault_due w
  then (Ok false, set_error_log (error_log w ++ ["create_user"]) (pop_fault w))
  else (Ok true,
        set_users
          (filter (fun u => negb (u_telegram_id u =? telegram_id user_data)) (users w)
           ++ [replaced_user_row user_data w]) (pop_fault w)).
Proof.
  unfold create_user, try_except, bind, execute_query.
  rewrite get_connection_run.
  destruct (fault_due w); reflexivity.
Qed.

Lemma filter_filter_negb {A} (f : A -> bool) (l : list A) :
  filter f (filter (fun x => negb (f x)) l) = [].
Proof.
  induction l as [|x l IH]; simpl; [reflexivity|].
  destruct (f x) eqn:E; simpl; [exact IH|]. rewrite E. exact IH.
Qed.

Lemma filter_idem {A} (f : A -> bool) (l : list A) :
  filter f (filter f l) = filter f l.
Proof.
  induction l as [|x l IH]; simpl; [reflexivity|].
  destruct (f x) eqn:E; simpl; [rewrite E; f_equal|]; exact IH.
Qed.

(** The claim fails: the upsert of an existing user resets [created_at]
    and clears [referral_code] and [notes]. *)
Lemma create_user_resets_other_columns :
  exists new w',
    In stored_user (users stored_world) /\
    u_telegram_id stored_user = telegram_id recontact_profile /\
    create_user recontact_profile stored_world = (Ok true, w') /\
    users w' = [new] /\
    u_telegram_id new = 42 /\
    u_created_at stored_user = Some 5 /\ u_created_at new = Some 1000 /\
    u_referral_code stored_user = Some "REF42" /\ u_referral_code new = None /\
    u_notes stored_user = Some "vip" /\ u_notes new = None.
Proof.
  eexists. eexists. split; [left; reflexivity|].
  split; [reflexivity|]. split; [reflexivity|].
  simpl. repeat split; reflexivity.
Qed.

(** C3 (amended). When the store answers, [create_user] on a stored user
    does not fail on the duplicate identifier and leaves exactly one row
    for it; that row carries the supplied profile fields, and its
    [updated_at] and [last_activity] are the current timestamp.  Rows of
    other users and the other tables are left as they were. *)
Theorem create_user_replaces_row (user_data : User) (w : World) :
  user_exists (telegram_id user_data) w = true ->
  fault_due w = false ->
  exists new w',
    create_user user_data w = (Ok true, w') /\
    filter (fun u => u_telegram_id u =? telegram_id user_data) (users w') = [new] /\
    filter (fun u => negb (u_telegram_id u =? telegram_id user_data)) (users w')
    = filter (fun u => negb (u_telegram_id u =? telegram_id user_data)) (users w) /\
    (u_telegram_id new = telegram_id user_data /\
     u_username new = username user_data /\
     u_first_name new = first_name user_data /\
     u_last_name new = last_name user_data /\
     u_language_code new = Some (or_es (language_code user_data)) /\
     u_phone_number new = phone_number user_data /\
     u_is_admin new = is_admin user_data /\
     u_is_banned new = is_banned user_data) /\
    (u_updated_at new = Some (current_timestamp w) /\
     u_last_activity new = Some (current_timestamp w)) /\
    (subscriptions w' = subscriptions w /\ sub_seq w' = sub_seq w /\
     audit_log w' = audit_log w /\ analytics_events w' = analytics_events w).
Proof.
  intros _ Hup. rewrite create_user_run, Hup.
  exists (replaced_user_row user_data w). eexists.
  split; [reflexivity|]. simpl.
  rewrite !filter_app, filter_filter_negb, filter_idem. simpl.
  rewrite Z.eqb_refl. simpl. rewrite app_nil_r.
  repeat split; reflexivity.
Qed.

Lemma create_user_replaces_row_witness :
  user_exists (telegram_id recontact_profile) stored_world = true /\
  fault_due stored_world = false /\
  exists new w',
    create_user recontact_profile stored_world = (Ok true, w') /\
    filter (fun u => u_telegram_id u =? 42) (users w') = [new] /\
    u_username new = Some "new_name".
Proof.
  split; [reflexivity|]. split; [reflexivity|].
  destruct (create_user_replaces_row recontact_profile stored_world eq_refl eq_refl)
    as (new & w' & Hrun & Hone & _ & (_ & Hname & _) & _).
  exists new, w'. repeat split; assumption.
Defined.

(** What the replacement does to the columns outside the profile: the
    row that [create_user] leaves for the user has the current timestamp
    as [created_at] and NULL in [referral_code], [referred_by] and
    [notes], whatever the replaced row held. *)
Lemma create_user_other_columns_default (user_data : User) (w : World) :
  fault_due w = false ->
  forall new,
    In new (users (snd (create_user user_data w))) ->
    u_telegram_id new = telegram_id user_data ->
    u_created_at new = Some (current_timestamp w) /\
    u_referral_code new = None /\ u_referred_by new = None /\ u_notes new = None.
Proof.
  intros Hup new. rewrite create_user_run, Hup. simpl.
  rewrite in_app_iff, filter_In. intros [[_ Hne]|[<-|[]]] Htid.
  - rewrite Htid, Z.eqb_refl in Hne. discriminate.
  - repeat split.
Qed.

(** [create_user] never raises: a storage failure is reported as [False]
    and leaves the tables as they were. *)
Lemma create_user_never_raises (user_data : User) (w : World) :
  (exists b w', create_user user_data w = (Ok b, w')) /\
  (fault_due w = true ->
   exists w', create_user user_data w = (Ok false, w') /\ tables_unchanged w w').
Proof.
  rewrite create_user_run. destruct (fault_due w).
  - split; [eauto|]. intros _. eexists. split; [reflexivity|]. repeat split.
  - split; [eauto|]. discriminate.
Qed.

(** ** The access grant, step by step *)

Lemma create_subscription_run (user_id : Z) (plan_type : string)
    (start_date end_date : Z) (payment_amount : option Z) (w : World) :
  create_subscription user_id plan_type start_date end_date payment_amount w =
  if fault_due w
  then (Ok None, set_error_log (error_log w ++ ["create_subscription"]) (pop_fault w))
  else if user_exists user_id w
  then (Ok (Some (next_subscription_rowid w)),
        set_sub_seq (Z.to_N (next_subscription_rowid w))
          (set_subscriptions
             (subscriptions w ++
              [new_subscription_row user_id plan_type start_date end_date
                                    payment_amount w]) (pop_fault w)))
  else (Ok None, set_error_log (error_log w ++ ["create_subscription"]) (pop_fault w)).
Proof.
  unfold create_subscription, try_except, bind.
  rewrite get_connection_run.
  destruct (fault_due w); [reflexivity|].
  unfold insert_subscription.
  change (user_exists user_id (pop_fault w)) with (user_exists user_id w).
  destruct (user_exists user_id w); reflexivity.
Qed.

Lemma truthy_new_rowid (w : World) :
  truthy_id (Some (next_subscription_rowid w)) = true.
Proof.
  unfold truthy_id, next_subscription_rowid.
  apply negb_true_iff, Z.eqb_neq. lia.
Qed.

Lemma grant_access_done (py_int : string -> option Z) (admin : TelegramUser)
    (a0 plan_type : string) (rest : list string) (user_id days : Z) (w : World) :
  py_int a0 = Some user_id ->
  grant_days py_int plan_type rest = Some days ->
  Z.abs days <= 999999999 ->
  0 <= datetime_now w + days * US_PER_DAY <= DATETIME_MAX ->
  user_exists user_id w = true ->
  faults w = [] ->
  exists w',
    grant_access py_int (Some admin) (a0 :: plan_type :: rest) w
    = (Ok [GrantDone user_id plan_type days (datetime_now w + days * US_PER_DAY)], w') /\
    subscriptions w'
    = (subscriptions w ++
       [new_subscription_row user_id plan_type (datetime_now w)
          (datetime_now w + days * US_PER_DAY) (Some 0) w])%list /\
    users w' = users w /\
    current_timestamp w' = current_timestamp w /\
    datetime_now w' = datetime_now w /\
    faults w' = [].
Proof.
  intros Ha0 Hdays Habs Hrange Huser Hfaults.
  assert (Hd : forall w0,
             match rest with
             | a2 :: _ => int py_int a2
             | [] => ret (plan_days_or_30 plan_type)
             end w0 = (Ok days, w0)).
  { intros w0. unfold grant_days in Hdays. destruct rest as [|a2 rest'].
    - injection Hdays as <-. reflexivity.
    - unfold int. rewrite Hdays. reflexivity. }
  unfold grant_access, try_except, bind.
  unfold int at 1. rewrite Ha0. unfold ret at 1. rewrite Hd.
  unfold get_world, timedelta_days.
  replace (Z.abs days <=? 999999999) with true by (symmetry; apply Z.leb_le; lia).
  unfold ret at 1. unfold datetime_add.
  replace ((0 <=? datetime_now w + days * US_PER_DAY)
           && (datetime_now w + days * US_PER_DAY <=? DATETIME_MAX)) with true
    by (symmetry; apply andb_true_iff; split; apply Z.leb_le; lia).
  unfold ret at 1.
  rewrite create_subscription_run, (fault_due_no_faults _ Hfaults), Huser.
  rewrite truthy_new_rowid. unfold effective_user_id, ret at 1.
  rewrite log_audit_event_run.
  rewrite (pop_fault_no_faults _ Hfaults).
  match goal with
  | |- context [fault_due ?x] =>
      replace (fault_due x) with false
        by (unfold fault_due; simpl; rewrite Hfaults; reflexivity);
      replace (pop_fault x) with x
        by (symmetry; apply pop_fault_no_faults; simpl; exact Hfaults)
  end.
  match goal with
  | |- context [if ?c then _ else _] => destruct c
  end; eexists; (split; [reflexivity|]); simpl; repeat split; assumption.
Qed.

(** ** Two activations for one user *)

Lemma create_subscription_appends (user_id : Z) (plan_type : string)
    (start_date end_date : Z) (payment_amount : option Z) (w : World) :
  faults w = [] ->
  user_exists user_id w = true ->
  exists w',
    create_subscription user_id plan_type start_date end_date payment_amount w
    = (Ok (Some (next_subscription_rowid w)), w') /\
    subscriptions w'
    = (subscriptions w ++
       [new_subscription_row user_id plan_type start_date end_date
                             payment_amount w])%list /\
    users w' = users w /\
    current_timestamp w' = current_timestamp w /\
    faults w' = [].
Proof.
  intros Hf Hu. rewrite create_subscription_run.
  rewrite (fault_due_no_faults _ Hf), Hu, (pop_fault_no_faults _ Hf).
  eexists. split; [reflexivity|]. repeat split. exact Hf.
Qed.

(** Two activations for the same user, in whichever order they are
    carried out, leave two rows, and the lookup that follows returns the
    one that ends later. *)
Lemma two_activations_latest (user_id : Z) (p1 p2 : string)
    (s1 e1 s2 e2 : Z) (pay : option Z) (w : World) :
  faults w = [] ->
  user_exists user_id w = true ->
  e1 <> e2 ->
  current_timestamp w < Z.max e1 e2 ->
  (forall s', In s' (subscriptions w) ->
              active_where user_id (current_timestamp w) s' = true ->
              order_leb (Some (Z.max e1 e2)) (s_end_date s') = false) ->
  exists id1 id2 w1 w2 r,
    create_subscription user_id p1 s1 e1 pay w = (Ok (Some id1), w1) /\
    create_subscription user_id p2 s2 e2 pay w1 = (Ok (Some id2), w2) /\
    List.length (subscriptions w2) = S (S (List.length (subscriptions w))) /\
    get_active_subscription user_id w2 = (Ok (Some r), w2) /\
    s_end_date r = Some (Z.max e1 e2) /\
    (s_plan_type r, s_start_date r)
    = if e1 <? e2 then (p2, Some s2) else (p1, Some s1).
Proof.
  intros Hf Hu Hne Hnow Hold.
  destruct (create_subscription_appends user_id p1 s1 e1 pay w Hf Hu)
    as (w1 & Hc1 & Hs1 & Hu1 & Ht1 & Hf1).
  assert (Hu' : user_exists user_id w1 = true)
    by (unfold user_exists; rewrite Hu1; exact Hu).
  destruct (create_subscription_appends user_id p2 s2 e2 pay w1 Hf1 Hu')
    as (w2 & Hc2 & Hs2 & Hu2 & Ht2 & Hf2).
  set (r1 := new_subscription_row user_id p1 s1 e1 pay w) in *.
  set (r2 := new_subscription_row user_id p2 s2 e2 pay w1) in *.
  assert (Hnow2 : current_timestamp w2 = current_timestamp w) by congruence.
  assert (Hin : forall x, In x (subscriptions w2) <->
                          In x (subscriptions w) \/ x = r1 \/ x = r2).
  { intros x. rewrite Hs2, Hs1, !in_app_iff. simpl. intuition. }
  assert (Hwin : exists r, In r (subscriptions w2) /\
             s_end_date r = Some (Z.max e1 e2) /\
             s_user_id r = user_id /\ s_status r = Some "active" /\
             (s_plan_type r, s_start_date r)
             = (if e1 <? e2 then (p2, Some s2) else (p1, Some s1)) /\
             (forall x, x = r1 \/ x = r2 ->
                        order_leb (Some (Z.max e1 e2)) (s_end_date x) = true ->
                        x = r)).
  { destruct (e1 <? e2) eqn:E.
    - apply Z.ltb_lt in E. exists r2.
      split; [apply Hin; auto|]. split; [simpl; f_equal; lia|].
      repeat split. intros x [-> | ->] Hle; [|reflexivity].
      simpl in Hle. apply Z.leb_le in Hle. lia.
    - apply Z.ltb_ge in E. exists r1.
      split; [apply Hin; auto|]. split; [simpl; f_equal; lia|].
      repeat split. intros x [-> | ->] Hle; [reflexivity|].
      simpl in Hle. apply Z.leb_le in Hle. lia. }
  destruct Hwin as (r & Hrin & Hrend & Hruser & Hrstatus & Hrplan & Hruniq).
  exists (next_subscription_rowid w), (next_subscription_rowid w1), w1, w2, r.
  split; [exact Hc1|]. split; [exact Hc2|].
  split; [rewrite Hs2, Hs1, !length_app; simpl; lia|].
  split; [|split; assumption].
  rewrite get_active_subscription_run.
  rewrite (fault_due_no_faults _ Hf2), (pop_fault_no_faults _ Hf2).
  f_equal. f_equal. apply active_rows_head_unique.
  - exact Hrin.
  - apply active_where_spec. repeat split; try assumption.
    exists (Z.max e1 e2). split; [exact Hrend|]. rewrite Hnow2. exact Hnow.
  - intros x Hx Hact Hle. rewrite Hrend in Hle.
    apply Hin in Hx. destruct Hx as [Hx|Hx].
    + rewrite Hnow2 in Hact. rewrite (Hold x Hx Hact) in Hle. discriminate.
    + apply Hruniq; assumption.
Qed.

(** ** C2: a grant with a plan outside the catalogue *)

(** The claim fails: [/grant 42 quarter] reports no invalid plan and
    inserts a 30-day row for the plan "quarter". *)
Lemma grant_access_unknown_plan_inserts :
  dict_get PLANS "quarter" = None /\
  subscriptions grant_world = [] /\
  exists w',
    grant_access decimal_int (Some admin7) ["42"; "quarter"] grant_world
    = (Ok [GrantDone 42 "quarter" 30 (1000 + 30 * US_PER_DAY)], w') /\
    subscriptions w'
    = [mkSubscription 1 42 "quarter" (Some "active") (Some 1000)
         (Some (1000 + 30 * US_PER_DAY)) (Some 0) None None
         (Some 1000) (Some 1000) None].
Proof.
  split; [reflexivity|]. split; [reflexivity|].
  eexists. split; reflexivity.
Qed.

(** C2 (amended). For a plan identifier outside the enumerated set the
    grant raises no invalid-plan error: the duration is the third argument
    or, without one, 30 days, and when the target user is stored, the end
    date is representable and the store answers, the grant is reported as
    done and one row with that plan identifier and status 'active' is
    added to the subscriptions table. *)
Theorem grant_access_unknown_plan (py_int : string -> option Z)
    (admin : TelegramUser) (a0 plan_type : string) (rest : list string)
    (user_id days : Z) (w : World) :
  dict_get PLANS plan_type = None ->
  py_int a0 = Some user_id ->
  grant_days py_int plan_type rest = Some days ->
  Z.abs days <= 999999999 ->
  0 <= datetime_now w + days * US_PER_DAY <= DATETIME_MAX ->
  user_exists user_id w = true ->
  faults w = [] ->
  (rest = [] -> days = 30) /\
  exists new w',
    grant_access py_int (Some admin) (a0 :: plan_type :: rest) w
    = (Ok [GrantDone user_id plan_type days (datetime_now w + days * US_PER_DAY)], w') /\
    subscriptions w' = (subscriptions w ++ [new])%list /\
    s_user_id new = user_id /\ s_plan_type new = plan_type /\
    s_status new = Some "active" /\
    s_start_date new = Some (datetime_now w) /\
    s_end_date new = Some (datetime_now w + days * US_PER_DAY).
Proof.
  intros Hplan Ha0 Hdays Habs Hrange Huser Hfaults. split.
  - intros ->. unfold grant_days, plan_days_or_30 in Hdays.
    rewrite Hplan in Hdays. congruence.
  - destruct (grant_access_done py_int admin a0 plan_type rest user_id days w
                Ha0 Hdays Habs Hrange Huser Hfaults) as (w' & Hrun & Hsubs & _).
    eexists. exists w'. split; [exact Hrun|]. split; [exact Hsubs|].
    repeat split.
Qed.

Lemma grant_access_unknown_plan_witness :
  dict_get PLANS "quarter" = None /\
  exists new w',
    grant_access decimal_int (Some admin7) ["42"; "quarter"] grant_world
    = (Ok [GrantDone 42 "quarter" 30 (1000 + 30 * US_PER_DAY)], w') /\
    subscriptions w' = [new] /\ s_plan_type new = "quarter".
Proof.
  split; [reflexivity|].
  destruct (grant_access_unknown_plan decimal_int admin7 "42" "quarter" [] 42 30
              grant_world) as (_ & new & w' & Hrun & Hsubs & _ & Hplan & _);
    try reflexivity.
  - simpl. lia.
  - unfold grant_world, DATETIME_MAX, US_PER_DAY. simpl. lia.
  - exists new, w'. repeat split; assumption.
Defined.

(** ** C5: a grant followed by the subscription check *)

(** The claim fails for a duration of zero days: the grant is reported as
    done, yet the check right after it finds no active subscription. *)
Lemma grant_zero_days_not_active :
  dict_get PLANS "month" = Some (mkPlan "MONTH PASS" "$24.99" 30) /\
  exists w1,
    grant_access decimal_int (Some admin7) ["42"; "month"; "0"] grant_world
    = (Ok [GrantDone 42 "month" 0 1000], w1) /\
    is_user_subscribed 42 w1 = (Ok (false, None), w1).
Proof.
  split; [reflexivity|]. eexists. split; reflexivity.
Qed.

(** C5 (amended). For a stored target user, a duration of at least one
    day with a representable end date and a store that answers, the grant
    adds a row with status 'active' whose end date is its start date plus
    exactly the given number of days, and a subscription check made while
    both clocks are before that end date returns (true, subscription):
    the subscription is a row of that user with status 'active' that ends
    no earlier than the new row, and it is the new row itself unless an
    older qualifying row of the user ends at the same time or later. *)
Theorem grant_then_is_user_subscribed (py_int : string -> option Z)
    (admin : TelegramUser) (a0 plan_type : string) (rest : list string)
    (user_id days : Z) (w : World) (ct dn : Z) :
  py_int a0 = Some user_id ->
  grant_days py_int plan_type rest = Some days ->
  1 <= days <= 999999999 ->
  0 <= datetime_now w ->
  datetime_now w + days * US_PER_DAY <= DATETIME_MAX ->
  user_exists user_id w = true ->
  faults w = [] ->
  ct < datetime_now w + days * US_PER_DAY ->
  dn < datetime_now w + days * US_PER_DAY ->
  exists new w1 s w2,
    grant_access py_int (Some admin) (a0 :: plan_type :: rest) w
    = (Ok [GrantDone user_id plan_type days (datetime_now w + days * US_PER_DAY)], w1) /\
    subscriptions w1 = (subscriptions w ++ [new])%list /\
    (s_user_id new = user_id /\ s_plan_type new = plan_type /\
     s_status new = Some "active" /\
     s_start_date new = Some (datetime_now w) /\
     s_end_date new = Some (datetime_now w + days * US_PER_DAY)) /\
    is_user_subscribed user_id (set_clocks ct dn w1) = (Ok (true, Some s), w2) /\
    (In s (subscriptions w1) /\ s_user_id s = user_id /\
     s_status s = Some "active" /\
     order_leb (s_end_date new) (s_end_date s) = true) /\
    ((forall s', In s' (subscriptions w) -> active_where user_id ct s' = true ->
                 order_leb (s_end_date new) (s_end_date s') = false) ->
     s = new).
Proof.
  intros Ha0 Hdays Hd Hnow Hmax Huser Hfaults Hct Hdn.
  assert (Hpos : 0 < US_PER_DAY) by (unfold US_PER_DAY; lia).
  destruct (grant_access_done py_int admin a0 plan_type rest user_id days w
              Ha0 Hdays) as (w1 & Hrun & Hsubs & _ & _ & _ & Hf1);
    [lia | nia | exact Huser | exact Hfaults |].
  set (e := datetime_now w + days * US_PER_DAY) in *.
  set (new := new_subscription_row user_id plan_type (datetime_now w) e (Some 0) w) in *.
  set (w1c := set_clocks ct dn w1).
  assert (Hnew_in : In new (subscriptions w1c)).
  { change (subscriptions w1c) with (subscriptions w1). rewrite Hsubs.
    apply in_or_app. right. left. reflexivity. }
  assert (Hnew_act : active_where user_id (current_timestamp w1c) new = true).
  { apply active_where_spec. repeat split. exists e. split; [reflexivity|exact Hct]. }
  destruct (hd_error (active_rows user_id w1c)) as [s|] eqn:Hhd.
  2:{ rewrite (active_rows_head_none _ _ Hhd new Hnew_in) in Hnew_act. discriminate. }
  destruct (active_rows_head_some _ _ _ Hhd) as (Hsin & Hsact & Hsmax).
  assert (Hle := Hsmax new Hnew_in Hnew_act).
  apply active_where_spec in Hsact. destruct Hsact as (Hsu & Hss & es & Hes & Hlt).
  exists new, w1, s, (pop_fault w1c).
  split; [exact Hrun|]. split; [exact Hsubs|]. split; [repeat split|].
  split.
  { fold w1c. rewrite is_user_subscribed_run.
    replace (fault_due w1c) with false
      by (unfold fault_due, w1c; simpl; rewrite Hf1; reflexivity).
    rewrite Hhd, Hes. change (datetime_now w1c) with dn.
    replace (dn <? es) with true; [reflexivity|].
    symmetry. apply Z.ltb_lt. rewrite Hes in Hle. simpl in Hle.
    apply Z.leb_le in Hle. lia. }
  split; [repeat split; assumption|].
  intros Holder.
  assert (Hhead : hd_error (active_rows user_id w1c) = Some new).
  { apply active_rows_head_unique; try assumption.
    intros s' Hin' Hact' Hle'.
    change (subscriptions w1c) with (subscriptions w1) in Hin'.
    rewrite Hsubs in Hin'. apply in_app_or in Hin'.
    destruct Hin' as [Hold|[<-|[]]]; [|reflexivity].
    rewrite (Holder s' Hold Hact') in Hle'. discriminate. }
  congruence.
Qed.

Lemma grant_then_is_user_subscribed_witness :
  exists s w2,
    is_user_subscribed 42
      (set_clocks 1000 1000
         (snd (grant_access decimal_int (Some admin7) ["42"; "month"; "30"] grant_world)))
    = (Ok (true, Some s), w2) /\
    s_end_date s = Some (1000 + 30 * US_PER_DAY).
Proof.
  destruct (grant_then_is_user_subscribed decimal_int admin7 "42" "month" ["30"]
              42 30 grant_world 1000 1000)
    as (new & w1 & s & w2 & Hrun & _ & (_ & _ & _ & _ & Hend) & Hcheck & _ & Hsame);
    try reflexivity; try (unfold grant_world, DATETIME_MAX, US_PER_DAY; simpl; lia).
  rewrite Hrun. exists s, w2. split; [exact Hcheck|].
  rewrite Hsame; [exact Hend|]. intros s' [].
Defined.

(** ** C9: the grant command of anyone but the administrator *)

(** C9. A grant command sent by anyone other than the configured
    administrator is taken by no handler that
    [register_handlers_safely] registers: [grant_access] does not run and
    the world, the subscriptions table and the audit log included, is left
    exactly as it was. *)
Theorem grant_by_non_admin_not_dispatched (py_int : string -> option Z)
    (set_user_language : Z -> string -> M unit) (cfg : AppConfig)
    (admin_handler : option Handler) (sender : option TelegramUser)
    (args : list string) (w : World) :
  not_administrator cfg sender ->
  conversation_declines admin_handler (CommandUpdate sender "grant" args) ->
  process_update
    (register_handlers_safely py_int set_user_language cfg admin_handler)
    (CommandUpdate sender "grant" args) w
  = (Ok [], w).
Proof.
  intros Hnot Hdecl.
  unfold process_update, register_handlers_safely.
  assert (Hrest :
    find (fun h => check_update h (CommandUpdate sender "grant" args))
      ([CommandHandler "start" (start cfg) (fun _ => true)] ++
       match admin_configured cfg with
       | Some a => [CommandHandler "grant" (grant_callback py_int) (Filters_user a)]
       | None => []
       end ++
       [CallbackQueryHandler (handle_language_selection set_user_language cfg)
          (String.prefix "set_lang_");
        CallbackQueryHandler (handle_age_verification cfg)
          (String.prefix "age_verify_");
        CallbackQueryHandler (handle_terms_acceptance cfg) terms_accept_pattern;
        CallbackQueryHandler (handle_home_menu_buttons cfg)
          (String.prefix "home_")])%list = None).
  { simpl. unfold admin_configured.
    destruct (admin_user_id cfg) as [a|] eqn:Ha; [|reflexivity].
    destruct (a =? 0); [reflexivity|]. simpl.
    destruct sender as [u|]; simpl; [|reflexivity].
    replace (tg_id u =? a) with false; [reflexivity|].
    symmetry. apply Z.eqb_neq. intros Heq. apply Hnot. simpl. congruence. }
  destruct admin_handler as [h|]; simpl in Hdecl |- *.
  - rewrite Hdecl. simpl in Hrest. rewrite Hrest. reflexivity.
  - simpl in Hrest. rewrite Hrest. reflexivity.
Qed.

Lemma grant_by_non_admin_not_dispatched_witness :
  not_administrator config7 (Some user9) /\
  process_update (register_handlers_safely decimal_int store_language config7 None)
    (CommandUpdate (Some user9) "grant" ["42"; "month"]) grant_world
  = (Ok [], grant_world).
Proof.
  assert (Hnot : not_administrator config7 (Some user9)) by (simpl; discriminate).
  split; [exact Hnot|].
  apply (grant_by_non_admin_not_dispatched decimal_int store_language config7 None
           (Some user9) ["42"; "month"] grant_world Hnot I).
Defined.

(** The same command sent by the administrator does reach [grant_access]. *)
Lemma grant_by_admin_dispatched (py_int : string -> option Z)
    (set_user_language : Z -> string -> M unit) (cfg : AppConfig)
    (admin : TelegramUser) (args : list string) (w : World) :
  admin_user_id cfg = Some (tg_id admin) ->
  tg_id admin <> 0 ->
  process_update (register_handlers_safely py_int set_user_language cfg None)
    (CommandUpdate (Some admin) "grant" args) w
  = grant_access py_int (Some admin) args w.
Proof.
  intros Hcfg Hnz. unfold process_update, register_handlers_safely, admin_configured.
  rewrite Hcfg. apply Z.eqb_neq in Hnz. rewrite Hnz. simpl.
  rewrite Z.eqb_refl. reflexivity.
Qed.

(** ** C8: the language gate of [/start] *)

Ltac storage_up H :=
  repeat match goal with
  | |- context [fault_due ?x] =>
      replace (fault_due x) with false
        by (unfold fault_due; simpl; rewrite H; reflexivity)
  | |- context [pop_fault ?x] =>
      replace (pop_fault x) with x
        by (symmetry; apply pop_fault_no_faults; simpl; exact H)
  end.

Lemma get_user_run (tid : Z) (w : World) :
  get_user tid w =
  if fault_due w
  then (Ok None, set_error_log (error_log w ++ ["get_user"]) (pop_fault w))
  else (Ok (hd_error (filter (fun u => u_telegram_id u =? tid) (users w))),
        pop_fault w).
Proof.
  unfold get_user, try_except, bind, execute_query.
  rewrite get_connection_run.
  destruct (fault_due w); [reflexivity|].
  unfold select_user, ret. cbv beta iota.
  change (users (pop_fault w)) with (users w).
  destruct (filter _ (users w)); reflexivity.
Qed.

Lemma update_user_activity_run (tid : Z) (w : World) :
  update_user_activity tid w =
  if fault_due w
  then (Ok false,
        set_error_log (error_log w ++ ["update_user_activity"]) (pop_fault w))
  else (Ok (Z.of_nat (List.length
                        (filter (fun u => u_telegram_id u =? tid) (users w))) >? 0),
        set_users
          (map (fun u => if u_telegram_id u =? tid
                         then touch_user (current_timestamp w) u else u) (users w))
          (pop_fault w)).
Proof.
  unfold update_user_activity, try_except, bind, execute_query.
  rewrite get_connection_run.
  destruct (fault_due w); reflexivity.
Qed.

Lemma filter_touched (tid now : Z) (us : list UserRow) :
  filter (fun u => u_telegram_id u =? tid)
    (map (fun u => if u_telegram_id u =? tid then touch_user now u else u) us)
  = map (touch_user now) (filter (fun u => u_telegram_id u =? tid) us).
Proof.
  induction us as [|u us IH]; simpl; [reflexivity|].
  destruct (u_telegram_id u =? tid) eqn:E; simpl; rewrite E, IH; reflexivity.
Qed.

Lemma or_es_idem (l : option string) : or_es (Some (or_es l)) = or_es l.
Proof. destruct l as [[|c s]|]; reflexivity. Qed.

Lemma needs_language_gate_or_es (l : option string) :
  l <> Some "unknown" -> needs_language_gate (Some (or_es l)) = false.
Proof.
  intros Hl. destruct l as [[|c s]|]; try reflexivity.
  change (String.eqb (String c s) "unknown" = false).
  apply String.eqb_neq. congruence.
Qed.

(** With the store up, [safe_user_update] returns the user's row, whose
    language is the one Telegram reports, or 'es'. *)
Lemma safe_user_update_run (tu : TelegramUser) (w : World) :
  faults w = [] ->
  exists row w',
    safe_user_update tu w = (Ok (Some row), w') /\
    u_language_code row = Some (or_es (tg_language_code tu)) /\
    faults w' = [] /\
    hd_error (filter (fun u => u_telegram_id u =? tg_id tu) (users w')) = Some row.
Proof.
  intros Hf. unfold safe_user_update, try_except, bind.
  rewrite create_user_run. storage_up Hf.
  change (negb true) with false. cbv beta iota.
  rewrite update_user_activity_run. storage_up Hf. cbv beta iota.
  rewrite get_user_run. storage_up Hf. cbv beta iota.
  simpl users. simpl telegram_id.
  rewrite filter_touched, filter_app, filter_filter_negb. simpl.
  rewrite Z.eqb_refl. simpl.
  eexists. eexists. split; [reflexivity|].
  split; [cbn [u_language_code touch_user replaced_user_row language_code];
          rewrite or_es_idem; reflexivity|].
  split; [exact Hf|].
  simpl users. rewrite filter_touched, filter_app, filter_filter_negb.
  simpl. rewrite Z.eqb_refl. reflexivity.
Qed.

Lemma log_analytics_event_keeps_store_up (cfg : AppConfig) (user_id : Z)
    (event_type : string) (event_data : option EventData) (w : World) :
  faults w = [] ->
  exists b w',
    log_analytics_event cfg user_id event_type event_data w = (Ok b, w') /\
    faults w' = [].
Proof.
  intros Hf. rewrite log_analytics_event_run. storage_up Hf.
  destruct (negb (enable_analytics cfg)); [eauto|].
  destruct (fk_user_ok (Some user_id) w); eexists; eexists; split;
    try reflexivity; exact Hf.
Qed.

Lemma get_user_language_run (user_id : Z) (w : World) :
  faults w = [] ->
  get_user_language user_id w =
  (Ok (match hd_error (filter (fun u => u_telegram_id u =? user_id) (users w)) with
       | Some u => u_language_code u
       | None => Some "es"
       end), w).
Proof.
  intros Hf. unfold get_user_language, try_except, bind.
  rewrite get_user_run. storage_up Hf. reflexivity.
Qed.

(** C8. The code departs from the claim: with the store up, [/start]
    from a user whose Telegram profile does not report the literal
    language 'unknown' (a first-contact user without any recorded locale
    included) stores the reported language, or 'es', before it tests for
    the language gate, and therefore answers with the main menu and not
    with the language selection. *)
Theorem start_skips_language_gate (cfg : AppConfig) (upd : Update)
    (user : TelegramUser) (w : World) :
  effective_user upd = Some user ->
  tg_language_code user <> Some "unknown" ->
  faults w = [] ->
  exists status_active access_button w',
    start cfg upd w
    = (Ok [MainMenu (Some (or_es (tg_language_code user))) status_active
             access_button (is_admin_user cfg (tg_id user))], w').
Proof.
  intros Heff Hlang Hf. unfold start, try_except, bind. rewrite Heff.
  destruct (log_analytics_event_keeps_store_up cfg (tg_id user) "start_command"
              None w Hf) as (b & wa & Ha & Hfa).
  rewrite Ha.
  destruct (safe_user_update_run user wa Hfa) as (row & wu & Hu & Hrow & Hfu & Hhd).
  rewrite Hu, (get_user_language_run _ _ Hfu), Hhd, Hrow.
  rewrite (needs_language_gate_or_es _ Hlang).
  destruct (is_user_subscribed_total (tg_id user) wu) as (r & ws & Hs).
  rewrite Hs. destruct r as [is_subscribed subscription].
  eexists. eexists. eexists. reflexivity.
Qed.

(** A first contact: user 9 has no row and Telegram reports no language. *)
Lemma start_skips_language_gate_witness :
  user_exists 9 grant_world = false /\
  tg_language_code user9 = None /\
  exists status_active access_button w',
    start config7 (CommandUpdate (Some user9) "start" []) grant_world
    = (Ok [MainMenu (Some "es") status_active access_button false], w').
Proof.
  split; [reflexivity|]. split; [reflexivity|].
  apply (start_skips_language_gate config7
           (CommandUpdate (Some user9) "start" []) user9 grant_world);
    [reflexivity | discriminate | reflexivity].
Defined.

(** The run itself: the first [/start] of user 9 stores 'es' for the user
    and shows the main menu; no language selection is sent. *)
Lemma start_first_contact_main_menu :
  exists w',
    start config7 (CommandUpdate (Some user9) "start" []) grant_world
    = (Ok [MainMenu (Some "es") false false false], w') /\
    hd_error (filter (fun u => u_telegram_id u =? 9) (users w'))
    = Some (mkUserRow 3 9 (Some "guest") None None (Some "es") None false false
                      (Some 1000) (Some 1000) (Some 1000) None None None).
Proof. eexists. split; reflexivity. Qed.

(** * Further properties of the record store and of the handlers *)

(** ** The sweep against the lookups *)

Lemma filter_expire_rows (P : Subscription -> bool) (now : Z)
    (l : list Subscription) :
  (forall s, P s = true -> expire_where now s = false) ->
  (forall s, P (set_expired now s) = false) ->
  filter P (expire_rows now l) = filter P l.
Proof.
  intros Hnot Hexp. induction l as [|s l IH]; simpl; [reflexivity|].
  destruct (expire_where now s) eqn:E.
  - rewrite Hexp. destruct (P s) eqn:Ps.
    + rewrite (Hnot s Ps) in E. discriminate.
    + exact IH.
  - destruct (P s); [f_equal|]; exact IH.
Qed.

Lemma sql_gt_not_le (a : option Z) (now : Z) :
  sql_gt a now = true -> sql_le a now = false.
Proof.
  destruct a as [x|]; simpl; [|discriminate].
  rewrite Z.ltb_lt, Z.leb_gt. trivial.
Qed.

Lemma active_where_not_due (user_id now : Z) (s : Subscription) :
  active_where user_id now s = true -> expire_where now s = false.
Proof.
  unfold active_where, expire_where. rewrite !andb_true_iff.
  intros [[_ _] Hgt]. rewrite (sql_gt_not_le _ _ Hgt). apply andb_false_r.
Qed.

Lemma expiring_where_not_due (future_date now : Z) (s : Subscription) :
  expiring_where future_date now s = true -> expire_where now s = false.
Proof.
  unfold expiring_where, expire_where. rewrite !andb_true_iff.
  intros [[_ _] Hgt]. rewrite (sql_gt_not_le _ _ Hgt). apply andb_false_r.
Qed.

Lemma subscriptions_after_sweep (w : World) :
  subscriptions (snd (expire_subscriptions w)) = subscriptions w \/
  subscriptions (snd (expire_subscriptions w))
  = expire_rows (current_timestamp w) (subscriptions w).
Proof.
  rewrite expire_subscriptions_run. destruct (fault_due w); simpl; auto.
Qed.

Lemma sweep_keeps_clocks_and_users (w : World) :
  current_timestamp (snd (expire_subscriptions w)) = current_timestamp w /\
  datetime_now (snd (expire_subscriptions w)) = datetime_now w /\
  users (snd (expire_subscriptions w)) = users w.
Proof.
  rewrite expire_subscriptions_run. destruct (fault_due w); simpl; auto.
Qed.

Lemma active_rows_after_sweep (user_id : Z) (w : World) :
  active_rows user_id (snd (expire_subscriptions w)) = active_rows user_id w.
Proof.
  unfold active_rows.
  destruct (sweep_keeps_clocks_and_users w) as (-> & _ & _).
  destruct (subscriptions_after_sweep w) as [-> | ->]; [reflexivity|].
  rewrite filter_expire_rows; [reflexivity | apply active_where_not_due |].
  intros s. unfold active_where, set_expired. simpl.
  rewrite andb_false_r. reflexivity.
Qed.

Lemma active_rows_set_faults (user_id : Z) (fs : list bool) (w : World) :
  active_rows user_id (set_faults fs w) = active_rows user_id w.
Proof. reflexivity. Qed.

(** X1. The sweep never changes what the subscription check answers: at
    the same clock readings and with the same storage faults ahead,
    [get_active_subscription] and [is_user_subscribed] give the same
    result after [expire_subscriptions] as before it, for every user. *)
Theorem sweep_keeps_subscription_answers (user_id : Z) (w : World)
    (fs : list bool) :
  fst (get_active_subscription user_id
         (set_faults fs (snd (expire_subscriptions w))))
  = fst (get_active_subscription user_id (set_faults fs w)) /\
  fst (is_user_subscribed user_id
         (set_faults fs (snd (expire_subscriptions w))))
  = fst (is_user_subscribed user_id (set_faults fs w)).
Proof.
  rewrite !get_active_subscription_run, !is_user_subscribed_run.
  rewrite !active_rows_set_faults, active_rows_after_sweep.
  change (fault_due (set_faults fs (snd (expire_subscriptions w))))
    with (fault_due (set_faults fs w)).
  change (datetime_now (set_faults fs (snd (expire_subscriptions w))))
    with (datetime_now (snd (expire_subscriptions w))).
  destruct (sweep_keeps_clocks_and_users w) as (_ & -> & _).
  change (datetime_now (set_faults fs w)) with (datetime_now w).
  destruct (fault_due (set_faults fs w)); [split; reflexivity|].
  split; [reflexivity|].
  destruct (hd_error (active_rows user_id w)) as [s|]; [|reflexivity].
  destruct (s_end_date s); reflexivity.
Qed.

(** ** Subscriptions about to expire *)

Lemma get_expiring_subscriptions_run (days_ahead : Z) (w : World) :
  get_expiring_subscriptions days_ahead w =
  if Z.abs days_ahead <=? 999999999 then
    if (0 <=? datetime_now w + days_ahead * US_PER_DAY)
       && (datetime_now w + days_ahead * US_PER_DAY <=? DATETIME_MAX) then
      if fault_due w
      then (Ok [], set_error_log (error_log w ++ ["get_expiring_subscriptions"])
                                 (pop_fault w))
      else (Ok (expiring_rows (datetime_now w + days_ahead * US_PER_DAY) w),
            pop_fault w)
    else (Ok [], set_error_log (error_log w ++ ["get_expiring_subscriptions"]) w)
  else (Ok [], set_error_log (error_log w ++ ["get_expiring_subscriptions"]) w).
Proof.
  unfold get_expiring_subscriptions, try_except, bind, get_world, timedelta_days,
    datetime_add, execute_query.
  destruct (Z.abs days_ahead <=? 999999999); [|reflexivity].
  unfold ret at 1.
  destruct ((0 <=? datetime_now w + days_ahead * US_PER_DAY)
            && (datetime_now w + days_ahead * US_PER_DAY <=? DATETIME_MAX));
    [|reflexivity].
  unfold ret at 1. rewrite get_connection_run.
  destruct (fault_due w); reflexivity.
Qed.

Lemma expiring_where_spec (future_date now : Z) (s : Subscription) :
  expiring_where future_date now s = true <->
  s_status s = Some "active" /\
  exists e, s_end_date s = Some e /\ now < e <= future_date.
Proof.
  unfold expiring_where, sql_eq_text, sql_le, sql_gt.
  rewrite !andb_true_iff.
  destruct (s_status s) as [st|], (s_end_date s) as [e|]; split.
  - intros [[Hs Hle] Hgt]. apply String.eqb_eq in Hs.
    apply Z.leb_le in Hle. apply Z.ltb_lt in Hgt. subst.
    split; [reflexivity|]. exists e. split; [reflexivity|lia].
  - intros (Hs & e' & He & Hlt). inversion Hs; inversion He; subst.
    repeat split; try reflexivity; [apply Z.leb_le | apply Z.ltb_lt]; lia.
  - intros [[_ Hle] _]. discriminate.
  - intros (_ & e' & He & _). discriminate.
  - intros [[Hs _] _]. discriminate.
  - intros (Hs & _). discriminate.
  - intros [[Hs _] _]. discriminate.
  - intros (Hs & _). discriminate.
Qed.

Lemma expiring_rows_In (future_date : Z) (w : World) (x : ExpiringRow) :
  In x (expiring_rows future_date w) <->
  In (x_subscription x) (subscriptions w) /\
  expiring_where future_date (current_timestamp w) (x_subscription x) = true /\
  exists u, In u (users w) /\ u_telegram_id u = s_user_id (x_subscription x) /\
            x_telegram_id x = u_telegram_id u /\ x_username x = u_username u /\
            x_first_name x = u_first_name u.
Proof.
  unfold expiring_rows. rewrite in_flat_map. split.
  - intros (s & Hs & Hx). apply filter_In in Hs. destruct Hs as [Hin Hw].
    apply in_map_iff in Hx. destruct Hx as (u & <- & Hu).
    apply filter_In in Hu. destruct Hu as [Hu Heq]. apply Z.eqb_eq in Heq.
    simpl. repeat split; try assumption. exists u. repeat split; assumption.
  - intros (Hin & Hw & u & Hu & Heq & H1 & H2 & H3).
    exists (x_subscription x). split; [apply filter_In; tauto|].
    apply in_map_iff. exists u. split.
    + destruct x as [s t n f]; simpl in *. congruence.
    + apply filter_In. split; [exact Hu | apply Z.eqb_eq; exact Heq].
Qed.

(** X2. With a window of 0 to 999999999 days whose end is a representable
    date and a store that answers, [get_expiring_subscriptions] reports
    exactly the stored subscriptions with status 'active' whose end date
    lies after the current timestamp and not after now plus the window,
    each joined with the row of its owner; a subscription whose owner has
    no users row is not reported. *)
Theorem get_expiring_subscriptions_window (days_ahead : Z) (w : World) :
  0 <= days_ahead <= 999999999 ->
  0 <= datetime_now w ->
  datetime_now w + days_ahead * US_PER_DAY <= DATETIME_MAX ->
  fault_due w = false ->
  exists rows w',
    get_expiring_subscriptions days_ahead w = (Ok rows, w') /\
    tables_unchanged w w' /\
    forall x,
      In x rows <->
      In (x_subscription x) (subscriptions w) /\
      s_status (x_subscription x) = Some "active" /\
      (exists e, s_end_date (x_subscription x) = Some e /\
                 current_timestamp w < e <= datetime_now w + days_ahead * US_PER_DAY) /\
      exists u, In u (users w) /\ u_telegram_id u = s_user_id (x_subscription x) /\
                x_telegram_id x = u_telegram_id u /\ x_username x = u_username u /\
                x_first_name x = u_first_name u.
Proof.
  intros Hd Hnow Hmax Hup.
  assert (Hpos : 0 < US_PER_DAY) by (unfold US_PER_DAY; lia).
  rewrite get_expiring_subscriptions_run, Hup.
  replace (Z.abs days_ahead <=? 999999999) with true
    by (symmetry; apply Z.leb_le; lia).
  replace ((0 <=? datetime_now w + days_ahead * US_PER_DAY)
           && (datetime_now w + days_ahead * US_PER_DAY <=? DATETIME_MAX)) with true
    by (symmetry; apply andb_true_iff; split; apply Z.leb_le; nia).
  eexists. eexists. split; [reflexivity|]. split; [repeat split|].
  intros x. rewrite expiring_rows_In, expiring_where_spec. tauto.
Qed.

Lemma get_expiring_subscriptions_window_witness :
  exists rows w',
    get_expiring_subscriptions 3 expiring_world = (Ok rows, w') /\
    map (fun x => s_id (x_subscription x)) rows = [1].
Proof.
  destruct (get_expiring_subscriptions_window 3 expiring_world)
    as (rows & w' & Hrun & _ & _);
    try reflexivity;
    try (unfold expiring_world, DATETIME_MAX, US_PER_DAY; simpl; lia).
  exists rows, w'. split; [exact Hrun|].
  assert (Hval : fst (get_expiring_subscriptions 3 expiring_world) = Ok rows)
    by (rewrite Hrun; reflexivity).
  vm_compute in Hval. injection Hval as <-. reflexivity.
Defined.

(** X3. What [get_expiring_subscriptions] reports is out of the sweep's
    reach: no reported subscription is one that [expire_subscriptions]
    would expire at that timestamp, and the report after a sweep is the
    report before it. *)
Theorem sweep_keeps_expiring_report (days_ahead : Z) (w : World) (fs : list bool) :
  (forall x, In x (returned_rows (get_expiring_subscriptions days_ahead w)) ->
             expire_where (current_timestamp w) (x_subscription x) = false) /\
  fst (get_expiring_subscriptions days_ahead
         (set_faults fs (snd (expire_subscriptions w))))
  = fst (get_expiring_subscriptions days_ahead (set_faults fs w)).
Proof.
  split.
  - unfold returned_rows. rewrite get_expiring_subscriptions_run.
    destruct (Z.abs days_ahead <=? 999999999); [|intros x []].
    destruct (_ && _); [|intros x []].
    destruct (fault_due w); [intros x []|]. simpl.
    intros x Hx. apply expiring_rows_In in Hx. destruct Hx as (_ & Hw & _).
    eapply expiring_where_not_due, Hw.
  - rewrite !get_expiring_subscriptions_run.
    change (fault_due (set_faults fs (snd (expire_subscriptions w))))
      with (fault_due (set_faults fs w)).
    change (datetime_now (set_faults fs (snd (expire_subscriptions w))))
      with (datetime_now (snd (expire_subscriptions w))).
    change (datetime_now (set_faults fs w)) with (datetime_now w).
    destruct (sweep_keeps_clocks_and_users w) as (Hct & -> & Hus).
    destruct (Z.abs days_ahead <=? 999999999); [|reflexivity].
    destruct (_ && _); [|reflexivity].
    destruct (fault_due (set_faults fs w)); [reflexivity|]. simpl. f_equal.
    unfold expiring_rows. simpl. rewrite Hct, Hus.
    destruct (subscriptions_after_sweep w) as [-> | ->]; [reflexivity|].
    rewrite filter_expire_rows; [reflexivity | apply expiring_where_not_due |].
    intros s. unfold expiring_where, set_expired. simpl. reflexivity.
Qed.

Lemma sweep_keeps_expiring_report_witness :
  In (mkExpiringRow (row_ending 1 (102 * US_PER_DAY)) 42 None None)
     (returned_rows (get_expiring_subscriptions 3 expiring_world)) /\
  expire_where (current_timestamp expiring_world)
               (row_ending 1 (102 * US_PER_DAY)) = false.
Proof.
  assert (Hin : In (mkExpiringRow (row_ending 1 (102 * US_PER_DAY)) 42 None None)
                   (returned_rows (get_expiring_subscriptions 3 expiring_world)))
    by (left; reflexivity).
  split; [exact Hin|].
  destruct (sweep_keeps_expiring_report 3 expiring_world []) as [Hnot _].
  exact (Hnot _ Hin).
Defined.

(** ** Users: activity pings, lookups after writes *)

Lemma count_pos_existsb {A} (f : A -> bool) (l : list A) :
  (Z.of_nat (List.length (filter f l)) >? 0) = existsb f l.
Proof.
  induction l as [|x l IH]; simpl; [reflexivity|].
  destruct (f x); simpl; [|exact IH].
  apply Z.gtb_lt. lia.
Qed.

Lemma map_touch_absent (tid now : Z) (us : list UserRow) :
  existsb (fun u => u_telegram_id u =? tid) us = false ->
  map (fun u => if u_telegram_id u =? tid then touch_user now u else u) us = us.
Proof.
  induction us as [|u us IH]; simpl; [reflexivity|].
  destruct (u_telegram_id u =? tid); simpl; [discriminate|].
  intros H. f_equal. apply IH, H.
Qed.

(** Row by row: the row of the user comes out with [last_activity] set,
    its other columns untouched; every other row comes out as it went in. *)
Lemma touch_rowwise (tid now : Z) (us : list UserRow) :
  Forall2
    (fun u u' =>
       (u_telegram_id u = tid ->
        u' = mkUserRow (u_id u) (u_telegram_id u) (u_username u) (u_first_name u)
               (u_last_name u) (u_language_code u) (u_phone_number u)
               (u_is_admin u) (u_is_banned u) (u_created_at u) (u_updated_at u)
               (Some now) (u_referral_code u) (u_referred_by u) (u_notes u)) /\
       (u_telegram_id u <> tid -> u' = u))
    us (map (fun u => if u_telegram_id u =? tid then touch_user now u else u) us).
Proof.
  induction us as [|u us IH]; simpl; constructor; [|exact IH].
  destruct (Z.eqb_spec (u_telegram_id u) tid) as [Heq|Hne].
  - split; [reflexivity|]. intros Hne. contradiction.
  - split; [|reflexivity]. intros Heq. contradiction.
Qed.

(** X4. When the store answers, [update_user_activity] returns true
    exactly when the users table holds a row with that Telegram id.  In
    such a row it sets [last_activity] to the current timestamp and keeps
    the fourteen other columns; every other row and every other table is
    left as it was, and for a user without a row nothing changes. *)
Theorem update_user_activity_effect (tid : Z) (w : World) :
  fault_due w = false ->
  exists b w',
    update_user_activity tid w = (Ok b, w') /\
    (b = true <-> exists u, In u (users w) /\ u_telegram_id u = tid) /\
    Forall2
      (fun u u' =>
         (u_telegram_id u = tid ->
          u' = mkUserRow (u_id u) (u_telegram_id u) (u_username u) (u_first_name u)
                 (u_last_name u) (u_language_code u) (u_phone_number u)
                 (u_is_admin u) (u_is_banned u) (u_created_at u) (u_updated_at u)
                 (Some (current_timestamp w)) (u_referral_code u) (u_referred_by u)
                 (u_notes u)) /\
         (u_telegram_id u <> tid -> u' = u))
      (users w) (users w') /\
    (b = false -> users w' = users w) /\
    subscriptions w' = subscriptions w /\ sub_seq w' = sub_seq w /\
    audit_log w' = audit_log w /\ analytics_events w' = analytics_events w /\
    current_timestamp w' = current_timestamp w.
Proof.
  intros Hup. rewrite update_user_activity_run, Hup, count_pos_existsb.
  eexists. eexists. split; [reflexivity|]. simpl.
  split; [|split; [apply touch_rowwise|split; [apply map_touch_absent|]]].
  - rewrite existsb_exists. split; intros (u & Hin & Hu); exists u;
      (split; [exact Hin|]); apply Z.eqb_eq; exact Hu.
  - repeat split.
Qed.

Lemma update_user_activity_effect_witness :
  fault_due (set_clocks 5000 5000 grant_world) = false /\
  (exists w',
     update_user_activity 42 (set_clocks 5000 5000 grant_world) = (Ok true, w') /\
     users w'
     = [ mkUserRow 1 42 None None None (Some "es") None false false
                   (Some 0) (Some 0) (Some 5000) None None None;
         plain_user_row 2 7 ]) /\
  (exists w',
     update_user_activity 9 (set_clocks 5000 5000 grant_world) = (Ok false, w') /\
     users w' = users grant_world).
Proof.
  split; [reflexivity|]. split.
  - destruct (update_user_activity_effect 42 (set_clocks 5000 5000 grant_world) eq_refl)
      as (b & w' & Hrun & Hb & Hrows & _).
    assert (Htrue : b = true).
    { apply Hb. exists (plain_user_row 1 42). split; [left|]; reflexivity. }
    subst b. exists w'. split; [exact Hrun|].
    simpl in Hrows. remember (users w') as rows eqn:Hl. clear Hl.
    inversion Hrows as [|u1 u1' l1 l1' [Hset1 _] Hrest1]; subst.
    inversion Hrest1 as [|u2 u2' l2 l2' [_ Hkeep2] Hrest2]; subst.
    inversion Hrest2; subst.
    rewrite (Hset1 eq_refl). rewrite Hkeep2 by discriminate. reflexivity.
  - destruct (update_user_activity_effect 9 (set_clocks 5000 5000 grant_world) eq_refl)
      as (b & w' & Hrun & Hb & _ & Hsame & _).
    assert (Hfalse : b = false).
    { destruct b; [|reflexivity]. destruct (proj1 Hb eq_refl) as (u & Hin & Hu).
      simpl in Hin. destruct Hin as [<-|[<-|[]]]; discriminate Hu. }
    subst b. exists w'. split; [exact Hrun | apply Hsame; reflexivity].
Defined.

Lemma filter_other_user (tid tid' : Z) (us : list UserRow) :
  tid' <> tid ->
  filter (fun u => u_telegram_id u =? tid')
         (filter (fun u => negb (u_telegram_id u =? tid)) us)
  = filter (fun u => u_telegram_id u =? tid') us.
Proof.
  intros Hne. induction us as [|u us IH]; simpl; [reflexivity|].
  destruct (u_telegram_id u =? tid) eqn:E; simpl.
  - apply Z.eqb_eq in E.
    replace (u_telegram_id u =? tid') with false
      by (symmetry; apply Z.eqb_neq; congruence).
    exact IH.
  - destruct (u_telegram_id u =? tid'); [f_equal|]; exact IH.
Qed.

(** X5. A lookup after a write: when the store answers both calls,
    [get_user] after [create_user] returns a row with the profile that was
    written (the language defaulting to 'es'), and the lookup of any
    other user returns what it returned before the write. *)
Theorem get_user_after_create_user (user_data : User) (w : World) :
  faults w = [] ->
  exists w1 w2 row,
    create_user user_data w = (Ok true, w1) /\
    get_user (telegram_id user_data) w1 = (Ok (Some row), w2) /\
    (u_telegram_id row = telegram_id user_data /\
     u_username row = username user_data /\
     u_first_name row = first_name user_data /\
     u_last_name row = last_name user_data /\
     u_language_code row = Some (or_es (language_code user_data)) /\
     u_phone_number row = phone_number user_data /\
     u_is_admin row = is_admin user_data /\
     u_is_banned row = is_banned user_data) /\
    forall tid', tid' <> telegram_id user_data ->
                 fst (get_user tid' w1) = fst (get_user tid' w).
Proof.
  intros Hf. rewrite create_user_run. storage_up Hf.
  eexists. eexists. exists (replaced_user_row user_data w).
  split; [reflexivity|]. rewrite get_user_run. storage_up Hf.
  simpl users. rewrite filter_app, filter_filter_negb. simpl.
  rewrite Z.eqb_refl. split; [reflexivity|]. split; [repeat split|].
  intros tid' Hne. rewrite !get_user_run. storage_up Hf. simpl users.
  rewrite filter_app, filter_other_user by exact Hne. simpl.
  replace (telegram_id user_data =? tid') with false
    by (symmetry; apply Z.eqb_neq; congruence).
  rewrite app_nil_r. reflexivity.
Qed.

Lemma get_user_after_create_user_witness :
  exists w1 w2 row,
    create_user recontact_profile stored_world = (Ok true, w1) /\
    get_user 42 w1 = (Ok (Some row), w2) /\
    u_username row = Some "new_name".
Proof.
  destruct (get_user_after_create_user recontact_profile stored_world eq_refl)
    as (w1 & w2 & row & H1 & H2 & (_ & Hname & _) & _).
  exists w1, w2, row. repeat split; assumption.
Defined.

(** The whole effect of [safe_user_update] when the store answers. *)
Lemma safe_user_update_effect (tu : TelegramUser) (w : World) :
  faults w = [] ->
  exists row w',
    safe_user_update tu w = (Ok (Some row), w') /\
    row = touch_user (current_timestamp w)
            (replaced_user_row
               (mkUser (tg_id tu) (tg_username tu) (tg_first_name tu)
                       (tg_last_name tu) (Some (or_es (tg_language_code tu)))
                       None false false) w) /\
    hd_error (filter (fun u => u_telegram_id u =? tg_id tu) (users w')) = Some row /\
    faults w' = [] /\
    subscriptions w' = subscriptions w /\ audit_log w' = audit_log w /\
    analytics_events w' = analytics_events w /\
    current_timestamp w' = current_timestamp w /\
    datetime_now w' = datetime_now w.
Proof.
  intros Hf. unfold safe_user_update, try_except, bind.
  rewrite create_user_run. storage_up Hf.
  change (negb true) with false. cbv beta iota.
  rewrite update_user_activity_run. storage_up Hf. cbv beta iota.
  rewrite get_user_run. storage_up Hf. cbv beta iota.
  simpl users. simpl telegram_id.
  rewrite filter_touched, filter_app, filter_filter_negb. simpl.
  rewrite Z.eqb_refl. simpl.
  eexists. eexists. split; [reflexivity|]. split; [reflexivity|].
  split.
  { simpl users. rewrite filter_touched, filter_app, filter_filter_negb.
    simpl. rewrite Z.eqb_refl. reflexivity. }
  split; [exact Hf|]. repeat split.
Qed.

(** X6. When the store answers, [safe_user_update], which every [/start]
    runs, rewrites the user's row from the Telegram profile: the names are
    the profile's, the language is the profile's or 'es', and [is_admin]
    and [is_banned] are cleared, whatever the stored row held; a language
    chosen earlier or a ban do not survive it. *)
Theorem safe_user_update_overwrites_row (tu : TelegramUser) (w : World) :
  faults w = [] ->
  exists row w' w'',
    safe_user_update tu w = (Ok (Some row), w') /\
    get_user (tg_id tu) w' = (Ok (Some row), w'') /\
    u_username row = tg_username tu /\
    u_first_name row = tg_first_name tu /\
    u_last_name row = tg_last_name tu /\
    u_language_code row = Some (or_es (tg_language_code tu)) /\
    u_is_admin row = false /\ u_is_banned row = false.
Proof.
  intros Hf.
  destruct (safe_user_update_effect tu w Hf)
    as (row & w' & Hrun & -> & Hhd & Hf' & _).
  eexists. exists w'. eexists. split; [exact Hrun|].
  rewrite get_user_run. storage_up Hf'. rewrite Hhd.
  split; [reflexivity|].
  cbn [u_username u_first_name u_last_name u_language_code u_is_admin u_is_banned
       touch_user replaced_user_row username first_name last_name language_code
       is_admin is_banned].
  rewrite or_es_idem. repeat split.
Qed.

Lemma safe_user_update_overwrites_row_witness :
  u_is_banned banned_user = true /\
  u_language_code banned_user = Some "en" /\
  exists row w',
    safe_user_update telegram42 banned_world = (Ok (Some row), w') /\
    u_is_banned row = false /\ u_language_code row = Some "es".
Proof.
  split; [reflexivity|]. split; [reflexivity|].
  destruct (safe_user_update_overwrites_row telegram42 banned_world eq_refl)
    as (row & w' & w'' & Hrun & _ & _ & _ & _ & Hlang & _ & Hban).
  exists row, w'. repeat split; assumption.
Defined.

(** ** What [/start] and the onboarding answers leave in the store *)

Lemma log_analytics_event_effect (cfg : AppConfig) (user_id : Z)
    (event_type : string) (event_data : option EventData) (w : World) :
  faults w = [] ->
  exists b w',
    log_analytics_event cfg user_id event_type event_data w = (Ok b, w') /\
    faults w' = [] /\
    analytics_events w'
    = (if enable_analytics cfg && user_exists user_id w
       then (analytics_events w ++ [analytics_row user_id event_type event_data w])%list
       else analytics_events w) /\
    users w' = users w /\ subscriptions w' = subscriptions w /\
    audit_log w' = audit_log w /\
    current_timestamp w' = current_timestamp w /\ datetime_now w' = datetime_now w.
Proof.
  intros Hf. rewrite log_analytics_event_run. storage_up Hf.
  change (fk_user_ok (Some user_id) w) with (user_exists user_id w).
  destruct (enable_analytics cfg); simpl.
  - destruct (user_exists user_id w); eexists; eexists;
      (split; [reflexivity|]); simpl; repeat split; exact Hf.
  - eexists; eexists; (split; [reflexivity|]); repeat split; exact Hf.
Qed.

Lemma is_user_subscribed_keeps_tables (user_id : Z) (w : World) :
  tables_unchanged w (snd (is_user_subscribed user_id w)).
Proof.
  rewrite is_user_subscribed_run.
  destruct (fault_due w); [repeat split|].
  destruct (hd_error (active_rows user_id w)) as [s|]; [|repeat split].
  destruct (s_end_date s); repeat split.
Qed.

Lemma needs_language_gate_unknown :
  needs_language_gate (Some (or_es (Some "unknown"))) = true.
Proof. reflexivity. Qed.

(** The reply of [start] and what it leaves in the tables, when the store
    answers. *)
Lemma start_effect (cfg : AppConfig) (upd : Update) (user : TelegramUser)
    (w : World) :
  effective_user upd = Some user ->
  faults w = [] ->
  exists screens w',
    start cfg upd w = (Ok screens, w') /\
    (tg_language_code user <> Some "unknown" ->
     exists status_active access_button,
       screens = [MainMenu (Some (or_es (tg_language_code user))) status_active
                    access_button (is_admin_user cfg (tg_id user))]) /\
    (tg_language_code user = Some "unknown" -> screens = [LanguageSelection]) /\
    analytics_events w'
    = (if enable_analytics cfg && user_exists (tg_id user) w
       then (analytics_events w ++
             [analytics_row (tg_id user) "start_command" None w])%list
       else analytics_events w) /\
    subscriptions w' = subscriptions w /\ audit_log w' = audit_log w.
Proof.
  intros Heff Hf. unfold start, try_except, bind. rewrite Heff.
  destruct (log_analytics_event_effect cfg (tg_id user) "start_command" None w Hf)
    as (b & wa & Ha & Hfa & Han & _ & Hsa & Haa & _).
  rewrite Ha.
  destruct (safe_user_update_effect user wa Hfa)
    as (row & wu & Hu & Hrow & Hhd & Hfu & Hsu & Hau & Hanu & _).
  rewrite Hu, (get_user_language_run _ _ Hfu), Hhd.
  assert (Hlang : u_language_code row = Some (or_es (tg_language_code user))).
  { rewrite Hrow.
    cbn [u_language_code touch_user replaced_user_row language_code].
    rewrite or_es_idem. reflexivity. }
  rewrite Hlang.
  destruct (needs_language_gate (Some (or_es (tg_language_code user)))) eqn:Hgate.
  - unfold show_language_selection, ret.
    eexists. eexists. split; [reflexivity|].
    split.
    { intros Hne. rewrite (needs_language_gate_or_es _ Hne) in Hgate. discriminate. }
    split; [reflexivity|].
    split; [congruence|]. split; congruence.
  - destruct (is_user_subscribed_total (tg_id user) wu) as (r & ws & Hs).
    assert (Ht := is_user_subscribed_keeps_tables (tg_id user) wu).
    rewrite Hs in *. simpl in Ht.
    destruct Ht as (_ & Hss & _ & Has & Hans).
    destruct r as [is_subscribed subscription].
    eexists. eexists. split; [reflexivity|].
    split; [intros _; eexists; eexists; reflexivity|].
    split.
    { intros Hunk. rewrite Hunk, needs_language_gate_unknown in Hgate.
      discriminate. }
    split; [congruence|]. split; congruence.
Qed.

(** X7. With the store up, [/start] records its 'start_command' analytics
    event only for a user who already has a users row: the event is
    written before the row is, so on a first contact the insert fails on
    the foreign key and the analytics table is left as it was.  The grant
    tables are never touched by [/start]. *)
Theorem start_analytics_event (cfg : AppConfig) (upd : Update)
    (user : TelegramUser) (w : World) :
  effective_user upd = Some user ->
  faults w = [] ->
  analytics_events (snd (start cfg upd w))
  = (if enable_analytics cfg && user_exists (tg_id user) w
     then (analytics_events w ++
           [analytics_row (tg_id user) "start_command" None w])%list
     else analytics_events w) /\
  subscriptions (snd (start cfg upd w)) = subscriptions w /\
  audit_log (snd (start cfg upd w)) = audit_log w.
Proof.
  intros Heff Hf.
  destruct (start_effect cfg upd user w Heff Hf)
    as (screens & w' & Hrun & _ & _ & Han & Hs & Ha).
  rewrite Hrun. simpl. repeat split; assumption.
Qed.

Lemma start_analytics_event_witness :
  user_exists 9 grant_world = false /\
  enable_analytics config7 = true /\
  analytics_events
    (snd (start config7 (CommandUpdate (Some user9) "start" []) grant_world)) = [] /\
  analytics_events
    (snd (start config7 (CommandUpdate (Some user42) "start" []) grant_world))
  = [mkAnalyticsRow (Some 42) "start_command" None (Some 1000)].
Proof.
  split; [reflexivity|]. split; [reflexivity|]. split.
  - apply (start_analytics_event config7
             (CommandUpdate (Some user9) "start" []) user9 grant_world);
      reflexivity.
  - apply (start_analytics_event config7
             (CommandUpdate (Some user42) "start" []) user42 grant_world);
      reflexivity.
Defined.

Lemma get_user_language_keeps_tables (user_id : Z) (w : World) :
  exists lang w',
    get_user_language user_id w = (Ok lang, w') /\
    tables_unchanged w w' /\
    current_timestamp w' = current_timestamp w /\
    datetime_now w' = datetime_now w /\
    (faults w = [] -> faults w' = []).
Proof.
  unfold get_user_language, try_except, bind. rewrite get_user_run.
  destruct (fault_due w); eexists; eexists;
    (split; [reflexivity|]); split; try (repeat split; fail);
    (split; [reflexivity|]); (split; [reflexivity|]);
    intros Hf; simpl; rewrite Hf; reflexivity.
Qed.

Lemma log_analytics_event_keeps_other_tables (cfg : AppConfig) (user_id : Z)
    (event_type : string) (event_data : option EventData) (w : World) :
  exists b w',
    log_analytics_event cfg user_id event_type event_data w = (Ok b, w') /\
    users w' = users w /\ subscriptions w' = subscriptions w /\
    sub_seq w' = sub_seq w /\ audit_log w' = audit_log w /\
    (faults w = [] -> faults w' = []).
Proof.
  rewrite log_analytics_event_run.
  destruct (negb (enable_analytics cfg)); [eexists; eexists; repeat split; auto|].
  destruct (fault_due w);
    [eexists; eexists; (split; [reflexivity|]); repeat split;
     intros Hf; simpl; rewrite Hf; reflexivity|].
  destruct (fk_user_ok (Some user_id) w);
    eexists; eexists; (split; [reflexivity|]); repeat split;
    intros Hf; simpl; rewrite Hf; reflexivity.
Qed.

(** X8. An age answer other than 'yes' is shown the restriction notice
    and nothing about it is stored: on every world, whatever the storage
    does, [handle_age_verification] leaves the users, subscriptions and
    audit tables as they were.  With the store up, the [/start] that
    follows therefore shows the same user the main menu. *)
Theorem age_restriction_is_not_stored (cfg : AppConfig) (user : TelegramUser)
    (data : string) (w : World) :
  last_segment data EmptyString <> "yes" ->
  exists lang w1,
    handle_age_verification cfg (CallbackUpdate user data) w
    = (Ok [AgeRestricted lang], w1) /\
    users w1 = users w /\ subscriptions w1 = subscriptions w /\
    audit_log w1 = audit_log w /\
    (faults w = [] ->
     tg_language_code user <> Some "unknown" ->
     exists status_active access_button w2,
       start cfg (CommandUpdate (Some user) "start" []) w1
       = (Ok [MainMenu (Some (or_es (tg_language_code user))) status_active
                access_button (is_admin_user cfg (tg_id user))], w2)).
Proof.
  intros Hno. unfold handle_age_verification, try_except, bind.
  destruct (get_user_language_keeps_tables (tg_id user) w)
    as (lang & wl & Hl & (Hlu & Hls & _ & Hla & _) & _ & _ & Hlf).
  rewrite Hl.
  destruct (log_analytics_event_keeps_other_tables cfg (tg_id user)
              "age_verification"
              (Some [("verified",
                      JBool (String.eqb (last_segment data EmptyString) "yes"))]) wl)
    as (b & wa & Ha & Hau & Has & _ & Haa & Haf).
  rewrite Ha.
  apply String.eqb_neq in Hno. rewrite Hno.
  exists lang, wa. split; [reflexivity|].
  split; [congruence|]. split; [congruence|]. split; [congruence|].
  intros Hf Hlang.
  destruct (start_effect cfg (CommandUpdate (Some user) "start" []) user wa
              eq_refl (Haf (Hlf Hf)))
    as (screens & w2 & Hrun & Hmenu & _).
  destruct (Hmenu Hlang) as (sa & ab & ->).
  exists sa, ab, w2. exact Hrun.
Qed.

Lemma age_restriction_is_not_stored_witness :
  exists lang w1,
    handle_age_verification config7 (CallbackUpdate user42 "age_verify_no") grant_world
    = (Ok [AgeRestricted lang], w1) /\
    users w1 = users grant_world.
Proof.
  destruct (age_restriction_is_not_stored config7 user42 "age_verify_no" grant_world)
    as (lang & w1 & Hrun & Hu & _); [discriminate|].
  exists lang, w1. split; assumption.
Defined.

(** ** The access grant: what it writes and when *)

(** X9. Whatever the arguments, the world and the storage faults, a
    grant issued by a sender either reports the grant as done, having
    appended exactly one subscription row (for the target, the plan and
    the duration it reports, starting now) and at most the one audit row
    of that grant, or reports something else and leaves the subscriptions
    table and the audit log exactly as they were.  The users table is
    never changed. *)
Theorem grant_access_all_or_nothing (py_int : string -> option Z)
    (admin : TelegramUser) (args : list string) (w : World) :
  exists screens w',
    grant_access py_int (Some admin) args w = (Ok screens, w') /\
    users w' = users w /\
    ((exists user_id plan_type days,
        screens = [GrantDone user_id plan_type days
                             (datetime_now w + days * US_PER_DAY)] /\
        subscriptions w'
        = (subscriptions w ++
           [new_subscription_row user_id plan_type (datetime_now w)
              (datetime_now w + days * US_PER_DAY) (Some 0) w])%list /\
        (audit_log w' = audit_log w \/
         audit_log w'
         = (audit_log w ++
            [grant_audit_row user_id (tg_id admin) plan_type days w])%list)) \/
     (not_granted screens /\
      subscriptions w' = subscriptions w /\ audit_log w' = audit_log w)).
Proof.
  unfold grant_access, try_except, bind.
  destruct args as [|a0 [|a1 rest]];
    try (eexists; eexists; split; [reflexivity|]; split; [reflexivity|];
         right; repeat split; fail).
  unfold int at 1.
  destruct (py_int a0) as [user_id|];
    [|eexists; eexists; split; [reflexivity|]; split; [reflexivity|];
      right; repeat split].
  unfold ret at 1.
  assert (Hd : forall w0,
            (exists days,
               match rest with
               | a2 :: _ => int py_int a2
               | [] => ret (plan_days_or_30 a1)
               end w0 = (Ok days, w0)) \/
            match rest with
            | a2 :: _ => int py_int a2
            | [] => ret (plan_days_or_30 a1)
            end w0 = (Raise ValueError, w0)).
  { intros w0. destruct rest as [|a2 rest']; [left; eexists; reflexivity|].
    unfold int. destruct (py_int a2); [left; eexists; reflexivity|right; reflexivity]. }
  destruct (Hd w) as [[days ->]| ->];
    [|eexists; eexists; split; [reflexivity|]; split; [reflexivity|];
      right; repeat split].
  unfold get_world, timedelta_days.
  destruct (Z.abs days <=? 999999999);
    [|eexists; eexists; split; [reflexivity|]; split; [reflexivity|];
      right; repeat split].
  unfold ret at 1. unfold datetime_add.
  destruct ((0 <=? datetime_now w + days * US_PER_DAY)
            && (datetime_now w + days * US_PER_DAY <=? DATETIME_MAX));
    [|eexists; eexists; split; [reflexivity|]; split; [reflexivity|];
      right; repeat split].
  unfold ret at 1. rewrite create_subscription_run.
  destruct (fault_due w);
    [eexists; eexists; split; [reflexivity|]; split; [reflexivity|];
     right; repeat split|].
  destruct (user_exists user_id w);
    [|eexists; eexists; split; [reflexivity|]; split; [reflexivity|];
      right; repeat split].
  rewrite truthy_new_rowid. unfold effective_user_id, ret at 1.
  rewrite log_audit_event_run.
  match goal with |- context [fault_due ?x] => destruct (fault_due x) end;
    [eexists; eexists; split; [reflexivity|]; split; [reflexivity|];
     left; exists user_id, a1, days; repeat split; left; reflexivity|].
  match goal with |- context [if ?c then _ else _] => destruct c end;
    eexists; eexists; (split; [reflexivity|]); (split; [reflexivity|]);
    left; exists user_id, a1, days; (split; [reflexivity|]);
    (split; [reflexivity|]); [right | left]; reflexivity.
Qed.

Lemma grant_days_run (py_int : string -> option Z) (plan_type : string)
    (rest : list string) (days : Z) (w : World) :
  grant_days py_int plan_type rest = Some days ->
  match rest with
  | a2 :: _ => int py_int a2
  | [] => ret (plan_days_or_30 plan_type)
  end w = (Ok days, w).
Proof.
  unfold grant_days. destruct rest as [|a2 rest'].
  - intros [= <-]. reflexivity.
  - intros H. unfold int. rewrite H. reflexivity.
Qed.

(** X10. A grant that goes through is reported as done whether or not it
    was audited, and the audit entry is written exactly when the
    administrator who issued it has a users row: the audit table
    references the users table, and the result of the audit write is not
    looked at. *)
Theorem grant_audited_iff_admin_stored (py_int : string -> option Z)
    (admin : TelegramUser) (a0 plan_type : string) (rest : list string)
    (user_id days : Z) (w : World) :
  py_int a0 = Some user_id ->
  grant_days py_int plan_type rest = Some days ->
  Z.abs days <= 999999999 ->
  0 <= datetime_now w + days * US_PER_DAY <= DATETIME_MAX ->
  user_exists user_id w = true ->
  faults w = [] ->
  exists w',
    grant_access py_int (Some admin) (a0 :: plan_type :: rest) w
    = (Ok [GrantDone user_id plan_type days (datetime_now w + days * US_PER_DAY)], w') /\
    audit_log w'
    = (if user_exists (tg_id admin) w
       then (audit_log w ++
             [grant_audit_row user_id (tg_id admin) plan_type days w])%list
       else audit_log w).
Proof.
  intros Ha0 Hdays Habs Hrange Huser Hfaults.
  unfold grant_access, try_except, bind.
  unfold int at 1. rewrite Ha0. unfold ret at 1.
  rewrite (grant_days_run _ _ _ _ _ Hdays).
  unfold get_world, timedelta_days.
  replace (Z.abs days <=? 999999999) with true by (symmetry; apply Z.leb_le; lia).
  unfold ret at 1. unfold datetime_add.
  replace ((0 <=? datetime_now w + days * US_PER_DAY)
           && (datetime_now w + days * US_PER_DAY <=? DATETIME_MAX)) with true
    by (symmetry; apply andb_true_iff; split; apply Z.leb_le; lia).
  unfold ret at 1.
  rewrite create_subscription_run, (fault_due_no_faults _ Hfaults), Huser.
  rewrite truthy_new_rowid. unfold effective_user_id, ret at 1.
  rewrite log_audit_event_run.
  rewrite (pop_fault_no_faults _ Hfaults).
  match goal with
  | |- context [fault_due ?x] =>
      replace (fault_due x) with false
        by (unfold fault_due; simpl; rewrite Hfaults; reflexivity);
      replace (pop_fault x) with x
        by (symmetry; apply pop_fault_no_faults; simpl; exact Hfaults)
  end.
  match goal with
  | |- context [fk_user_ok (Some user_id) ?x] =>
      change (fk_user_ok (Some user_id) x) with (user_exists user_id w);
      change (fk_user_ok (Some (tg_id admin)) x) with (user_exists (tg_id admin) w)
  end.
  rewrite Huser. simpl andb.
  destruct (user_exists (tg_id admin) w); eexists; split; reflexivity.
Qed.

Lemma grant_audited_iff_admin_stored_witness :
  user_exists 7 no_admin_row_world = false /\
  exists w',
    grant_access decimal_int (Some admin7) ["42"; "month"] no_admin_row_world
    = (Ok [GrantDone 42 "month" 30 (1000 + 30 * US_PER_DAY)], w') /\
    audit_log w' = [].
Proof.
  split; [reflexivity|].
  apply (grant_audited_iff_admin_stored decimal_int admin7 "42" "month" [] 42 30
           no_admin_row_world); try reflexivity.
  - simpl. lia.
  - unfold no_admin_row_world, DATETIME_MAX, US_PER_DAY. simpl. lia.
Defined.

(** X11. A grant for a target that has no users row is refused by the
    store: the reply is the grant failure, and no subscription row and no
    audit row is written, whatever else the store does. *)
Theorem grant_access_unknown_user (py_int : string -> option Z)
    (admin : TelegramUser) (a0 plan_type : string) (rest : list string)
    (user_id days : Z) (w : World) :
  py_int a0 = Some user_id ->
  grant_days py_int plan_type rest = Some days ->
  Z.abs days <= 999999999 ->
  0 <= datetime_now w + days * US_PER_DAY <= DATETIME_MAX ->
  user_exists user_id w = false ->
  exists w',
    grant_access py_int (Some admin) (a0 :: plan_type :: rest) w
    = (Ok [GrantFailed], w') /\
    tables_unchanged w w'.
Proof.
  intros Ha0 Hdays Habs Hrange Huser.
  unfold grant_access, try_except, bind.
  unfold int at 1. rewrite Ha0. unfold ret at 1.
  rewrite (grant_days_run _ _ _ _ _ Hdays).
  unfold get_world, timedelta_days.
  replace (Z.abs days <=? 999999999) with true by (symmetry; apply Z.leb_le; lia).
  unfold ret at 1. unfold datetime_add.
  replace ((0 <=? datetime_now w + days * US_PER_DAY)
           && (datetime_now w + days * US_PER_DAY <=? DATETIME_MAX)) with true
    by (symmetry; apply andb_true_iff; split; apply Z.leb_le; lia).
  unfold ret at 1.
  rewrite create_subscription_run, Huser.
  destruct (fault_due w); eexists; (split; [reflexivity|]); repeat split.
Qed.

Lemma grant_access_unknown_user_witness :
  user_exists 9 grant_world = false /\
  exists w',
    grant_access decimal_int (Some admin7) ["9"; "month"] grant_world
    = (Ok [GrantFailed], w') /\
    tables_unchanged grant_world w'.
Proof.
  split; [reflexivity|].
  apply (grant_access_unknown_user decimal_int admin7 "9" "month" [] 9 30
           grant_world); try reflexivity.
  - simpl. lia.
  - unfold grant_world, DATETIME_MAX, US_PER_DAY. simpl. lia.
Defined.

(** ** Bot settings *)

Lemma execute_query_on_run {T A} (stmt : Z -> T -> result A * T) (tbl : T)
    (w : World) :
  execute_query_on stmt tbl w =
  if fault_due w then (Raise OperationalError, pop_fault w)
  else match stmt (current_timestamp w) tbl with
       | (Ok a, tbl') => (Ok (a, tbl'), pop_fault w)
       | (Raise e, _) => (Raise e, pop_fault w)
       end.
Proof.
  unfold execute_query_on, execute_query. rewrite get_connection_run.
  destruct (fault_due w); [reflexivity|].
  change (current_timestamp (pop_fault w)) with (current_timestamp w).
  destruct (stmt (current_timestamp w) tbl) as [[a|e] tbl']; reflexivity.
Qed.

Lemma set_setting_run (key : string) (value description : option string)
    (tbl : BotSettings) (w : World) :
  set_setting key value description tbl w =
  if fault_due w
  then (Ok (false, tbl),
        set_error_log (error_log w ++ ["set_setting"]) (pop_fault w))
  else (Ok (true,
            snd (insert_or_replace_setting key value description
                   (current_timestamp w) tbl)), pop_fault w).
Proof.
  unfold set_setting, try_except, bind. rewrite execute_query_on_run.
  destruct (fault_due w); reflexivity.
Qed.

Lemma get_setting_run (key : string) (default_value : option string)
    (tbl : BotSettings) (w : World) :
  get_setting key default_value tbl w =
  if fault_due w
  then (Ok default_value,
        set_error_log (error_log w ++ ["get_setting"]) (pop_fault w))
  else (Ok (match map st_value (setting_rows key tbl) with
            | v :: _ => v
            | [] => default_value
            end), pop_fault w).
Proof.
  unfold get_setting, try_except, bind. rewrite execute_query_on_run.
  destruct (fault_due w); reflexivity.
Qed.

Lemma filter_key_other (key key' : string) (rows : list SettingRow) :
  key' <> key ->
  filter (fun r => String.eqb (st_key r) key')
         (filter (fun r => negb (String.eqb (st_key r) key)) rows)
  = filter (fun r => String.eqb (st_key r) key') rows.
Proof.
  intros Hne. induction rows as [|r rows IH]; simpl; [reflexivity|].
  destruct (String.eqb (st_key r) key) eqn:E; simpl.
  - apply String.eqb_eq in E.
    replace (String.eqb (st_key r) key') with false
      by (symmetry; apply String.eqb_neq; congruence).
    exact IH.
  - destruct (String.eqb (st_key r) key'); [f_equal|]; exact IH.
Qed.

Lemma filter_key_removed (key : string) (rows : list SettingRow) :
  filter (fun r => String.eqb (st_key r) key)
         (filter (fun r => negb (String.eqb (st_key r) key)) rows) = [].
Proof.
  induction rows as [|r rows IH]; simpl; [reflexivity|].
  destruct (String.eqb (st_key r) key) eqn:E; simpl; [exact IH|].
  rewrite E. exact IH.
Qed.

(** X12. A lookup after a write on the settings: when the store answers,
    [set_setting] reports success and leaves exactly one row for the key,
    [get_setting] for that key then returns the value written, also when
    that value is NULL (the default is not used for a stored NULL), and
    the lookup of every other key returns what it returned before. *)
Theorem get_setting_after_set_setting (key : string)
    (value description default_value : option string) (tbl : BotSettings)
    (w : World) :
  faults w = [] ->
  exists tbl' w1 w2,
    set_setting key value description tbl w = (Ok (true, tbl'), w1) /\
    List.length (setting_rows key tbl') = 1%nat /\
    get_setting key default_value tbl' w1 = (Ok value, w2) /\
    forall key' d, key' <> key ->
                   fst (get_setting key' d tbl' w1) = fst (get_setting key' d tbl w).
Proof.
  intros Hf. rewrite set_setting_run. storage_up Hf.
  eexists. eexists. eexists. split; [reflexivity|].
  unfold setting_rows. simpl bs_rows.
  rewrite filter_app, filter_key_removed. simpl. rewrite String.eqb_refl.
  split; [reflexivity|].
  rewrite get_setting_run. storage_up Hf.
  unfold setting_rows. simpl bs_rows.
  rewrite filter_app, filter_key_removed. simpl. rewrite String.eqb_refl.
  split; [reflexivity|].
  intros key' d Hne. rewrite !get_setting_run. storage_up Hf.
  unfold setting_rows. simpl bs_rows.
  rewrite filter_app, filter_key_other by exact Hne. simpl.
  replace (String.eqb key key') with false
    by (symmetry; apply String.eqb_neq; congruence).
  rewrite app_nil_r. reflexivity.
Qed.

Lemma get_setting_after_set_setting_witness :
  exists tbl' w1 w2,
    set_setting "welcome" None None settings_sample grant_world
    = (Ok (true, tbl'), w1) /\
    get_setting "welcome" (Some "default") tbl' w1 = (Ok None, w2).
Proof.
  destruct (get_setting_after_set_setting "welcome" None None (Some "default")
              settings_sample grant_world eq_refl)
    as (tbl' & w1 & w2 & Hset & _ & Hget & _).
  exists tbl', w1, w2. split; assumption.
Defined.

(** X13. When the store fails, [set_setting] reports False and hands the
    table back as it was, and [get_setting] returns the default; neither
    raises.  [get_setting] also returns the default for a key that has no
    row. *)
Theorem settings_on_failure (key : string)
    (value description default_value : option string) (tbl : BotSettings)
    (w : World) (fs : list bool) :
  fst (set_setting key value description tbl (set_faults (true :: fs) w))
  = Ok (false, tbl) /\
  fst (get_setting key default_value tbl (set_faults (true :: fs) w))
  = Ok default_value /\
  (exists r w', set_setting key value description tbl w = (Ok r, w')) /\
  (exists r w', get_setting key default_value tbl w = (Ok r, w')) /\
  fst (get_setting key default_value (mkBotSettings
         (filter (fun r => negb (String.eqb (st_key r) key)) (bs_rows tbl))
         (bs_seq tbl)) (set_faults [] w))
  = Ok default_value.
Proof.
  split; [rewrite set_setting_run; reflexivity|].
  split; [rewrite get_setting_run; reflexivity|].
  split; [rewrite set_setting_run; destruct (fault_due w); eauto|].
  split; [rewrite get_setting_run; destruct (fault_due w); eauto|].
  rewrite get_setting_run. simpl. unfold setting_rows. simpl.
  rewrite filter_key_removed. reflexivity.
Qed.

(** ** Maintenance *)







(** ** The connection test *)

(** X16. [test_database_connection] answers False on every store, also
    on one that answers and holds all three tables: the first row of
    SELECT 1 is compared with the integer 1, and a row is never equal to
    an integer.  [validate_environment] therefore answers False for every
    configuration. *)
Theorem test_database_connection_false (config : BotConfig)
    (sqlite_master : list string) (w : World) :
  (exists w', test_database_connection sqlite_master w = (Ok false, w') /\
              tables_unchanged w w') /\
  (exists w', validate_environment config sqlite_master w = (Ok false, w')).
Proof.
  assert (Ht : exists w', test_database_connection sqlite_master w = (Ok false, w') /\
                          tables_unchanged w w').
  { unfold test_database_connection, try_except, bind, execute_query.
    rewrite get_connection_run.
    destruct (fault_due w); eexists; (split; [reflexivity|]); repeat split. }
  split; [exact Ht|].
  unfold validate_environment.
  destruct (negb (BotConfig_validate config)); [eexists; reflexivity|].
  destruct Ht as (w' & Hrun & _).
  unfold try_except, bind. rewrite Hrun. eexists. reflexivity.
Qed.

(** ** Plan selection *)

Lemma plan_known (plan_id : string) (p : Plan) :
  dict_get PLANS plan_id = Some p ->
  plan_id = "week" \/ plan_id = "month" \/ plan_id = "3month" \/
  plan_id = "halfyear" \/ plan_id = "year" \/ plan_id = "lifetime".
Proof.
  unfold PLANS, dict_get.
  destruct (String.eqb "week" plan_id) eqn:E1;
    [apply String.eqb_eq in E1; auto|].
  destruct (String.eqb "month" plan_id) eqn:E2;
    [apply String.eqb_eq in E2; auto|].
  destruct (String.eqb "3month" plan_id) eqn:E3;
    [apply String.eqb_eq in E3; auto|].
  destruct (String.eqb "halfyear" plan_id) eqn:E4;
    [apply String.eqb_eq in E4; auto 6|].
  destruct (String.eqb "year" plan_id) eqn:E5;
    [apply String.eqb_eq in E5; auto 6|].
  destruct (String.eqb "lifetime" plan_id) eqn:E6;
    [apply String.eqb_eq in E6; auto 7|].
  discriminate.
Qed.

Lemma truthy_str_cases (s : string) : truthy_str s = true \/ truthy_str s = false.
Proof. destruct (truthy_str s); auto. Qed.

(** A plan of the catalogue is reported by [PaymentConfig.validate]
    exactly when its configured link is empty. *)
Lemma validate_lists_empty_links (payments : PaymentConfig) (plan_id : string)
    (p : Plan) :
  dict_get PLANS plan_id = Some p ->
  existsb (String.eqb plan_id) (PaymentConfig_validate payments)
  = negb (truthy_str (configured_link payments plan_id)).
Proof.
  intros Hp. apply plan_known in Hp.
  unfold PaymentConfig_validate, configured_link, get_links_dict.
  destruct (truthy_str_cases (week_link payments)) as [H1|H1],
           (truthy_str_cases (month_link payments)) as [H2|H2],
           (truthy_str_cases (three_month_link payments)) as [H3|H3],
           (truthy_str_cases (half_year_link payments)) as [H4|H4],
           (truthy_str_cases (year_link payments)) as [H5|H5],
           (truthy_str_cases (lifetime_link payments)) as [H6|H6];
    destruct Hp as [-> | [-> | [-> | [-> | [-> | ->]]]]];
    cbn [filter snd fst map dict_get String.eqb Ascii.eqb Bool.eqb negb existsb orb];
    rewrite ?H1, ?H2, ?H3, ?H4, ?H5, ?H6;
    cbn [filter snd fst map dict_get String.eqb Ascii.eqb Bool.eqb negb existsb orb];
    rewrite ?H1, ?H2, ?H3, ?H4, ?H5, ?H6; reflexivity.
Qed.

(** The reply of [select_plan]. *)
Lemma select_plan_reply (cfg : AppConfig) (payments : PaymentConfig)
    (user : TelegramUser) (data : string) (w : World) :
  exists lang w',
    select_plan cfg payments (CallbackUpdate user data) w
    = (Ok [plan_answer payments lang (last_segment data EmptyString)], w').
Proof.
  unfold select_plan, try_except, bind.
  destruct (get_user_language_keeps_tables (tg_id user) w) as (lang & wl & Hl & _).
  rewrite Hl. unfold plan_answer, PAYMENT_LINKS.
  set (plan_id := last_segment data EmptyString).
  destruct (dict_get PLANS plan_id) as [p|] eqn:Hp;
    [|exists lang, wl; reflexivity].
  rewrite (validate_lists_empty_links payments plan_id p Hp).
  fold (configured_link payments plan_id).
  destruct (negb (truthy_str (configured_link payments plan_id)));
    [exists lang, wl; reflexivity|].
  destruct (log_analytics_event_keeps_other_tables cfg (tg_id user)
              "plan_selected" (Some [("plan", JStr plan_id)]) wl)
    as (b & wa & Ha & _).
  rewrite Ha. exists lang, wa. reflexivity.
Qed.

(** X17. [select_plan] answers a pressed plan button by the plan
    identifier after the last underscore: an identifier outside the
    catalogue gets the invalid-plan notice, a plan that
    [PaymentConfig.validate] lists as missing its link gets the
    unavailable notice, and any other plan gets the payment instructions
    with its name, price and configured link.  Whatever the store does,
    selecting a plan writes no user, no subscription and no audit row. *)
Theorem select_plan_outcome (cfg : AppConfig) (payments : PaymentConfig)
    (user : TelegramUser) (data : string) (w : World) :
  exists lang w',
    select_plan cfg payments (CallbackUpdate user data) w
    = (Ok [plan_answer payments lang (last_segment data EmptyString)], w') /\
    users w' = users w /\ subscriptions w' = subscriptions w /\
    sub_seq w' = sub_seq w /\ audit_log w' = audit_log w.
Proof.
  unfold select_plan, try_except, bind.
  destruct (get_user_language_keeps_tables (tg_id user) w)
    as (lang & wl & Hl & (Hlu & Hls & Hlq & Hla & _) & _).
  rewrite Hl. unfold plan_answer, PAYMENT_LINKS.
  set (plan_id := last_segment data EmptyString).
  destruct (dict_get PLANS plan_id) as [p|] eqn:Hp.
  - rewrite (validate_lists_empty_links payments plan_id p Hp).
    fold (configured_link payments plan_id).
    destruct (negb (truthy_str (configured_link payments plan_id))).
    + exists lang, wl. repeat split; assumption.
    + destruct (log_analytics_event_keeps_other_tables cfg (tg_id user)
                  "plan_selected" (Some [("plan", JStr plan_id)]) wl)
        as (b & wa & Ha & Hau & Has & Haq & Haa & _).
      rewrite Ha. exists lang, wa. split; [reflexivity|].
      repeat split; congruence.
  - exists lang, wl. repeat split; assumption.
Qed.

(** X18. Every button that [show_subscription_plans] lays out is
    understood by [select_plan] as the plan it was made for: for each plan
    of the catalogue the button's callback data is 'select_plan_' followed
    by the plan identifier, its last segment is that identifier, and the
    answer is the unavailable notice or the payment instructions of that
    very plan. *)
Theorem plan_buttons_round_trip (cfg : AppConfig) (payments : PaymentConfig)
    (user : TelegramUser) (w : World) (plan_id : string) (p : Plan) :
  In (plan_id, p) PLANS ->
  In (plan_name p ++ " - " ++ plan_price p, "select_plan_" ++ plan_id)
     plans_keyboard /\
  last_segment ("select_plan_" ++ plan_id) EmptyString = plan_id /\
  exists lang w',
    select_plan cfg payments (CallbackUpdate user ("select_plan_" ++ plan_id)) w
    = (Ok [if truthy_str (configured_link payments plan_id)
           then PaymentInstructions lang (plan_name p) (plan_price p)
                                    (configured_link payments plan_id)
           else PaymentLinkUnavailable lang], w').
Proof.
  intros Hin.
  assert (Hkey : In (plan_name p ++ " - " ++ plan_price p, "select_plan_" ++ plan_id)
                    plans_keyboard).
  { unfold plans_keyboard. apply in_map_iff. exists (plan_id, p).
    split; [reflexivity | exact Hin]. }
  assert (Hfacts : last_segment ("select_plan_" ++ plan_id) EmptyString = plan_id /\
                   dict_get PLANS plan_id = Some p).
  { unfold PLANS in Hin. simpl in Hin.
    destruct Hin as [H|[H|[H|[H|[H|[H|[]]]]]]];
      injection H as H1 H2; subst plan_id p; split; reflexivity. }
  destruct Hfacts as [Hseg Hget].
  split; [exact Hkey|]. split; [exact Hseg|].
  destruct (select_plan_reply cfg payments user ("select_plan_" ++ plan_id) w)
    as (lang & w' & Hrun).
  exists lang, w'. rewrite Hrun, Hseg. unfold plan_answer. rewrite Hget.
  rewrite (validate_lists_empty_links payments plan_id p Hget).
  destruct (truthy_str (configured_link payments plan_id)); reflexivity.
Qed.

Lemma plan_buttons_round_trip_witness :
  exists lang w',
    select_plan config7 month_only (CallbackUpdate user42 "select_plan_month")
                grant_world
    = (Ok [PaymentInstructions lang "MONTH PASS" "$24.99"
             "https://pay.example/month"], w').
Proof.
  destruct (plan_buttons_round_trip config7 month_only user42 grant_world
              "month" (mkPlan "MONTH PASS" "$24.99" 30))
    as (_ & _ & lang & w' & Hrun).
  - right. left. reflexivity.
  - exists lang, w'. exact Hrun.
Defined.

(** ** Buttons and the registered handlers *)

Lemma prefix_app (p d : string) :
  String.prefix p d = true -> exists r, d = p ++ r.
Proof.
  revert d. induction p as [|c p IH]; intros d; simpl.
  - intros _. exists d. reflexivity.
  - destruct d as [|c' d]; simpl; [discriminate|].
    destruct (Ascii.ascii_dec c c') as [->|Hne]; [|discriminate].
    intros H. destruct (IH d H) as (r & ->). exists r. reflexivity.
Qed.

(** X19. Buttons that lead nowhere: the plan buttons ('select_plan_...'),
    'back_to_start', 'terms_decline', the settings buttons and
    'admin_panel' are shown by the menus, but [register_handlers_safely]
    registers no handler that takes them; unless the admin conversation
    handler does, pressing one produces no reply and changes nothing. *)
Theorem unregistered_buttons_do_nothing (py_int : string -> option Z)
    (set_user_language : Z -> string -> M unit) (cfg : AppConfig)
    (admin_handler : option Handler) (user : TelegramUser) (data : string)
    (w : World) :
  unregistered_button data ->
  conversation_declines admin_handler (CallbackUpdate user data) ->
  process_update
    (register_handlers_safely py_int set_user_language cfg admin_handler)
    (CallbackUpdate user data) w
  = (Ok [], w).
Proof.
  intros Hbtn Hdecl.
  assert (Hpat : String.prefix "set_lang_" data = false /\
                 String.prefix "age_verify_" data = false /\
                 terms_accept_pattern data = false /\
                 String.prefix "home_" data = false).
  { destruct Hbtn as [H | [-> | [-> | [H | ->]]]];
      try (repeat split; reflexivity);
      apply prefix_app in H; destruct H as (r & ->); repeat split; reflexivity. }
  destruct Hpat as (H1 & H2 & H3 & H4).
  unfold process_update, register_handlers_safely.
  assert (Hrest :
    find (fun h => check_update h (CallbackUpdate user data))
      ([CommandHandler "start" (start cfg) (fun _ => true)] ++
       match admin_configured cfg with
       | Some a => [CommandHandler "grant" (grant_callback py_int) (Filters_user a)]
       | None => []
       end ++
       [CallbackQueryHandler (handle_language_selection set_user_language cfg)
          (String.prefix "set_lang_");
        CallbackQueryHandler (handle_age_verification cfg)
          (String.prefix "age_verify_");
        CallbackQueryHandler (handle_terms_acceptance cfg) terms_accept_pattern;
        CallbackQueryHandler (handle_home_menu_buttons cfg)
          (String.prefix "home_")])%list = None).
  { destruct (admin_configured cfg); simpl; rewrite H1, H2, H3, H4; reflexivity. }
  destruct admin_handler as [h|]; simpl in Hdecl |- *.
  - rewrite Hdecl. simpl in Hrest. rewrite Hrest. reflexivity.
  - simpl in Hrest. rewrite Hrest. reflexivity.
Qed.

Lemma unregistered_buttons_do_nothing_witness :
  In ("MONTH PASS - $24.99", "select_plan_month") plans_keyboard /\
  process_update (register_handlers_safely decimal_int store_language config7 None)
    (CallbackUpdate user42 "select_plan_month") grant_world
  = (Ok [], grant_world).
Proof.
  split; [right; left; reflexivity|].
  apply (unregistered_buttons_do_nothing decimal_int store_language config7 None
           user42 "select_plan_month" grant_world).
  - left. reflexivity.
  - exact I.
Defined.

Lemma try_except_log_total {A} (m : M A) (site : string) (x : A) (w : World) :
  exists a w', try_except m (fun _ => logger_error site ;;; ret x) w = (Ok a, w').
Proof.
  unfold try_except. destruct (m w) as [[a|e] w']; eauto.
  unfold bind, logger_error, ret. eauto.
Qed.

(** X20. On the buttons that have a registered handler, the callback
    router [handle_callback_query] and the dispatcher over
    [register_handlers_safely] run the same handler: for callback data
    that starts with 'set_lang_', 'age_verify_' or 'home_' or is
    'terms_accept', both give the same replies and the same world. *)
Theorem router_agrees_with_registration (py_int : string -> option Z)
    (set_user_language : Z -> string -> M unit) (cfg : AppConfig)
    (payments : PaymentConfig) (user : TelegramUser) (data : string) (w : World) :
  registered_button data ->
  handle_callback_query set_user_language cfg payments (CallbackUpdate user data) w
  = lift_screens
      (process_update (register_handlers_safely py_int set_user_language cfg None)
                      (CallbackUpdate user data)) w.
Proof.
  intros [Hreg Hnl].
  assert (Hterms : terms_accept_pattern data = String.eqb data "terms_accept").
  { unfold terms_accept_pattern.
    replace (String.eqb data ("terms_accept" ++ newline)) with false
      by (symmetry; apply String.eqb_neq; exact Hnl).
    apply orb_false_r. }
  unfold handle_callback_query, process_update, register_handlers_safely.
  assert (Hfind :
    find (fun h => check_update h (CallbackUpdate user data))
      ([] ++ [CommandHandler "start" (start cfg) (fun _ => true)] ++
       match admin_configured cfg with
       | Some a => [CommandHandler "grant" (grant_callback py_int) (Filters_user a)]
       | None => []
       end ++
       [CallbackQueryHandler (handle_language_selection set_user_language cfg)
          (String.prefix "set_lang_");
        CallbackQueryHandler (handle_age_verification cfg)
          (String.prefix "age_verify_");
        CallbackQueryHandler (handle_terms_acceptance cfg) terms_accept_pattern;
        CallbackQueryHandler (handle_home_menu_buttons cfg)
          (String.prefix "home_")])%list
    = if String.prefix "set_lang_" data
      then Some (CallbackQueryHandler (handle_language_selection set_user_language cfg)
                   (String.prefix "set_lang_"))
      else if String.prefix "age_verify_" data
      then Some (CallbackQueryHandler (handle_age_verification cfg)
                   (String.prefix "age_verify_"))
      else if String.eqb data "terms_accept"
      then Some (CallbackQueryHandler (handle_terms_acceptance cfg)
                   terms_accept_pattern)
      else if String.prefix "home_" data
      then Some (CallbackQueryHandler (handle_home_menu_buttons cfg)
                   (String.prefix "home_"))
      else None).
  { destruct (admin_configured cfg); simpl; rewrite Hterms;
      destruct (String.prefix "set_lang_" data);
      destruct (String.prefix "age_verify_" data);
      destruct (String.eqb data "terms_accept");
      destruct (String.prefix "home_" data); reflexivity. }
  rewrite Hfind. clear Hfind.
  assert (Hcatch : forall (m : M (list (Screen + PlanScreen))),
            (exists a w', m w = (Ok a, w')) ->
            try_except m (fun _ => logger_error "handle_callback_query" ;;; ret []) w
            = m w).
  { intros m (a & w' & Hm). unfold try_except. rewrite Hm. reflexivity. }
  assert (Hlift : forall (h : M (list Screen)) site,
            (exists m0, h = try_except m0 (fun _ => logger_error site ;;; ret [])) ->
            exists a w', lift_screens h w = (Ok a, w')).
  { intros h site (m0 & ->).
    destruct (try_except_log_total m0 site [] w) as (a & w' & Ht).
    unfold lift_screens. unfold bind at 1. rewrite Ht.
    exists (map inl a), w'. reflexivity. }
  destruct (String.prefix "set_lang_" data) eqn:E1.
  { simpl. apply Hcatch.
    eapply Hlift. unfold handle_language_selection. eexists. reflexivity. }
  destruct (String.prefix "age_verify_" data) eqn:E2.
  { simpl. apply Hcatch.
    eapply Hlift. unfold handle_age_verification. eexists. reflexivity. }
  destruct (String.eqb data "terms_accept") eqn:E3.
  { simpl. apply Hcatch.
    eapply Hlift. unfold handle_terms_acceptance. eexists. reflexivity. }
  destruct (String.prefix "home_" data) eqn:E4.
  { simpl. apply Hcatch.
    eapply Hlift. unfold handle_home_menu_buttons. eexists. reflexivity. }
  exfalso. destruct Hreg as [H|[H|[H|H]]]; try congruence.
  subst data. discriminate.
Qed.

Lemma router_agrees_with_registration_witness :
  handle_callback_query store_language config7 month_only
    (CallbackUpdate user42 "home_status") grant_world
  = lift_screens
      (process_update (register_handlers_safely decimal_int store_language config7 None)
                      (CallbackUpdate user42 "home_status")) grant_world.
Proof.
  apply (router_agrees_with_registration decimal_int store_language config7
           month_only user42 "home_status" grant_world).
  split; [right; right; right; reflexivity | discriminate].
Defined.

(** ** Pages of users *)

Lemma insert_user_desc_perm (r : UserRow) (l : list UserRow) :
  Permutation (r :: l) (insert_user_desc r l).
Proof.
  induction l as [|y l IH]; simpl.
  - apply Permutation_refl.
  - destruct (order_leb (u_created_at y) (u_created_at r)).
    + apply Permutation_refl.
    + eapply perm_trans; [apply perm_swap|]. apply perm_skip, IH.
Qed.

Lemma order_by_created_at_desc_perm (l : list UserRow) :
  Permutation l (order_by_created_at_desc l).
Proof.
  induction l as [|y l IH]; simpl.
  - apply perm_nil.
  - eapply perm_trans; [apply perm_skip, IH|]. apply insert_user_desc_perm.
Qed.

Lemma insert_user_desc_sorted (r : UserRow) (l : list UserRow) :
  StronglySorted newest_first l -> StronglySorted newest_first (insert_user_desc r l).
Proof.
  induction 1 as [|x l Hs IH Hx]; simpl.
  - constructor; constructor.
  - destruct (order_leb (u_created_at x) (u_created_at r)) eqn:E.
    + constructor; [constructor; assumption|].
      constructor; [exact E|].
      rewrite Forall_forall in Hx |- *. intros y Hy. unfold newest_first.
      eapply order_leb_trans; [apply Hx, Hy | exact E].
    + constructor; [exact IH|].
      rewrite Forall_forall in Hx |- *. intros y Hy.
      apply (Permutation_in _ (Permutation_sym (insert_user_desc_perm r l))) in Hy.
      destruct Hy as [<-|Hy]; [|apply Hx, Hy].
      unfold newest_first. apply order_leb_total, E.
Qed.

Lemma order_by_created_at_desc_sorted (l : list UserRow) :
  StronglySorted newest_first (order_by_created_at_desc l).
Proof.
  induction l as [|y l IH]; simpl; [constructor|].
  apply insert_user_desc_sorted, IH.
Qed.

Lemma firstn_plus {A} (a b : nat) (l : list A) :
  firstn (a + b) l = (firstn a l ++ firstn b (skipn a l))%list.
Proof.
  revert l. induction a as [|a IH]; intros l; simpl; [reflexivity|].
  destruct l as [|x l]; simpl.
  - rewrite firstn_nil. reflexivity.
  - f_equal. apply IH.
Qed.

Lemma get_all_users_run (limit offset : Z) (w : World) :
  get_all_users limit offset w =
  if fault_due w
  then (Ok [], set_error_log (error_log w ++ ["get_all_users"]) (pop_fault w))
  else (Ok (limit_offset limit offset (order_by_created_at_desc (users w))),
        pop_fault w).
Proof.
  unfold get_all_users, try_except, bind, execute_query.
  rewrite get_connection_run. destruct (fault_due w); reflexivity.
Qed.

Lemma user_pages_firstn (k : nat) (n : Z) (w : World) :
  faults w = [] -> 0 <= n ->
  user_pages k n w
  = firstn (k * Z.to_nat n) (order_by_created_at_desc (users w)).
Proof.
  intros Hf Hn. unfold user_pages. induction k as [|k IH].
  - reflexivity.
  - rewrite seq_S, flat_map_app, IH. simpl flat_map. rewrite app_nil_r.
    unfold returned_rows. rewrite get_all_users_run, (fault_due_no_faults _ Hf).
    simpl fst. unfold limit_offset.
    replace (n <? 0) with false by (symmetry; apply Z.ltb_ge; lia).
    change (0 + k)%nat with k.
    replace (Z.to_nat (Z.of_nat k * n)) with (k * Z.to_nat n)%nat
      by (rewrite Z2Nat.inj_mul, Nat2Z.id by lia; reflexivity).
    replace (S k * Z.to_nat n)%nat with (k * Z.to_nat n + Z.to_nat n)%nat
      by (simpl; lia).
    rewrite firstn_plus. reflexivity.
Qed.

(** X21. Paging through [get_all_users] loses and repeats nobody: when
    the store answers, reading pages of a positive size one after the
    other until they cover the number of stored users yields every row of
    the users table exactly once, newest first. *)
Theorem user_pages_cover (k : nat) (n : Z) (w : World) :
  faults w = [] ->
  0 < n ->
  Z.of_nat (List.length (users w)) <= Z.of_nat k * n ->
  Permutation (users w) (user_pages k n w) /\
  StronglySorted newest_first (user_pages k n w).
Proof.
  intros Hf Hn Hcover.
  rewrite (user_pages_firstn k n w Hf) by lia.
  assert (Hlen : (List.length (order_by_created_at_desc (users w))
                  <= k * Z.to_nat n)%nat).
  { rewrite <- (Permutation_length (order_by_created_at_desc_perm (users w))).
    apply Nat2Z.inj_le. rewrite Nat2Z.inj_mul, Z2Nat.id by lia. exact Hcover. }
  rewrite (firstn_all2 _ Hlen).
  split; [apply order_by_created_at_desc_perm | apply order_by_created_at_desc_sorted].
Qed.

Lemma user_pages_cover_witness :
  map u_id (user_pages 2 2 three_users_world) = [1; 3; 2] /\
  Permutation (users three_users_world) (user_pages 2 2 three_users_world).
Proof.
  split; [reflexivity|].
  apply (user_pages_cover 2 2 three_users_world); [reflexivity | lia | simpl; lia].
Defined.

(** ** Onboarding answers *)

Lemma filter_absent (tid : Z) (us : list UserRow) :
  existsb (fun u => u_telegram_id u =? tid) us = false ->
  filter (fun u => u_telegram_id u =? tid) us = [].
Proof.
  induction us as [|u us IH]; simpl; [reflexivity|].
  destruct (u_telegram_id u =? tid); simpl; [discriminate | exact IH].
Qed.

(** X22. A language choice from a user who has no users row is answered
    with the error notice and is not stored: [set_user_language] is not
    called, no analytics event is written and every table is left as it
    was, whatever the storage does. *)
Theorem language_choice_of_unknown_user (set_user_language : Z -> string -> M unit)
    (cfg : AppConfig) (user : TelegramUser) (data : string) (w : World) :
  user_exists (tg_id user) w = false ->
  exists w',
    handle_language_selection set_user_language cfg (CallbackUpdate user data) w
    = (Ok [EditError], w') /\
    tables_unchanged w w'.
Proof.
  intros Hnone. unfold handle_language_selection, try_except, bind.
  rewrite get_user_run. unfold user_exists in Hnone.
  rewrite (filter_absent _ _ Hnone).
  destruct (fault_due w); eexists; (split; [reflexivity|]); repeat split.
Qed.

Lemma language_choice_of_unknown_user_witness :
  user_exists 9 grant_world = false /\
  exists w',
    handle_language_selection store_language config7
      (CallbackUpdate user9 "set_lang_en") grant_world
    = (Ok [EditError], w') /\
    tables_unchanged grant_world w'.
Proof.
  split; [reflexivity|].
  apply (language_choice_of_unknown_user store_language config7 user9
           "set_lang_en" grant_world).
  reflexivity.
Defined.

(** X23. Accepting the terms does not depend on the earlier gates and is
    not stored: with the store up, [handle_terms_acceptance] answers any
    user, whatever was or was not answered before, with the completion
    notice followed by the main menu of [/start], and writes no
    subscription and no audit row. *)
Theorem terms_acceptance_leads_to_menu (cfg : AppConfig) (user : TelegramUser)
    (data : string) (w : World) :
  faults w = [] ->
  tg_language_code user <> Some "unknown" ->
  exists lang status_active access_button w',
    handle_terms_acceptance cfg (CallbackUpdate user data) w
    = (Ok [OnboardingComplete lang;
           MainMenu (Some (or_es (tg_language_code user))) status_active
                    access_button (is_admin_user cfg (tg_id user))], w') /\
    subscriptions w' = subscriptions w /\ audit_log w' = audit_log w.
Proof.
  intros Hf Hlang. unfold handle_terms_acceptance, try_except, bind.
  destruct (get_user_language_keeps_tables (tg_id user) w)
    as (lang & wl & Hl & (_ & Hls & _ & Hla & _) & _ & _ & Hlf).
  rewrite Hl.
  destruct (log_analytics_event_keeps_other_tables cfg (tg_id user)
              "terms_accepted" None wl)
    as (b & wa & Ha & _ & Has & _ & Haa & Haf).
  rewrite Ha.
  destruct (start_effect cfg (CallbackUpdate user data) user wa eq_refl
              (Haf (Hlf Hf)))
    as (screens & w' & Hrun & Hmenu & _ & _ & Hss & Hsa).
  rewrite Hrun. destruct (Hmenu Hlang) as (sa & ab & ->).
  exists lang, sa, ab, w'. split; [reflexivity|]. split; congruence.
Qed.

Lemma terms_acceptance_leads_to_menu_witness :
  user_exists 9 grant_world = false /\
  exists lang status_active access_button w',
    handle_terms_acceptance config7 (CallbackUpdate user9 "terms_accept") grant_world
    = (Ok [OnboardingComplete lang;
           MainMenu (Some "es") status_active access_button false], w').
Proof.
  split; [reflexivity|].
  destruct (terms_acceptance_leads_to_menu config7 user9 "terms_accept" grant_world)
    as (lang & sa & ab & w' & Hrun & _); [reflexivity | discriminate |].
  exists lang, sa, ab, w'. exact Hrun.
Defined.

(** ** Analytics: what a logged event stores *)

(** X24. With analytics disabled [log_analytics_event] returns true and
    changes nothing.  With analytics enabled, the store answering and the
    user stored, it returns true and appends exactly one row to the
    analytics table: the user, the event type, the current timestamp and,
    as payload, the whole dictionary it was given; a missing or empty
    dictionary is stored as NULL.  The other tables are left as they were. *)
Theorem log_analytics_event_stores_payload (cfg : AppConfig) (user_id : Z)
    (event_type : string) (event_data : option EventData) (w : World) :
  (enable_analytics cfg = false ->
   log_analytics_event cfg user_id event_type event_data w = (Ok true, w)) /\
  (enable_analytics cfg = true -> fault_due w = false ->
   (exists u, In u (users w) /\ u_telegram_id u = user_id) ->
   exists row w',
     log_analytics_event cfg user_id event_type event_data w = (Ok true, w') /\
     analytics_events w' = (analytics_events w ++ [row])%list /\
     e_user_id row = Some user_id /\ e_event_type row = event_type /\
     e_created_at row = Some (current_timestamp w) /\
     (forall entry entries, event_data = Some (entry :: entries) ->
                            e_event_data row = Some (entry :: entries)) /\
     (event_data = None \/ event_data = Some [] -> e_event_data row = None) /\
     users w' = users w /\ subscriptions w' = subscriptions w /\
     sub_seq w' = sub_seq w /\ audit_log w' = audit_log w).
Proof.
  rewrite log_analytics_event_run. split.
  - intros ->. reflexivity.
  - intros -> -> (u & Hin & Hu). cbn [negb].
    assert (Hfk : fk_user_ok (Some user_id) w = true).
    { apply existsb_exists. exists u. split; [exact Hin | apply Z.eqb_eq, Hu]. }
    rewrite Hfk. eexists. eexists. split; [reflexivity|].
    split; [reflexivity|]. simpl.
    do 3 (split; [reflexivity|]).
    split; [intros entry entries ->; reflexivity|].
    split; [intros [-> | ->]; reflexivity|].
    repeat split.
Qed.

Lemma log_analytics_event_stores_payload_witness :
  exists w',
    log_analytics_event config7 42 "plan_selected" (Some [("plan", JStr "month")])
                        grant_world = (Ok true, w') /\
    analytics_events w'
    = [mkAnalyticsRow (Some 42) "plan_selected" (Some [("plan", JStr "month")])
                      (Some 1000)].
Proof.
  destruct (log_analytics_event_stores_payload config7 42 "plan_selected"
              (Some [("plan", JStr "month")]) grant_world) as [_ Hon].
  destruct (Hon eq_refl eq_refl) as (row & w' & Hrun & Hrows & Hu & Ht & Hc & Hd & _).
  - exists (plain_user_row 1 42). split; [left|]; reflexivity.
  - exists w'. split; [exact Hrun|]. rewrite Hrows. simpl.
    destruct row as [ru rt rd rc]. simpl in Hu, Ht, Hc, Hd.
    rewrite (Hd _ _ eq_refl). subst. reflexivity.
Defined.
